(** * Daily Notes Digest: a shallow embedding of the plugin's core

    The development follows the plugin class of the repository
    (DailyNotesDigestPlugin): the path resolver, the prompt builder, the
    summarization client, the day processor and the archivist.  Pure
    helpers of the class are Rocq functions over strings; the methods
    that touch the vault, the network or the settings object run in a
    state-and-exception monad over an explicit [World].  The clock is
    outside the world: every [new Date()] of a method is an argument of
    its embedding, one argument for each place where the clock is read,
    so that two readings of one run may differ. *)

From Stdlib Require Import ZArith List String Ascii Lia Bool.
From stdpp Require Import base strings gmap pretty sorting.

Local Open Scope Z_scope.
Local Open Scope stdpp_scope.

(** ** JavaScript strings

    A string of the model is a Rocq [string]; a character stands for one
    UTF-16 code unit below 256.  [String.length] is the JS [length]. *)

Module Js.

Definition LF : string := String "010"%char "".

(** Truthiness of a string: only the empty string is falsy. *)
Definition truthy (s : string) : bool :=
  match s with "" => false | String _ _ => true end.

(** White space and line terminators of ECMAScript that fit in one
    character of the model: TAB, LF, VT, FF, CR, SP and NBSP. *)
Definition isWhiteSpace (c : ascii) : bool :=
  match c with
  | "009" | "010" | "011" | "012" | "013" | " " | "160" => true
  | _ => false
  end%char.

Fixpoint trimStart (s : string) : string :=
  match s with
  | "" => ""
  | String c r => if isWhiteSpace c then trimStart r else s
  end.

(** [trimEnd] keeps a character when it is not white space or when
    something is left after it. *)
Fixpoint trimEnd (s : string) : string :=
  match s with
  | "" => ""
  | String c r =>
      match trimEnd r with
      | "" => if isWhiteSpace c then "" else String c ""
      | r' => String c r'
      end
  end.

Definition trim (s : string) : string := trimEnd (trimStart s).

(** [s.split(sep)] for a one-character separator: never the empty list. *)
Fixpoint split (sep : ascii) (s : string) : list string :=
  match s with
  | "" => [""]
  | String c r =>
      if Ascii.eqb c sep then "" :: split sep r
      else match split sep r with
           | h :: t => String c h :: t
           | [] => [String c ""]
           end
  end.

(** [parts.join(sep)]. *)
Fixpoint join (sep : string) (parts : list string) : string :=
  match parts with
  | [] => ""
  | [p] => p
  | p :: rest => p +:+ sep +:+ join sep rest
  end.

(** [parts.pop() ?? ""] on a fresh array: its last element. *)
Definition pop (parts : list string) : string := List.last parts "".

(** [parts.slice(0, -1)]. *)
Definition slice_init (parts : list string) : list string := removelast parts.

(** [parts.filter(Boolean)] on strings. *)
Definition filterBoolean (parts : list string) : list string :=
  List.filter truthy parts.

(** [a < b] on strings: lexicographic on code units. *)
Definition lt (a b : string) : bool := String.ltb a b.

Fixpoint startsWith (p s : string) : bool :=
  match p, s with
  | "", _ => true
  | String a p', String b s' => Ascii.eqb a b && startsWith p' s'
  | String _ _, "" => false
  end.

(** GetSubstitution of ECMAScript for a string pattern (no captures):
    in the replacement text, [$$] is a dollar, [$&] the matched text,
    [$`] the text before the match and [$'] the text after it; any other
    character, a lone dollar included, stands for itself. *)
Fixpoint getSubstitution (matched before after templ : string) : string :=
  match templ with
  | "" => ""
  | String "$" (String "$" r) => String "$" (getSubstitution matched before after r)
  | String "$" (String "&" r) => matched +:+ getSubstitution matched before after r
  | String "$" (String "`" r) => before +:+ getSubstitution matched before after r
  | String "$" (String "'" r) => after +:+ getSubstitution matched before after r
  | String c r => String c (getSubstitution matched before after r)
  end.

Fixpoint drop (n : nat) (s : string) : string :=
  match n, s with
  | O, _ => s
  | S n', String _ r => drop n' r
  | S _, "" => ""
  end.

(** [s.replaceAll(search, repl)] for a non-empty [search]: the matches
    are found left to right without overlap; [skip] counts the
    characters of the current match still to pass over and [before] is
    the text already scanned. *)
Fixpoint replaceAll_go (search repl : string) (skip : nat)
    (before s : string) : string :=
  match s with
  | "" => ""
  | String c r =>
      match skip with
      | S k => replaceAll_go search repl k (before +:+ String c "") r
      | O =>
          if startsWith search s then
            getSubstitution search before (drop (String.length search) s) repl
            +:+ replaceAll_go search repl (String.length search - 1)
                  (before +:+ String c "") r
          else String c (replaceAll_go search repl 0 (before +:+ String c "") r)
      end
  end.

Definition replaceAll (s search repl : string) : string :=
  replaceAll_go search repl 0 "" s.

(** [`${n}`.padStart(2, "0")] for an integer [n]. *)
Definition padStart2 (n : Z) : string :=
  let s := pretty n in
  if (String.length s <? 2)%nat then "0" +:+ s else s.

End Js.

(** ** The host library: [normalizePath]

    The plugin imports [normalizePath] from the host; the repository's
    own stand-in for it (used by its test suite) turns every backslash
    into a slash and then collapses every run of slashes into one. *)

Fixpoint replaceBackslashes (s : string) : string :=
  match s with
  | "" => ""
  | String c r =>
      String (if Ascii.eqb c "\" then "/"%char else c) (replaceBackslashes r)
  end.

Fixpoint collapseSlashes (s : string) : string :=
  match s with
  | "" => ""
  | String c r =>
      if Ascii.eqb c "/" then
        match r with
        | String "/" _ => collapseSlashes r
        | _ => String "/" (collapseSlashes r)
        end
      else String c (collapseSlashes r)
  end.

Definition normalizePath (value : string) : string :=
  collapseSlashes (replaceBackslashes value).

(** ** Dates

    A [Date] is the local-time view of a JS Date: the calendar fields the
    plugin reads, and the time of day it never reads. *)

Record Date := mkDate {
  fullYear : Z;      (* getFullYear() *)
  month : Z;         (* getMonth(), 0 to 11 *)
  date : Z;          (* getDate(), 1 to 31 *)
  msOfDay : Z        (* milliseconds since local midnight *)
}.

Definition isLeapYear (y : Z) : bool :=
  ((y mod 4 =? 0) && negb (y mod 100 =? 0)) || (y mod 400 =? 0).

Definition daysInMonth (y m : Z) : Z :=
  if m =? 1 then (if isLeapYear y then 29 else 28)
  else if (m =? 3) || (m =? 5) || (m =? 8) || (m =? 10) then 30
  else 31.

Definition validDate (d : Date) : Prop :=
  0 <= month d <= 11 /\ 1 <= date d <= daysInMonth (fullYear d) (month d).

(** [d.setDate(n)] in local time, for the arguments the plugin passes
    ([getDate() - 1], so 0 to 30): day [n] of the month when [n] is at
    least 1, and otherwise counted back from the end of the month
    before. *)
Definition setDate (d : Date) (n : Z) : Date :=
  if 1 <=? n then mkDate (fullYear d) (month d) n (msOfDay d)
  else if month d =? 0 then
    mkDate (fullYear d - 1) 11 (daysInMonth (fullYear d - 1) 11 + n) (msOfDay d)
  else
    mkDate (fullYear d) (month d - 1)
      (daysInMonth (fullYear d) (month d - 1) + n) (msOfDay d).

Definition getLocalDateStamp (d : Date) : string :=
  let year := fullYear d in
  let month := Js.padStart2 (month d + 1) in
  let day := Js.padStart2 (date d) in
  pretty year +:+ "-" +:+ month +:+ "-" +:+ day.

(** [getYesterdayStamp] reads the clock; [now] is its [new Date()]. *)
Definition getYesterdayStamp (now : Date) : string :=
  let yesterdayDate := setDate now (date now - 1) in
  getLocalDateStamp yesterdayDate.

Definition isDateStampBefore (a b : string) : bool := Js.lt a b.

(** ** Settings *)

(** Modelled from the spec: the settings type (its module is not among
    the sources), with the fields of the specification's configuration
    table, which are the fields the plugin class reads and writes. *)
Record DailyNotesDigestSettings := mkSettings {
  dailyNotesFolder : string;
  outputFolder : string;
  llmEndpoint : string;
  apiKey : string;
  model : string;
  promptTemplate : string;
  checkIntervalMinutes : Z;
  sortDailyNotesAndSummaries : bool;
  lastProcessedDate : string
}.

Definition set_lastProcessedDate (s : DailyNotesDigestSettings) (d : string)
    : DailyNotesDigestSettings :=
  mkSettings (dailyNotesFolder s) (outputFolder s) (llmEndpoint s) (apiKey s)
    (model s) (promptTemplate s) (checkIntervalMinutes s)
    (sortDailyNotesAndSummaries s) d.

(** ** Date parts and file-name patterns *)

(** The result of [getDateParts]: destructuring [[year, month]] out of an
    array leaves a component [undefined] ([None]) when the array is too
    short. *)
Record DateParts := mkParts { year : option string; month_part : option string }.

Definition getDateParts (dateStamp : string) : DateParts :=
  let parts := Js.split "-" dateStamp in
  mkParts (nth_error parts 0) (nth_error parts 1).

(** A component inside a template literal: [undefined] prints its name. *)
Definition interp (v : option string) : string :=
  match v with Some s => s | None => "undefined" end.

Definition isDigit (c : ascii) : bool :=
  match c with
  | "0" | "1" | "2" | "3" | "4" | "5" | "6" | "7" | "8" | "9" => true
  | _ => false
  end%char.

(** The common head [\d{4}-\d{2}-\d{2}] of the two file-name patterns,
    anchored at the start: the captured stamp and what follows it. *)
Definition matchStampHead (s : string) : option (string * string) :=
  match s with
  | String y1 (String y2 (String y3 (String y4 (String h1
      (String m1 (String m2 (String h2 (String d1 (String d2 rest))))))))) =>
      if isDigit y1 && isDigit y2 && isDigit y3 && isDigit y4
         && Ascii.eqb h1 "-" && isDigit m1 && isDigit m2
         && Ascii.eqb h2 "-" && isDigit d1 && isDigit d2
      then Some (String y1 (String y2 (String y3 (String y4 (String h1
             (String m1 (String m2 (String h2 (String d1 (String d2 ""))))))))),
                 rest)
      else None
  | _ => None
  end.

(** [filename.match(/^(\d{4}-\d{2}-\d{2})\.md$/)], group 1. *)
Definition getDailyNoteDateStamp (filename : string) : option string :=
  match matchStampHead filename with
  | Some (stamp, rest) => if String.eqb rest ".md" then Some stamp else None
  | None => None
  end.

(** [filename.match(/^(\d{4}-\d{2}-\d{2})_summary\.md$/)], group 1. *)
Definition getSummaryDateStamp (filename : string) : option string :=
  match matchStampHead filename with
  | Some (stamp, rest) => if String.eqb rest "_summary.md" then Some stamp else None
  | None => None
  end.

(** A canonical calendar-day key: exactly [YYYY-MM-DD] in digits. *)
Definition canonicalKey (day : string) : bool :=
  match matchStampHead day with
  | Some (_, rest) => String.eqb rest ""
  | None => false
  end.

(** ** Path resolver

    Both methods read [this.settings] and the clock: [s] is the settings
    object and [now] the [new Date()] of the call ([getDailyNotePath]
    reads the clock itself, [getSummaryPath] inside [getYesterdayStamp],
    and only when sorting is on). *)

Definition getDailyNotePath (s : DailyNotesDigestSettings) (now : Date)
    (dateStamp : string) : string :=
  let today := getLocalDateStamp now in
  if sortDailyNotesAndSummaries s && negb (String.eqb dateStamp today) then
    let p := getDateParts dateStamp in
    normalizePath
      (dailyNotesFolder s +:+ "/" +:+ interp (year p) +:+ "/"
         +:+ interp (month_part p) +:+ "/" +:+ dateStamp +:+ ".md")
  else normalizePath (dailyNotesFolder s +:+ "/" +:+ dateStamp +:+ ".md").

Definition getSummaryPath (s : DailyNotesDigestSettings) (now : Date)
    (dateStamp : string) : string :=
  if sortDailyNotesAndSummaries s
     && isDateStampBefore dateStamp (getYesterdayStamp now) then
    let p := getDateParts dateStamp in
    normalizePath
      (outputFolder s +:+ "/" +:+ interp (year p) +:+ "/"
         +:+ interp (month_part p) +:+ "/" +:+ dateStamp +:+ "_summary.md")
  else normalizePath (outputFolder s +:+ "/" +:+ dateStamp +:+ "_summary.md").

Definition exampleSettings (sort : bool) : DailyNotesDigestSettings :=
  mkSettings "Daily" "Daily Summaries" "https://example.com/chat" "test-key"
    "gpt-4o-mini" "Digest for {{date}}" 60 sort "".

(** ** Chat messages, requests and responses *)

Inductive Role := system | user.

Record ChatMessage := mkMessage { role : Role; content : string }.

(** A JavaScript value as found in a parsed response body.  The
    properties of an object are listed with their keys; a key is looked
    up from the front of the list. *)
#[warning="-register-all"]
Inductive JsValue :=
  | JUndefined
  | JNull
  | JBool (b : bool)
  | JNumber (n : Z)
  | JString (s : string)
  | JArray (items : list JsValue)
  | JObject (props : list (string * JsValue)).

Fixpoint lookupProp (props : list (string * JsValue)) (key : string) : JsValue :=
  match props with
  | [] => JUndefined
  | (k, v) :: rest => if String.eqb k key then v else lookupProp rest key
  end.

(** [v?.key] for a key that no prototype defines ([choices], [message],
    [content]): only an object can answer. *)
Definition optProp (v : JsValue) (key : string) : JsValue :=
  match v with
  | JObject props => lookupProp props key
  | _ => JUndefined
  end.

(** [v?.[0]]: the first element of an array, the first character of a
    string, the property ["0"] of an object. *)
Definition optIndex0 (v : JsValue) : JsValue :=
  match v with
  | JArray (x :: _) => x
  | JString (String c _) => JString (String c "")
  | JObject props => lookupProp props "0"
  | _ => JUndefined
  end.

(** The body handed to [JSON.stringify], before serialization;
    [temperature] is kept as its decimal literal. *)
Record RequestBody := mkBody {
  body_model : string;
  body_messages : list ChatMessage;
  body_temperature : string
}.

Record RequestUrlParam := mkRequest {
  req_method : string;
  req_url : string;
  req_headers : list (string * string);
  req_body : RequestBody
}.

Record RequestUrlResponse := mkResponse { status : Z; json : JsValue }.

(** A thrown value: every throw of the plugin is [new Error(message)]. *)
Record Error := mkError { message : string }.

(** ** The world the plugin runs in *)

(** Modelled from the spec: the vault behind the storage adapter, file
    contents by path and the set of folders created on their own. *)
Record Vault := mkVault { files : gmap string string; folders : gset string }.

Inductive Event :=
  | Requested (req : RequestUrlParam)
  | Wrote (path text : string)
  | Renamed (oldPath newPath : string)
  | CreatedFolder (path : string)
  | Noticed (msg : string)
  | ConsoleError (msg : string)
  | SavedData (s : DailyNotesDigestSettings).

(** [trace] lists the effects so far, oldest first.  [requestUrl] is the
    transport: it answers a request with a response or rejects. *)
Record World := mkWorld {
  vault : Vault;
  settings : DailyNotesDigestSettings;
  requestUrl : RequestUrlParam -> Error + RequestUrlResponse;
  trace : list Event
}.

Definition emit (e : Event) (w : World) : World :=
  mkWorld (vault w) (settings w) (requestUrl w) (trace w ++ [e]).

Definition with_vault (v : Vault) (w : World) : World :=
  mkWorld v (settings w) (requestUrl w) (trace w).

Definition with_settings (s : DailyNotesDigestSettings) (w : World) : World :=
  mkWorld (vault w) s (requestUrl w) (trace w).

(** ** State and exceptions

    A computation returns a value or throws, and leaves a world either
    way: a throw does not undo the effects before it. *)

Definition M (A : Type) : Type := World -> (Error + A) * World.

Definition ret {A} (a : A) : M A := fun w => (inr a, w).

Definition throw {A} (e : Error) : M A := fun w => (inl e, w).

Definition bind {A B} (m : M A) (k : A -> M B) : M B :=
  fun w =>
    match m w with
    | (inr a, w') => k a w'
    | (inl e, w') => (inl e, w')
    end.

Definition tryCatch {A} (body : M A) (handler : Error -> M A) : M A :=
  fun w =>
    match body w with
    | (inr a, w') => (inr a, w')
    | (inl e, w') => handler e w'
    end.

Notation "x <- c1 ;; c2" := (bind c1 (fun x => c2))
  (at level 100, c1 at next level, right associativity).
Notation "c1 ;; c2" := (bind c1 (fun _ => c2))
  (at level 100, right associativity).

Definition getSettings : M DailyNotesDigestSettings := fun w => (inr (settings w), w).
Definition newNotice (msg : string) : M unit := fun w => (inr tt, emit (Noticed msg) w).
Definition consoleError (msg : string) : M unit :=
  fun w => (inr tt, emit (ConsoleError msg) w).

(** ** Storage gateway

    The vault adapter is the host's; the plugin knows its interface
    only.  The operations below follow the interface as the
    specification gives it: existence check, read, create-or-overwrite
    write, rename (a move, refused when the source is missing or the
    target is taken), listing of the files directly inside a folder, and
    folder creation (refused when the path is taken or the parent folder
    is missing).  An operation rejects only as its interface says, for a
    reason in the vault; a host that fails for a reason of its own (a
    disk error in [exists], [write] or [list]) is outside the model, and
    so is a failing [saveData]. *)

(** The folder a path lies in: the path without its last segment. *)
Definition parentPath (p : string) : string :=
  Js.join "/" (Js.slice_init (Js.split "/" p)).

(** Modelled from the spec: a path is a folder when it was created as
    one or when some file lies below it. *)
Definition vault_isFolder (v : Vault) (p : string) : bool :=
  bool_decide (p ∈ folders v)
  || existsb (fun q => Js.startsWith (p +:+ "/") q)
       (List.map fst (map_to_list (files v))).

(** Modelled from the spec: [exists(path)], true for a file and for a
    folder. *)
Definition vault_exists (v : Vault) (p : string) : bool :=
  bool_decide (is_Some (files v !! p)) || vault_isFolder v p.

(** Modelled from the spec: [list(folder).files], the paths of the
    files directly inside the folder, not below.  The interface leaves
    the order open; the model lists them in the order of their paths, so
    that a folder with the same files is always listed the same way. *)
Definition vault_list (v : Vault) (folder : string) : list string :=
  merge_sort String.le
    (List.filter (fun p => String.eqb (parentPath p) folder)
       (List.map fst (map_to_list (files v)))).

(** [adapter.exists(path)] *)
Definition adapter_exists (p : string) : M bool :=
  fun w => (inr (vault_exists (vault w) p), w).

(** Modelled from the spec: [read(path)], the text of a file; it
    rejects when there is no file. *)
Definition adapter_read (p : string) : M string :=
  fun w =>
    match files (vault w) !! p with
    | Some text => (inr text, w)
    | None => (inl (mkError ("ENOENT: no such file or directory: " +:+ p)), w)
    end.

(** Modelled from the spec: [write(path, text)], create or overwrite. *)
Definition adapter_write (p text : string) : M unit :=
  fun w =>
    (inr tt,
     emit (Wrote p text)
       (with_vault (mkVault (<[p := text]> (files (vault w))) (folders (vault w))) w)).

(** Modelled from the spec: [rename(oldPath, newPath)], a move; it
    rejects when the source is missing or the target is taken. *)
Definition adapter_rename (oldPath newPath : string) : M unit :=
  fun w =>
    match files (vault w) !! oldPath with
    | None => (inl (mkError ("ENOENT: no such file or directory: " +:+ oldPath)), w)
    | Some text =>
        if vault_exists (vault w) newPath
        then (inl (mkError "Destination file already exists!"), w)
        else
          (inr tt,
           emit (Renamed oldPath newPath)
             (with_vault
                (mkVault (<[newPath := text]> (delete oldPath (files (vault w))))
                   (folders (vault w))) w))
    end.

(** [adapter.list(folder)] *)
Definition adapter_list (folder : string) : M (list string) :=
  fun w => (inr (vault_list (vault w) folder), w).

(** Modelled from the spec: [createFolder(path)]; it rejects when the
    path is taken or the parent folder is missing. *)
Definition vault_createFolder (p : string) : M unit :=
  fun w =>
    if vault_exists (vault w) p
    then (inl (mkError "Folder already exists."), w)
    else if Js.truthy (parentPath p)
            && negb (vault_isFolder (vault w) (parentPath p))
    then (inl (mkError ("ENOENT: no such file or directory: " +:+ p)), w)
    else
      (inr tt,
       emit (CreatedFolder p)
         (with_vault (mkVault (files (vault w)) ({[p]} ∪ folders (vault w))) w)).

(** The transport: one request, logged when issued. *)
Definition doRequestUrl (req : RequestUrlParam) : M RequestUrlResponse :=
  fun w =>
    match requestUrl w req with
    | inr resp => (inr resp, emit (Requested req) w)
    | inl e => (inl e, emit (Requested req) w)
    end.

(** [saveSettings]: hands the settings object to the host's store. *)
Definition saveSettings : M unit :=
  fun w => (inr tt, emit (SavedData (settings w)) w).

(** ** Summarization client *)

Definition buildMessages (s : DailyNotesDigestSettings) (dateStamp note : string)
    : list ChatMessage :=
  let instructionContent := Js.replaceAll (promptTemplate s) "{{date}}" dateStamp in
  [ mkMessage system instructionContent;
    mkMessage user ("Daily note for " +:+ dateStamp +:+ ":" +:+ Js.LF +:+ Js.LF +:+ note) ].

(** [response.json?.choices?.[0]?.message?.content] *)
Definition responseContent (response : RequestUrlResponse) : JsValue :=
  optProp (optProp (optIndex0 (optProp (json response) "choices")) "message") "content".

Definition callLlm (messages : list ChatMessage) : M string :=
  s <- getSettings ;;
  if negb (Js.truthy (Js.trim (llmEndpoint s))) then
    throw (mkError "LLM endpoint is empty")
  else
    let headers :=
      ("Content-Type", "application/json")
      :: (if Js.truthy (Js.trim (apiKey s))
          then [("Authorization", "Bearer " +:+ Js.trim (apiKey s))]
          else []) in
    response <- doRequestUrl
      (mkRequest "POST" (llmEndpoint s) headers (mkBody (model s) messages "0.2")) ;;
    if negb (status response =? 200) then
      throw (mkError ("LLM request failed (" +:+ pretty (status response) +:+ ")"))
    else
      match responseContent response with
      | JString content => ret content
      | _ => throw (mkError "Unexpected LLM response shape")
      end.

(** ** Folder creation *)

(** The loop of [ensureFolderExists] over the path segments. *)
Fixpoint ensureSegments (parts : list string) (current : string) : M unit :=
  match parts with
  | [] => ret tt
  | part :: rest =>
      let current := if Js.truthy current then current +:+ "/" +:+ part else part in
      segmentExists <- adapter_exists current ;;
      (if negb segmentExists then vault_createFolder current else ret tt) ;;
      ensureSegments rest current
  end.

Definition ensureFolderExists (folderPath : string) : M unit :=
  let normalized := normalizePath folderPath in
  if negb (Js.truthy normalized) || String.eqb normalized "." then ret tt
  else
    exists_ <- adapter_exists normalized ;;
    if exists_ then ret tt
    else ensureSegments (Js.filterBoolean (Js.split "/" normalized)) "".

(** ** Day processor *)

Definition backlinkOf (dateStamp : string) : string :=
  Js.LF +:+ Js.LF +:+ "---" +:+ Js.LF +:+ Js.LF
    +:+ "[Original note](" +:+ dateStamp +:+ ")".

(** The steps after a summary came back: the empty-result guard, the
    backlink, the folders, the write and the marker. *)
Definition persistSummary (dateStamp outputPath summary : string) : M unit :=
  if negb (Js.truthy summary) then newNotice "LLM returned an empty summary"
  else
    let backlink := backlinkOf dateStamp in
    let finalContent := Js.trim summary +:+ backlink in
    s <- getSettings ;;
    ensureFolderExists (outputFolder s) ;;
    let outputDir := Js.join "/" (Js.slice_init (Js.split "/" outputPath)) in
    ensureFolderExists outputDir ;;
    adapter_write outputPath (Js.trim finalContent +:+ Js.LF) ;;
    (fun w => (inr tt, with_settings (set_lastProcessedDate (settings w) dateStamp) w)) ;;
    saveSettings ;;
    newNotice ("Daily summary saved: " +:+ outputPath).

(** The body of the [try] block; [noteNow] is the reading of the clock
    in its call of [getDailyNotePath]. *)
Definition processBody (noteNow : Date) (dateStamp : string) (force : bool)
    (outputPath : string) : M unit :=
  s <- getSettings ;;
  let dailyNotePath := getDailyNotePath s noteNow dateStamp in
  exists_ <- adapter_exists dailyNotePath ;;
  if negb exists_ then
    (if force then newNotice ("Daily note not found: " +:+ dailyNotePath) else ret tt)
  else
    raw <- adapter_read dailyNotePath ;;
    let noteContents := Js.trim raw in
    if negb (Js.truthy noteContents) || (String.length noteContents <? 20)%nat then
      (if force
       then newNotice ("Daily note is empty or nearly empty: " +:+ dailyNotePath)
       else ret tt)
    else
      let messages := buildMessages s dateStamp noteContents in
      summary <- callLlm messages ;;
      persistSummary dateStamp outputPath summary.

(** [gateNow] is the reading of the clock in the call of
    [getSummaryPath], [noteNow] the later one in [getDailyNotePath]. *)
Definition processDateIfNeeded (gateNow noteNow : Date) (dateStamp : string)
    (force : bool) : M unit :=
  s <- getSettings ;;
  let outputPath := getSummaryPath s gateNow dateStamp in
  summaryExists <- (if negb force then adapter_exists outputPath else ret false) ;;
  if summaryExists then ret tt
  else
    tryCatch (processBody noteNow dateStamp force outputPath)
      (fun error =>
         consoleError "Failed to generate daily summary" ;;
         newNotice ("Daily summary failed: " +:+ message error)).

(** ** Archivist *)

(** The [targetPath] expression of the note pass. *)
Definition noteTargetPath (baseFolder dateStamp : string) : string :=
  let p := getDateParts dateStamp in
  normalizePath
    (baseFolder +:+ "/" +:+ interp (year p) +:+ "/"
       +:+ interp (month_part p) +:+ "/" +:+ dateStamp +:+ ".md").

(** The [targetPath] expression of the summary pass. *)
Definition summaryTargetPath (baseFolder dateStamp : string) : string :=
  let p := getDateParts dateStamp in
  normalizePath
    (baseFolder +:+ "/" +:+ interp (year p) +:+ "/"
       +:+ interp (month_part p) +:+ "/" +:+ dateStamp +:+ "_summary.md").

(** The loop of [sortDailyNotes] over the listing taken at its start. *)
Fixpoint sortDailyNotes_loop (todayStamp baseFolder : string)
    (listing : list string) : M unit :=
  match listing with
  | [] => ret tt
  | filePath :: rest =>
      let name := Js.pop (Js.split "/" filePath) in
      match getDailyNoteDateStamp name with
      | None => sortDailyNotes_loop todayStamp baseFolder rest
      | Some dateStamp =>
          if negb (Js.truthy dateStamp) || String.eqb dateStamp todayStamp then
            sortDailyNotes_loop todayStamp baseFolder rest
          else
            let p := getDateParts dateStamp in
            let targetPath := noteTargetPath baseFolder dateStamp in
            if String.eqb filePath targetPath then
              sortDailyNotes_loop todayStamp baseFolder rest
            else
              ensureFolderExists
                (baseFolder +:+ "/" +:+ interp (year p) +:+ "/"
                   +:+ interp (month_part p)) ;;
              adapter_rename filePath targetPath ;;
              sortDailyNotes_loop todayStamp baseFolder rest
      end
  end.

Definition sortDailyNotes (todayStamp : string) : M unit :=
  s <- getSettings ;;
  let baseFolder := normalizePath (dailyNotesFolder s) in
  if negb (Js.truthy baseFolder) || String.eqb baseFolder "." then ret tt
  else
    baseExists <- adapter_exists baseFolder ;;
    if negb baseExists then ret tt
    else
      listing <- adapter_list baseFolder ;;
      sortDailyNotes_loop todayStamp baseFolder listing.

(** The loop of [sortSummaries]. *)
Fixpoint sortSummaries_loop (yesterdayStamp baseFolder : string)
    (listing : list string) : M unit :=
  match listing with
  | [] => ret tt
  | filePath :: rest =>
      let name := Js.pop (Js.split "/" filePath) in
      match getSummaryDateStamp name with
      | None => sortSummaries_loop yesterdayStamp baseFolder rest
      | Some dateStamp =>
          if negb (Js.truthy dateStamp)
             || negb (isDateStampBefore dateStamp yesterdayStamp) then
            sortSummaries_loop yesterdayStamp baseFolder rest
          else
            let p := getDateParts dateStamp in
            let targetPath := summaryTargetPath baseFolder dateStamp in
            if String.eqb filePath targetPath then
              sortSummaries_loop yesterdayStamp baseFolder rest
            else
              ensureFolderExists
                (baseFolder +:+ "/" +:+ interp (year p) +:+ "/"
                   +:+ interp (month_part p)) ;;
              adapter_rename filePath targetPath ;;
              sortSummaries_loop yesterdayStamp baseFolder rest
      end
  end.

Definition sortSummaries (yesterdayStamp : string) : M unit :=
  s <- getSettings ;;
  let baseFolder := normalizePath (outputFolder s) in
  if negb (Js.truthy baseFolder) || String.eqb baseFolder "." then ret tt
  else
    baseExists <- adapter_exists baseFolder ;;
    if negb baseExists then ret tt
    else
      listing <- adapter_list baseFolder ;;
      sortSummaries_loop yesterdayStamp baseFolder listing.

(** The method [sortDailyNotesAndSummaries]; the settings field has the
    plain name. *)
Definition sortDailyNotesAndSummaries_run (todayStamp yesterdayStamp : string)
    : M unit :=
  sortDailyNotes todayStamp ;;
  sortSummaries yesterdayStamp.

(** ** Entry points

    [now] is the [new Date()] of the entry point itself; [gateNow] and
    [noteNow] are the readings the day processor takes after it. *)

Definition processToday (now gateNow noteNow : Date) (force : bool) : M unit :=
  let today := getLocalDateStamp now in
  processDateIfNeeded gateNow noteNow today force.

Definition processYesterdayIfNeeded (now gateNow noteNow : Date) (force : bool)
    : M unit :=
  let today := getLocalDateStamp now in
  let yesterday := getLocalDateStamp (setDate now (date now - 1)) in
  s <- getSettings ;;
  (if sortDailyNotesAndSummaries s
   then sortDailyNotesAndSummaries_run today yesterday else ret tt) ;;
  processDateIfNeeded gateNow noteNow yesterday force.

(** ** Commands *)

(** The callback of the command that sorts on demand: it reads the
    clock twice ([now] for today's key, [yesterdayDate] for
    yesterday's), runs the archivist and then tells so. *)
Definition sortNowCommand (now yesterdayDate : Date) : M unit :=
  let today := getLocalDateStamp now in
  let yesterday :=
    getLocalDateStamp (setDate yesterdayDate (date yesterdayDate - 1)) in
  sortDailyNotesAndSummaries_run today yesterday ;;
  newNotice "Daily notes and summaries sorted".

(** ** Settings tab

    Each change handler assigns one field of the settings object and
    saves the settings. *)

(** [a || b] on strings: [b] when [a] is empty. *)
Definition orElse (a b : string) : string := if Js.truthy a then a else b.

Definition set_dailyNotesFolder (s : DailyNotesDigestSettings) (v : string)
    : DailyNotesDigestSettings :=
  mkSettings v (outputFolder s) (llmEndpoint s) (apiKey s) (model s)
    (promptTemplate s) (checkIntervalMinutes s) (sortDailyNotesAndSummaries s)
    (lastProcessedDate s).

Definition set_outputFolder (s : DailyNotesDigestSettings) (v : string)
    : DailyNotesDigestSettings :=
  mkSettings (dailyNotesFolder s) v (llmEndpoint s) (apiKey s) (model s)
    (promptTemplate s) (checkIntervalMinutes s) (sortDailyNotesAndSummaries s)
    (lastProcessedDate s).

Definition set_model (s : DailyNotesDigestSettings) (v : string)
    : DailyNotesDigestSettings :=
  mkSettings (dailyNotesFolder s) (outputFolder s) (llmEndpoint s) (apiKey s) v
    (promptTemplate s) (checkIntervalMinutes s) (sortDailyNotesAndSummaries s)
    (lastProcessedDate s).

Definition set_llmEndpoint (s : DailyNotesDigestSettings) (v : string)
    : DailyNotesDigestSettings :=
  mkSettings (dailyNotesFolder s) (outputFolder s) v (apiKey s) (model s)
    (promptTemplate s) (checkIntervalMinutes s) (sortDailyNotesAndSummaries s)
    (lastProcessedDate s).

Definition set_apiKey (s : DailyNotesDigestSettings) (v : string)
    : DailyNotesDigestSettings :=
  mkSettings (dailyNotesFolder s) (outputFolder s) (llmEndpoint s) v (model s)
    (promptTemplate s) (checkIntervalMinutes s) (sortDailyNotesAndSummaries s)
    (lastProcessedDate s).

Definition set_checkIntervalMinutes (s : DailyNotesDigestSettings) (v : Z)
    : DailyNotesDigestSettings :=
  mkSettings (dailyNotesFolder s) (outputFolder s) (llmEndpoint s) (apiKey s)
    (model s) (promptTemplate s) v (sortDailyNotesAndSummaries s)
    (lastProcessedDate s).

(** A handler: the assignment to the settings object, then [saveSettings]. *)
Definition assignAndSave (update : DailyNotesDigestSettings -> DailyNotesDigestSettings)
    : M unit :=
  bind (fun w => (inr tt, with_settings (update (settings w)) w))
    (fun _ => saveSettings).

Definition onChange_dailyNotesFolder (value : string) : M unit :=
  assignAndSave (fun s => set_dailyNotesFolder s (orElse (Js.trim value) "Daily")).

Definition onChange_outputFolder (value : string) : M unit :=
  assignAndSave (fun s => set_outputFolder s (orElse (Js.trim value) "Daily Summaries")).

Definition onChange_model (value : string) : M unit :=
  assignAndSave (fun s => set_model s (orElse (Js.trim value) "gpt-4o-mini")).

Definition onChange_llmEndpoint (value : string) : M unit :=
  assignAndSave (fun s => set_llmEndpoint s (Js.trim value)).

Definition onChange_apiKey (value : string) : M unit :=
  assignAndSave (fun s => set_apiKey s (Js.trim value)).

(** *** The check interval *)

(** A JS number, as far as the interval handler meets one: not a
    number, an infinity, or a finite whole number (the two zeros count
    as one: [Math.max(5, -0)] is 5). *)
Inductive JsNumber := NaN | PosInfinity | NegInfinity | Finite (z : Z).

(** The double nearest to a whole number, ties to even: the number
    itself below 2^53, where every whole number is a double; above, the
    53 leading bits, rounded; an infinity when the rounded value reaches
    2^1024. *)
Definition toDouble (z : Z) : JsNumber :=
  let a := Z.abs z in
  if a <? 2 ^ 53 then Finite z
  else
    let e := Z.log2 a - 52 in
    let q := a / 2 ^ e in
    let r := a mod 2 ^ e in
    let half := 2 ^ (e - 1) in
    let q' := if (half <? r) || ((r =? half) && Z.odd q) then q + 1 else q in
    let v := q' * 2 ^ e in
    if 2 ^ 1024 <=? v then (if z <? 0 then NegInfinity else PosInfinity)
    else Finite (Z.sgn z * v).

(** The value of a decimal digit. *)
Definition digitValue (c : ascii) : Z := Z.of_N (N_of_ascii c) - 48.

(** The longest prefix of decimal digits. *)
Fixpoint digitsPrefix (s : string) : string :=
  match s with
  | String c r => if isDigit c then String c (digitsPrefix r) else ""
  | "" => ""
  end.

(** The value of a run of decimal digits, read after [acc]. *)
Fixpoint digitsValue (acc : Z) (s : string) : Z :=
  match s with
  | "" => acc
  | String c r => digitsValue (acc * 10 + digitValue c) r
  end.

(** The sign a numeric text opens with, and the text after it. *)
Definition signAndRest (s : string) : Z * string :=
  match s with
  | String "-" r => (-1, r)
  | String "+" r => (1, r)
  | _ => (1, s)
  end.

(** [Number.parseInt(value, 10)]: leading white space is skipped, one
    sign is read, then the longest run of decimal digits; without a
    digit the result is NaN, and otherwise the number nearest to the
    signed value of the digits.  (ECMAScript lets an engine read the
    digits after the twentieth as zeros; the model reads them all.) *)
Definition parseInt10 (value : string) : JsNumber :=
  let '(sign, rest) := signAndRest (Js.trimStart value) in
  let z := digitsPrefix rest in
  if negb (Js.truthy z) then NaN else toDouble (sign * digitsValue 0 z).

(** [Number.isFinite(parsed) ? Math.max(5, parsed) : 60] *)
Definition intervalOf (parsed : JsNumber) : Z :=
  match parsed with
  | Finite z => Z.max 5 z
  | _ => 60
  end.

Definition onChange_checkIntervalMinutes (value : string) : M unit :=
  assignAndSave (fun s => set_checkIntervalMinutes s (intervalOf (parseInt10 value))).

(** ** Heartbeat *)

(** [a * b] for a JS number [a] and a whole number [b] from 1 to 2^53:
    the double nearest to the product; an infinity and NaN stay as they
    are. *)
Definition timesDouble (a : JsNumber) (b : Z) : JsNumber :=
  match a with
  | Finite z => toDouble (z * b)
  | other => other
  end.

(** The delay [scheduleDailyCheck] passes to [setInterval], in
    milliseconds: [(checkIntervalMinutes || 60) * 60 * 1000], multiplied
    from left to right as doubles; an interval of 0 is falsy.  (The
    interval is a whole number that is a double, as the interval handler
    stores it.) *)
Definition heartbeatDelay (s : DailyNotesDigestSettings) : JsNumber :=
  let everyMinutes :=
    if checkIntervalMinutes s =? 0 then 60 else checkIntervalMinutes s in
  timesDouble (timesDouble (Finite everyMinutes) 60) 1000.

(** * Vocabulary of the properties

    The projections of a trace, the predicates the statements use and
    the worlds of the examples. *)

(** The notices and the writes recorded in a trace. *)
Definition notices (t : list Event) : list string :=
  omap (fun e => match e with Noticed m => Some m | _ => None end) t.

Definition writes (t : list Event) : list (string * string) :=
  omap (fun e => match e with Wrote p c => Some (p, c) | _ => None end) t.

Definition renames (t : list Event) : list (string * string) :=
  omap (fun e => match e with Renamed a b => Some (a, b) | _ => None end) t.

Definition okResponse (text : string) : RequestUrlResponse :=
  mkResponse 200
    (JObject [("choices",
               JArray [JObject [("message", JObject [("content", JString text)])]])]).

(** The reading of the clock in the examples: 21 February 2026, at
    midnight. *)
Definition exampleNow : Date := mkDate 2026 1 21 0.

(** The last millisecond of that day, and the midnight after it. *)
Definition lateEvening : Date := mkDate 2026 1 21 86399999.

Definition nextMidnight : Date := mkDate 2026 1 22 0.

(** The reading [d] of the clock falls on the calendar day with the key
    [today]. *)
Definition onDay (today : string) (d : Date) : Prop :=
  validDate d /\ getLocalDateStamp d = today.

Definition gateWorld : World :=
  mkWorld
    (mkVault {[ "Daily Summaries/2026-02-20_summary.md" := "old" ]}
       {[ "Daily Summaries" ]})
    (exampleSettings false)
    (fun _ => inr (okResponse "Summary text")) [].

(** The request [callLlm] hands to the transport. *)
Definition llmRequest (s : DailyNotesDigestSettings) (messages : list ChatMessage)
    : RequestUrlParam :=
  mkRequest "POST" (llmEndpoint s)
    (("Content-Type", "application/json")
     :: (if Js.truthy (Js.trim (apiKey s))
         then [("Authorization", "Bearer " +:+ Js.trim (apiKey s))]
         else []))
    (mkBody (model s) messages "0.2").

(** The two error classes of the client, told apart by the message of
    the thrown [Error]. *)
Definition ConfigError (e : Error) : Prop := e = mkError "LLM endpoint is empty".

Definition BackendError (e : Error) : Prop :=
  (exists st : Z, e = mkError ("LLM request failed (" +:+ pretty st +:+ ")"))
  \/ e = mkError "Unexpected LLM response shape".

(** Reading a value along a path of property names and indices, as
    member access does: a name selects a property of an object; an index
    selects an element of an array, a character of a string or the
    property of an object that is named by the index. *)
Inductive Step := Key (k : string) | Index (i : nat).

Inductive ValueAt : JsValue -> list Step -> JsValue -> Prop :=
  | at_here v : ValueAt v [] v
  | at_key props k path v :
      ValueAt (lookupProp props k) path v ->
      ValueAt (JObject props) (Key k :: path) v
  | at_item items i x path v :
      nth_error items i = Some x ->
      ValueAt x path v ->
      ValueAt (JArray items) (Index i :: path) v
  | at_char s i c path v :
      String.get i s = Some c ->
      ValueAt (JString (String c "")) path v ->
      ValueAt (JString s) (Index i :: path) v
  | at_index_key props i path v :
      ValueAt (lookupProp props (pretty i)) path v ->
      ValueAt (JObject props) (Index i :: path) v.

Definition contentPath : list Step := [Key "choices"; Index 0; Key "message"; Key "content"].

Definition hasContentString (resp : RequestUrlResponse) (text : string) : Prop :=
  ValueAt (json resp) contentPath (JString text).

Definition blankEndpointWorld : World :=
  mkWorld (mkVault ∅ ∅)
    (mkSettings "Daily" "Daily Summaries" "   " "" "gpt-4o-mini"
       "Digest for {{date}}" 60 false "")
    (fun _ => inr (okResponse "Summary")) [].

Definition answeringWorld (resp : RequestUrlResponse) : World :=
  mkWorld (mkVault ∅ ∅) (exampleSettings false) (fun _ => inr resp) [].

Definition noteWorld (sort : bool)
    (net : RequestUrlParam -> Error + RequestUrlResponse) : World :=
  mkWorld
    (mkVault {[ "Daily/2026-02-20.md" := "  A note with 25 characters  " ]}
       {[ "Daily" ]})
    (exampleSettings sort) net [].

Definition failingWorld : World :=
  noteWorld false (fun _ => inr (mkResponse 500 JNull)).

(** [w'] differs from [w] by created folders only. *)
Definition folders_only (w w' : World) : Prop :=
  files (vault w') = files (vault w)
  /\ settings w' = settings w
  /\ requestUrl w' = requestUrl w
  /\ folders (vault w) ⊆ folders (vault w')
  /\ exists created, trace w' = trace w ++ List.map CreatedFolder created.

(** What the day processor writes for a summary: the code's expression. *)
Definition writtenContent (dateStamp summary : string) : string :=
  Js.trim (Js.trim summary +:+ backlinkOf dateStamp) +:+ Js.LF.

(** The rule and the link of the backlink section; the section opens
    with two line feeds. *)
Definition ruleAndLink (dateStamp : string) : string :=
  "---" +:+ Js.LF +:+ Js.LF +:+ "[Original note](" +:+ dateStamp +:+ ")".

Definition digestWorld (summary : string) : World :=
  noteWorld false (fun _ => inr (okResponse summary)).

Definition stampOf (y1 y2 y3 y4 m1 m2 d1 d2 : ascii) : string :=
  String y1 (String y2 (String y3 (String y4 (String "-"
    (String m1 (String m2 (String "-" (String d1 (String d2 ""))))))))).

(** A key built from eight digits. *)
Inductive DigitStamp : string -> Prop :=
  | digit_stamp y1 y2 y3 y4 m1 m2 d1 d2 :
      isDigit y1 = true -> isDigit y2 = true -> isDigit y3 = true ->
      isDigit y4 = true -> isDigit m1 = true -> isDigit m2 = true ->
      isDigit d1 = true -> isDigit d2 = true ->
      DigitStamp (stampOf y1 y2 y3 y4 m1 m2 d1 d2).

Definition allDigits (s : string) : bool :=
  forallb isDigit (list_ascii_of_string s).

Definition startsWithSlash (s : string) : bool :=
  match s with String "/" _ => true | _ => false end.

Fixpoint noBackslash (s : string) : bool :=
  match s with
  | "" => true
  | String c r => negb (Ascii.eqb c "\") && noBackslash r
  end.

Fixpoint noDoubleSlash (s : string) : bool :=
  match s with
  | "" => true
  | String c r => negb (Ascii.eqb c "/" && startsWithSlash r) && noDoubleSlash r
  end.

(** Separators are normalized and not redundant: no backslash, no two
    slashes in a row. *)
Definition wellSeparated (s : string) : bool := noBackslash s && noDoubleSlash s.

(** A path has a parent-directory segment. *)
Definition hasParentSegment (p : string) : bool :=
  existsb (String.eqb "..") (Js.split "/" p).

Fixpoint noChar (c : ascii) (s : string) : bool :=
  match s with
  | "" => true
  | String x r => negb (Ascii.eqb x c) && noChar c r
  end.

(** [a] is a non-empty path segment: no slash, no backslash. *)
Definition isSegment (a : string) : Prop :=
  noChar "/" a = true /\ noChar "\" a = true /\ a <> "".

(** The value of a two-character decimal string. *)
Definition twoDigits (s : string) : Z :=
  match s with
  | String a (String b "") =>
      (Z.of_N (N_of_ascii a) - 48) * 10 + (Z.of_N (N_of_ascii b) - 48)
  | _ => -1
  end.

(** [search] occurs in [s]. *)
Definition occurs (search s : string) : Prop :=
  exists a b, s = a +:+ search +:+ b.

(** The text between the matches that [replaceAll] finds. *)
Fixpoint pieces (search : string) (skip : nat) (s : string) : list string :=
  match s with
  | "" => [""]
  | String c r =>
      match skip with
      | S k => pieces search k r
      | O =>
          if Js.startsWith search s then
            "" :: pieces search (String.length search - 1) r
          else
            match pieces search 0 r with
            | h :: t => String c h :: t
            | [] => [String c ""]
            end
      end
  end.

(** The decision of a pass for one file: nothing, or the folder to
    ensure and the target.  [decode] reads the day key off the file
    name, [skips] tells the keys to leave alone. *)
Definition plan (decode : string -> option string) (skips : string -> bool)
    (target folderOf : string -> string) (filePath : string)
    : option (string * string) :=
  match decode (Js.pop (Js.split "/" filePath)) with
  | None => None
  | Some dateStamp =>
      if skips dateStamp then None
      else if String.eqb filePath (target dateStamp) then None
      else Some (folderOf dateStamp, target dateStamp)
  end.

(** The loop the two passes share. *)
Fixpoint passLoop (decode : string -> option string) (skips : string -> bool)
    (target folderOf : string -> string) (listing : list string) : M unit :=
  match listing with
  | [] => ret tt
  | filePath :: rest =>
      match plan decode skips target folderOf filePath with
      | None => passLoop decode skips target folderOf rest
      | Some (dir, targetPath) =>
          ensureFolderExists dir ;;
          adapter_rename filePath targetPath ;;
          passLoop decode skips target folderOf rest
      end
  end.

Definition noteSkips (todayStamp dateStamp : string) : bool :=
  negb (Js.truthy dateStamp) || String.eqb dateStamp todayStamp.

Definition summarySkips (yesterdayStamp dateStamp : string) : bool :=
  negb (Js.truthy dateStamp) || negb (isDateStampBefore dateStamp yesterdayStamp).

Definition monthFolder (baseFolder dateStamp : string) : string :=
  baseFolder +:+ "/" +:+ interp (year (getDateParts dateStamp)) +:+ "/"
    +:+ interp (month_part (getDateParts dateStamp)).

Definition notePlan (todayStamp baseFolder : string) :=
  plan getDailyNoteDateStamp (noteSkips todayStamp) (noteTargetPath baseFolder)
    (monthFolder baseFolder).

Definition summaryPlan (yesterdayStamp baseFolder : string) :=
  plan getSummaryDateStamp (summarySkips yesterdayStamp)
    (summaryTargetPath baseFolder) (monthFolder baseFolder).

Definition trivialBase (baseFolder : string) : bool :=
  negb (Js.truthy baseFolder) || String.eqb baseFolder ".".

(** A pass: the guards of [sortDailyNotes] and [sortSummaries], then
    the loop over the listing of the base folder. *)
Definition runPass (base : string) (decode : string -> option string)
    (skips : string -> bool) (target folderOf : string -> string) : M unit :=
  fun w =>
    if trivialBase base then (inr tt, w)
    else if negb (vault_exists (vault w) base) then (inr tt, w)
    else passLoop decode skips target folderOf (vault_list (vault w) base) w.

(** Nothing is planned for the files directly inside the base. *)
Definition settled (base : string) (decode : string -> option string)
    (skips : string -> bool) (target folderOf : string -> string) (w : World)
    : Prop :=
  forall p, is_Some (files (vault w) !! p) -> parentPath p = base ->
            plan decode skips target folderOf p = None.

(** A rename of the note pass: the file name decodes to a key other than
    today's, the target is the nested path for that key, and the file is
    not already there. *)
Definition noteMove (s : DailyNotesDigestSettings) (todayStamp : string)
    (ft : string * string) : Prop :=
  exists d,
    getDailyNoteDateStamp (Js.pop (Js.split "/" (fst ft))) = Some d
    /\ d <> todayStamp
    /\ snd ft = noteTargetPath (normalizePath (dailyNotesFolder s)) d
    /\ fst ft <> snd ft.

(** A rename of the summary pass, likewise, for a key strictly before
    yesterday's. *)
Definition summaryMove (s : DailyNotesDigestSettings) (yesterdayStamp : string)
    (ft : string * string) : Prop :=
  exists d,
    getSummaryDateStamp (Js.pop (Js.split "/" (fst ft))) = Some d
    /\ isDateStampBefore d yesterdayStamp = true
    /\ snd ft = summaryTargetPath (normalizePath (outputFolder s)) d
    /\ fst ft <> snd ft.

Definition archiveWorld : World :=
  mkWorld
    (mkVault
       {[ "Daily/2026-02-20.md" := "n1"; "Daily/2026-02-21.md" := "n2";
          "Daily/todo.md" := "n3"; "Daily/2026-01-05.md" := "n4";
          "Daily Summaries/2026-01-05_summary.md" := "s1";
          "Daily Summaries/2026-02-20_summary.md" := "s2" ]}
       {[ "Daily"; "Daily Summaries" ]})
    (exampleSettings true)
    (fun _ => inr (okResponse "Summary text")) [].

(** A vault in which the target of one note is already taken. *)
Definition clashWorld : World :=
  mkWorld
    (mkVault
       {[ "Daily/2026-01-05.md" := "n1"; "Daily/2026-02-20.md" := "n2";
          "Daily/2026/02/2026-02-20.md" := "taken" ]}
       {[ "Daily"; "Daily/2026"; "Daily/2026/02" ]})
    (exampleSettings true)
    (fun _ => inr (okResponse "Summary text")) [].

Definition archivedWorld : World :=
  mkWorld
    (mkVault {[ "Daily Summaries/2026/02/2026-02-10_summary.md" := "old" ]}
       {[ "Daily Summaries" ]})
    (exampleSettings true)
    (fun _ => inr (okResponse "Summary text")) [].

(** The path the loop of [ensureFolderExists] has built after the given
    segments, starting from [current]. *)
Fixpoint lastCurrent (parts : list string) (current : string) : string :=
  match parts with
  | [] => current
  | part :: rest =>
      lastCurrent rest
        (if Js.truthy current then current +:+ "/" +:+ part else part)
  end.

(** The path built so far, extended by one segment. *)
Definition nextCurrent (current part : string) : string :=
  if Js.truthy current then current +:+ "/" +:+ part else part.

(** The vault holds a file at the path. *)
Definition present (w : World) (p : string) : bool :=
  bool_decide (is_Some (files (vault w) !! p)).

(** The decimal digit [k] (0 to 9) as a character. *)
Definition digitChar (k : Z) : ascii := pretty_N_char (Z.to_N k).

(** The calendar order of two dates: by year, then month, then day. *)
Definition dateBefore (a b : Date) : bool :=
  (fullYear a <? fullYear b)
  || ((fullYear a =? fullYear b)
      && ((month a <? month b) || ((month a =? month b) && (date a <? date b)))).

(** A year that prints as four digits. *)
Definition fourDigitYear (d : Date) : Prop := 1000 <= fullYear d <= 9999.

(** The date [getYesterdayStamp] prints. *)
Definition yesterdayOf (now : Date) : Date := setDate now (date now - 1).

(** The paths the loop of [ensureFolderExists] checks, in order: each
    segment appended to the path before it. *)
Fixpoint visited (parts : list string) (current : string) : list string :=
  match parts with
  | [] => []
  | part :: rest =>
      nextCurrent current part :: visited rest (nextCurrent current part)
  end.

(** The folders [ensureFolderExists] has to create in a vault: none when
    the path is trivial or exists, and otherwise the checked paths that
    do not exist. *)
Definition missingAncestors (v : Vault) (folderPath : string) : list string :=
  let normalized := normalizePath folderPath in
  if trivialBase normalized || vault_exists v normalized then []
  else List.filter (fun q => negb (vault_exists v q))
         (visited (Js.filterBoolean (Js.split "/" normalized)) "").

(** The requests and the saved settings recorded in a trace. *)
Definition requests (t : list Event) : list RequestUrlParam :=
  omap (fun e => match e with Requested r => Some r | _ => None end) t.

Definition saves (t : list Event) : list DailyNotesDigestSettings :=
  omap (fun e => match e with SavedData s => Some s | _ => None end) t.

(** The world after the write, the marker, the save and the notice of a
    persisted summary. *)
Definition persisted (dateStamp outputPath text : string) (w : World) : World :=
  let w1 := emit (Wrote outputPath text)
              (with_vault (mkVault (<[outputPath := text]> (files (vault w)))
                             (folders (vault w))) w) in
  let w2 := with_settings (set_lastProcessedDate (settings w1) dateStamp) w1 in
  emit (Noticed ("Daily summary saved: " +:+ outputPath))
    (emit (SavedData (settings w2)) w2).

(** Why the day processor leaves a day alone before any request: the
    note is missing, or its trimmed text is shorter than 20 characters. *)
Definition skipReason (w : World) (noteNow : Date) (dateStamp : string)
    : option string :=
  let p := getDailyNotePath (settings w) noteNow dateStamp in
  if negb (vault_exists (vault w) p) then Some ("Daily note not found: " +:+ p)
  else
    match files (vault w) !! p with
    | Some raw =>
        if (String.length (Js.trim raw) <? 20)%nat
        then Some ("Daily note is empty or nearly empty: " +:+ p)
        else None
    | None => None
    end.

(** The gate of the day processor is open. *)
Definition gateOpen (w : World) (gateNow : Date) (dateStamp : string)
    (force : bool) : bool :=
  force || negb (vault_exists (vault w)
                   (getSummaryPath (settings w) gateNow dateStamp)).

(** Nothing was persisted between [w] and [w']: same files, settings
    and transport, no write, save or rename; folders may have been
    created. *)
Definition unpersisted (w w' : World) : Prop :=
  files (vault w') = files (vault w)
  /\ settings w' = settings w
  /\ requestUrl w' = requestUrl w
  /\ folders (vault w) ⊆ folders (vault w')
  /\ writes (trace w') = writes (trace w)
  /\ saves (trace w') = saves (trace w)
  /\ renames (trace w') = renames (trace w).

(** The request a run of the day processor issues, if any. *)
Definition expectedRequests (w : World) (gateNow noteNow : Date)
    (dateStamp : string) (force : bool) : list RequestUrlParam :=
  if gateOpen w gateNow dateStamp force then
    match files (vault w) !! getDailyNotePath (settings w) noteNow dateStamp with
    | Some raw =>
        if (20 <=? String.length (Js.trim raw))%nat
           && Js.truthy (Js.trim (llmEndpoint (settings w)))
        then [llmRequest (settings w)
                (buildMessages (settings w) dateStamp (Js.trim raw))]
        else []
    | None => []
    end
  else [].

(** The files of [v'] are those of [v], each at its own path or at the
    path a rename of [moved] took it to, with the same text. *)
Definition relocated (moved : list (string * string)) (v v' : Vault) : Prop :=
  (forall p text, files v !! p = Some text ->
     files v' !! p = Some text
     \/ exists t, In (p, t) moved /\ files v' !! t = Some text)
  /\ (forall q text, files v' !! q = Some text ->
        files v !! q = Some text
        \/ exists p, In (p, q) moved /\ files v !! p = Some text).

(** [m'] is [m] after the moves of the list, carried out in order: a
    move takes the text at its source, which is there, to its target,
    which is free, and leaves the source empty. *)
Inductive movedBy :
    list (string * string) -> gmap string string -> gmap string string -> Prop :=
  | moved_nil m : movedBy [] m m
  | moved_cons p t text rest m m' :
      m !! p = Some text -> m !! t = None ->
      movedBy rest (<[t := text]> (delete p m)) m' ->
      movedBy ((p, t) :: rest) m m'.

(** The JS number [x] is at least [lo]. *)
Definition atLeast (lo : Z) (x : JsNumber) : Prop :=
  match x with
  | Finite d => lo <= d
  | PosInfinity => True
  | NaN | NegInfinity => False
  end.

(** An event of the archivist: a created folder or a rename. *)
Definition archivistEvent (e : Event) : bool :=
  match e with CreatedFolder _ | Renamed _ _ => true | _ => false end.

(** [w'] differs from [w] by the vault and by events of the archivist
    only. *)
Definition archivistOnly (w w' : World) : Prop :=
  settings w' = settings w /\ requestUrl w' = requestUrl w
  /\ exists events, trace w' = trace w ++ events
                    /\ Forall (fun e => archivistEvent e = true) events.

(** A text handler ran on [w]: it returned normally, the field holds
    [expected], which has no white space around it, the settings were
    saved as they are now, and the vault is as before. *)
Definition storedText (handler : M unit)
    (field : DailyNotesDigestSettings -> string) (expected : string) (w : World)
    : Prop :=
  let w' := snd (handler w) in
  handler w = (inr tt, w')
  /\ field (settings w') = expected
  /\ Js.trim (field (settings w')) = field (settings w')
  /\ saves (trace w') = saves (trace w) ++ [settings w']
  /\ vault w' = vault w.

(** * Properties *)

(** ** The embedding on examples *)

Example split_flat : Js.split "/" "Daily/2026-02-20.md" = ["Daily"; "2026-02-20.md"].
Proof. reflexivity. Qed.

Example split_empty : Js.split "-" "" = [""].
Proof. reflexivity. Qed.

Example trim_both : Js.trim "  a b  " = "a b".
Proof. reflexivity. Qed.

Example replaceAll_twice :
  Js.replaceAll "x {{date}} y {{date}}" "{{date}}" "D" = "x D y D".
Proof. reflexivity. Qed.

Example replaceAll_dollar :
  Js.replaceAll "a{{date}}b" "{{date}}" "[$&|$`|$'|$$]" = "a[{{date}}|a|b|$]b".
Proof. reflexivity. Qed.

Example padStart2_small : Js.padStart2 3 = "03" /\ Js.padStart2 12 = "12".
Proof. split; reflexivity. Qed.

Example normalizePath_mixed : normalizePath "a\\b//c/" = "a/b/c/".
Proof. reflexivity. Qed.

Example stamp_2026_02_03 : getLocalDateStamp (mkDate 2026 1 3 36000000) = "2026-02-03".
Proof. reflexivity. Qed.

Example yesterday_new_year : getYesterdayStamp (mkDate 2026 0 1 36000000) = "2025-12-31".
Proof. reflexivity. Qed.

Example yesterday_leap : getYesterdayStamp (mkDate 2024 2 1 0) = "2024-02-29".
Proof. reflexivity. Qed.

Example stamp_of_note : getDailyNoteDateStamp "2026-02-20.md" = Some "2026-02-20".
Proof. reflexivity. Qed.

Example stamp_of_other : getDailyNoteDateStamp "2026-02-20_summary.md" = None.
Proof. reflexivity. Qed.

Example parts_canonical :
  getDateParts "2026-02-20" = mkParts (Some "2026") (Some "02").
Proof. reflexivity. Qed.

Example notePath_nested :
  getDailyNotePath (exampleSettings true) (mkDate 2026 1 21 0) "2026-02-20"
  = "Daily/2026/02/2026-02-20.md".
Proof. reflexivity. Qed.

Example summaryPath_flat_yesterday :
  getSummaryPath (exampleSettings true) (mkDate 2026 1 21 0) "2026-02-20"
  = "Daily Summaries/2026-02-20_summary.md".
Proof. reflexivity. Qed.

Example summaryPath_nested :
  getSummaryPath (exampleSettings true) (mkDate 2026 1 21 0) "2026-02-10"
  = "Daily Summaries/2026/02/2026-02-10_summary.md".
Proof. reflexivity. Qed.

(** ** Running computations *)

Ltac unfold_m :=
  unfold bind, ret, throw, tryCatch, getSettings, newNotice,
    consoleError, adapter_exists, adapter_list, saveSettings in *.

Lemma bind_inl {A B} (m : M A) (k : A -> M B) w e w' :
  m w = (inl e, w') -> bind m k w = (inl e, w').
Proof. intros H. unfold bind. now rewrite H. Qed.

(** ** The gate of the day processor *)

(** C1: with [force = false] and a summary already at the summary path,
    [processDateIfNeeded] returns at once and leaves the world as it
    found it: the vault, the settings and the trace (so no request, no
    write, no saved settings) are those of the start. *)
Theorem gate_is_a_no_op (w : World) (gateNow noteNow : Date) (dateStamp : string) :
  vault_exists (vault w) (getSummaryPath (settings w) gateNow dateStamp) = true ->
  processDateIfNeeded gateNow noteNow dateStamp false w = (inr tt, w).
Proof.
  intros Hex. unfold processDateIfNeeded. unfold_m. simpl.
  now rewrite Hex.
Qed.

Lemma gate_is_a_no_op_witness :
  processDateIfNeeded exampleNow exampleNow "2026-02-20" false gateWorld
  = (inr tt, gateWorld).
Proof.
  apply (gate_is_a_no_op gateWorld exampleNow exampleNow "2026-02-20").
  vm_compute. reflexivity.
Defined.

(** ** The summarization client *)

Lemma callLlm_unfold (messages : list ChatMessage) (w : World) :
  callLlm messages w =
  if negb (Js.truthy (Js.trim (llmEndpoint (settings w)))) then
    (inl (mkError "LLM endpoint is empty"), w)
  else
    let w' := emit (Requested (llmRequest (settings w) messages)) w in
    match requestUrl w (llmRequest (settings w) messages) with
    | inl e => (inl e, w')
    | inr response =>
        if negb (status response =? 200) then
          (inl (mkError ("LLM request failed (" +:+ pretty (status response) +:+ ")")), w')
        else
          match responseContent response with
          | JString text => (inr text, w')
          | _ => (inl (mkError "Unexpected LLM response shape"), w')
          end
    end.
Proof.
  unfold callLlm, llmRequest, doRequestUrl. unfold_m. simpl.
  destruct (negb (Js.truthy (Js.trim (llmEndpoint (settings w))))); [reflexivity|].
  destruct (requestUrl w _) as [e|response]; [reflexivity|].
  destruct (negb (status response =? 200)); [reflexivity|].
  destruct (responseContent response); reflexivity.
Qed.

(** The optional chain of [callLlm] finds a string exactly when the
    response holds one at [choices[0].message.content]. *)
Lemma responseContent_spec (resp : RequestUrlResponse) (text : string) :
  responseContent resp = JString text <-> hasContentString resp text.
Proof.
  unfold responseContent, hasContentString, contentPath. split.
  - intros H.
    destruct (json resp) as [| | | | |items|props]; simpl in H; try discriminate.
    apply at_key.
    destruct (lookupProp props "choices") as [| | | |s|items|props'];
      simpl in H; try discriminate.
    + destruct s as [|c s]; simpl in H; discriminate.
    + destruct items as [|x items]; simpl in H; [discriminate|].
      apply at_item with (x := x); [reflexivity|].
      destruct x as [| | | | |its|ps]; simpl in H; try discriminate.
      apply at_key.
      destruct (lookupProp ps "message") as [| | | | |its'|ps']; simpl in H;
        try discriminate.
      apply at_key. rewrite H. apply at_here.
    + apply at_index_key. change (pretty 0%nat) with "0".
      destruct (lookupProp props' "0") as [| | | | |its|ps]; simpl in H;
        try discriminate.
      apply at_key.
      destruct (lookupProp ps "message") as [| | | | |its'|ps']; simpl in H;
        try discriminate.
      apply at_key. rewrite H. apply at_here.
  - intros H. inversion H as [|props k path v H1| | |]; subst; clear H. simpl.
    assert (Hmsg : forall x, ValueAt x [Key "message"; Key "content"] (JString text) ->
                   optProp (optProp x "message") "content" = JString text).
    { intros x Hx. inversion Hx as [|ps k path v H2| | |]; subst; clear Hx. simpl.
      inversion H2 as [|ps' k path v H3| | |]; subst; clear H2. simpl.
      inversion H3; subst. reflexivity. }
    inversion H1 as [| |items i x path v Hn Hx|s i c path v Hg Hx|ps i path v Hx];
      subst; clear H1.
    + destruct items as [|y items]; [discriminate|].
      simpl in Hn. injection Hn as ->. now apply Hmsg.
    + inversion Hx.
    + now apply Hmsg.
Qed.

Lemma truthy_true_iff (s : string) : Js.truthy s = true <-> s <> "".
Proof. destruct s; simpl; split; congruence. Qed.

(** C6: [callLlm] with a blank endpoint throws the configuration error
    and leaves the world untouched (no request is issued).  With an
    endpoint and a response from the transport, it throws a backend error
    exactly when the status is not 200 or the response has no string at
    [choices[0].message.content]; otherwise it returns that string as it
    is. *)
Theorem callLlm_contract (messages : list ChatMessage) (w : World) :
  (Js.trim (llmEndpoint (settings w)) = "" ->
   exists e, callLlm messages w = (inl e, w) /\ ConfigError e)
  /\
  (forall resp : RequestUrlResponse,
     Js.trim (llmEndpoint (settings w)) <> "" ->
     requestUrl w (llmRequest (settings w) messages) = inr resp ->
     ((exists e, fst (callLlm messages w) = inl e /\ BackendError e)
      <-> (status resp <> 200 \/ ~ exists text, hasContentString resp text))
     /\
     (forall text, status resp = 200 -> hasContentString resp text ->
        fst (callLlm messages w) = inr text)).
Proof.
  split.
  - intros Hblank. exists (mkError "LLM endpoint is empty").
    rewrite callLlm_unfold, Hblank. simpl. split; reflexivity.
  - intros resp Hep Hresp. rewrite callLlm_unfold.
    apply truthy_true_iff in Hep. rewrite Hep, Hresp. simpl.
    destruct (Z.eqb_spec (status resp) 200) as [H200|H200]; simpl.
    + destruct (responseContent resp) as [| | | |text| |] eqn:Hc; simpl;
        try (split;
             [ split;
               [ intros _; right; intros [text Ht];
                 apply responseContent_spec in Ht; congruence
               | intros _; eexists; split; [reflexivity | right; reflexivity] ]
             | intros text _ Ht; apply responseContent_spec in Ht; congruence ]).
      split.
      * split.
        -- intros [e [He _]]. discriminate.
        -- intros [Hst | Hno]; [contradiction|].
           exfalso. apply Hno. exists text. now apply responseContent_spec.
      * intros text' _ Ht. apply responseContent_spec in Ht. congruence.
    + split.
      * split.
        -- intros _. now left.
        -- intros _. eexists. split; [reflexivity|]. left. now exists (status resp).
      * intros text Hst. contradiction.
Qed.

Lemma callLlm_contract_witness :
  (exists e, callLlm [] blankEndpointWorld = (inl e, blankEndpointWorld)
             /\ ConfigError e)
  /\ fst (callLlm [mkMessage user "Hi"] (answeringWorld (okResponse " Summary ")))
     = inr " Summary ".
Proof.
  split.
  - apply (proj1 (callLlm_contract [] blankEndpointWorld)). reflexivity.
  - apply (proj2 (callLlm_contract [mkMessage user "Hi"]
                    (answeringWorld (okResponse " Summary ")))
             (okResponse " Summary ")).
    + vm_compute. discriminate.
    + reflexivity.
    + reflexivity.
    + apply responseContent_spec. reflexivity.
Defined.

(** ** Failure of the summarization step *)

Lemma callLlm_failure_world (messages : list ChatMessage) (w w' : World) (e : Error) :
  callLlm messages w = (inl e, w') ->
  w' = w \/ w' = emit (Requested (llmRequest (settings w) messages)) w.
Proof.
  rewrite callLlm_unfold.
  destruct (negb _); [intros [= _ <-]; now left|].
  simpl. destruct (requestUrl w _) as [e'|resp]; [intros [= _ <-]; now right|].
  destruct (negb _); [intros [= _ <-]; now right|].
  destruct (responseContent resp); intros [= <-] || intros [= _ <-]; now right.
Qed.

Lemma vault_exists_file (v : Vault) (p text : string) :
  files v !! p = Some text -> vault_exists v p = true.
Proof.
  intros H. unfold vault_exists. rewrite bool_decide_eq_true_2; [reflexivity|].
  now exists text.
Qed.

Lemma long_is_truthy (s : string) : (20 <= String.length s)%nat -> Js.truthy s = true.
Proof. destruct s; simpl; [lia | reflexivity]. Qed.

(** The day processor up to the summarization call: past the gate, with
    a note of at least 20 characters after trimming, the [try] block is
    the call followed by the persist steps. *)
Lemma processBody_reaches_call (w : World) (noteNow : Date) (dateStamp : string)
    (force : bool) (outputPath raw : string) :
  files (vault w) !! getDailyNotePath (settings w) noteNow dateStamp = Some raw ->
  (20 <= String.length (Js.trim raw))%nat ->
  processBody noteNow dateStamp force outputPath w =
  bind (callLlm (buildMessages (settings w) dateStamp (Js.trim raw)))
    (persistSummary dateStamp outputPath) w.
Proof.
  intros Hfile Hlen. unfold processBody at 1.
  unfold bind at 1, getSettings at 1; simpl.
  unfold bind at 1, adapter_exists at 1; simpl.
  rewrite (vault_exists_file _ _ _ Hfile). simpl.
  unfold bind at 1, adapter_read at 1; simpl. rewrite Hfile.
  rewrite (long_is_truthy _ Hlen). simpl.
  destruct (Nat.ltb_spec (String.length (Js.trim raw)) 20); [lia|].
  reflexivity.
Qed.

Lemma processDateIfNeeded_past_gate (w : World) (gateNow noteNow : Date)
    (dateStamp : string) (force : bool) :
  force = true
  \/ vault_exists (vault w) (getSummaryPath (settings w) gateNow dateStamp) = false ->
  processDateIfNeeded gateNow noteNow dateStamp force w =
  tryCatch
    (processBody noteNow dateStamp force
       (getSummaryPath (settings w) gateNow dateStamp))
    (fun error =>
       consoleError "Failed to generate daily summary" ;;
       newNotice ("Daily summary failed: " +:+ message error)) w.
Proof.
  intros Hgate. unfold processDateIfNeeded.
  unfold bind at 1, getSettings at 1; simpl.
  unfold bind at 1.
  destruct force; simpl.
  - reflexivity.
  - unfold adapter_exists. destruct Hgate as [Hf|Hex]; [discriminate|].
    now rewrite Hex.
Qed.

(** C3: when the run reaches the summarization call and the call throws
    (blank endpoint, bad status or shape, or a rejected request), the
    day processor returns normally; the run adds exactly one notice, the
    failure notice carrying the error's message; nothing is written and
    the vault and the settings, the last-processed marker among them, are
    as before the run. *)
Theorem summarize_failure_is_contained (w w' : World) (gateNow noteNow : Date)
    (dateStamp : string) (force : bool) (raw : string) (e : Error) :
  force = true
  \/ vault_exists (vault w) (getSummaryPath (settings w) gateNow dateStamp) = false ->
  files (vault w) !! getDailyNotePath (settings w) noteNow dateStamp = Some raw ->
  (20 <= String.length (Js.trim raw))%nat ->
  callLlm (buildMessages (settings w) dateStamp (Js.trim raw)) w = (inl e, w') ->
  exists wf,
    processDateIfNeeded gateNow noteNow dateStamp force w = (inr tt, wf)
    /\ notices (trace wf)
       = notices (trace w) ++ ["Daily summary failed: " +:+ message e]
    /\ writes (trace wf) = writes (trace w)
    /\ vault wf = vault w
    /\ settings wf = settings w.
Proof.
  intros Hgate Hfile Hlen Hcall.
  rewrite (processDateIfNeeded_past_gate _ _ noteNow _ _ Hgate).
  unfold tryCatch.
  rewrite (processBody_reaches_call _ _ _ _ _ _ Hfile Hlen).
  rewrite (bind_inl _ _ _ _ _ Hcall).
  unfold_m. simpl. eexists. split; [reflexivity|].
  destruct (callLlm_failure_world _ _ _ _ Hcall) as [-> | ->]; simpl;
    unfold notices, writes; rewrite ?omap_app; simpl; rewrite ?app_nil_r;
    repeat split; reflexivity.
Qed.

Lemma summarize_failure_is_contained_witness :
  exists wf,
    processDateIfNeeded exampleNow exampleNow "2026-02-20" false failingWorld
    = (inr tt, wf)
    /\ notices (trace wf) = ["Daily summary failed: LLM request failed (500)"]
    /\ writes (trace wf) = []
    /\ vault wf = vault failingWorld
    /\ settings wf = settings failingWorld.
Proof.
  apply (summarize_failure_is_contained failingWorld
           (emit (Requested
                    (llmRequest (settings failingWorld)
                       (buildMessages (settings failingWorld) "2026-02-20"
                          "A note with 25 characters")))
              failingWorld)
           exampleNow exampleNow
           "2026-02-20" false "  A note with 25 characters  "
           (mkError "LLM request failed (500)")).
  - right. vm_compute. reflexivity.
  - vm_compute. reflexivity.
  - vm_compute. lia.
  - vm_compute. reflexivity.
Defined.

(** ** Strings *)

Lemma app_cons_s (x : ascii) (a b : string) : String x a +:+ b = String x (a +:+ b).
Proof. reflexivity. Qed.

Lemma app_nil_l_s (b : string) : "" +:+ b = b.
Proof. reflexivity. Qed.

Ltac sapp := rewrite ?app_cons_s, ?app_nil_l_s in *.

Lemma app_assoc_s (a b c : string) : (a +:+ b) +:+ c = a +:+ (b +:+ c).
Proof. induction a as [|x a IH]; sapp; [reflexivity|]. now rewrite IH. Qed.

Lemma app_nil_r_s (a : string) : a +:+ "" = a.
Proof. induction a as [|x a IH]; sapp; [reflexivity|]. now rewrite IH. Qed.

Lemma app_eq_nil_s (a b : string) : a +:+ b = "" -> a = "" /\ b = "".
Proof. destruct a; sapp; [auto | discriminate]. Qed.

Lemma length_app_s (a b : string) :
  String.length (a +:+ b) = (String.length a + String.length b)%nat.
Proof. induction a as [|x a IH]; sapp; simpl; [reflexivity|]. now rewrite IH. Qed.

(** *** Trimming *)

Lemma trimEnd_app (a b : string) :
  Js.trimEnd b <> "" -> Js.trimEnd (a +:+ b) = a +:+ Js.trimEnd b.
Proof.
  intros Hb. induction a as [|x a IH]; sapp; [reflexivity|]. simpl.
  rewrite IH. destruct (a +:+ Js.trimEnd b) eqn:E; [|reflexivity].
  apply app_eq_nil_s in E. tauto.
Qed.

Lemma trimEnd_head (c : ascii) (r : string) :
  Js.isWhiteSpace c = false -> exists r', Js.trimEnd (String c r) = String c r'.
Proof.
  intros Hc. simpl. destruct (Js.trimEnd r).
  - rewrite Hc. now exists "".
  - now eexists.
Qed.

Lemma trimStart_head (s : string) :
  Js.trimStart s = ""
  \/ exists c r, Js.trimStart s = String c r /\ Js.isWhiteSpace c = false.
Proof.
  induction s as [|x s IH]; simpl; [now left|].
  destruct (Js.isWhiteSpace x) eqn:E; [exact IH|].
  right. now exists x, s.
Qed.

(** A trimmed string is empty or starts with a character that is not
    white space. *)
Lemma trim_head (s : string) :
  Js.trim s = "" \/ exists c r, Js.trim s = String c r /\ Js.isWhiteSpace c = false.
Proof.
  unfold Js.trim. destruct (trimStart_head s) as [-> | (c & r & -> & Hc)].
  - now left.
  - right. destruct (trimEnd_head c r Hc) as [r' ->]. now exists c, r'.
Qed.

Lemma trimEnd_closing (a : string) : Js.trimEnd (a +:+ ")") = a +:+ ")".
Proof. rewrite trimEnd_app; [reflexivity | discriminate]. Qed.

Lemma trimEnd_backlink (dateStamp : string) :
  Js.trimEnd (backlinkOf dateStamp) = backlinkOf dateStamp.
Proof.
  unfold backlinkOf.
  rewrite <- !app_assoc_s. apply trimEnd_closing.
Qed.

Lemma backlink_nonempty (dateStamp : string) : backlinkOf dateStamp <> "".
Proof. unfold backlinkOf, Js.LF. sapp. discriminate. Qed.

(** Trimming the summary with its backlink removes nothing once the
    trimmed summary is not empty. *)
Lemma trim_with_backlink (summary dateStamp : string) :
  Js.trim summary <> "" ->
  Js.trim (Js.trim summary +:+ backlinkOf dateStamp)
  = Js.trim summary +:+ backlinkOf dateStamp.
Proof.
  intros Hne. destruct (trim_head summary) as [H | (c & r & H & Hc)]; [contradiction|].
  rewrite H. unfold Js.trim at 1. sapp. simpl Js.trimStart. rewrite Hc.
  rewrite <- app_cons_s. rewrite trimEnd_app; rewrite trimEnd_backlink; [reflexivity|].
  apply backlink_nonempty.
Qed.

(** ** Folder creation leaves files alone *)

Lemma folders_only_refl (w : World) : folders_only w w.
Proof.
  unfold folders_only. repeat (split; [reflexivity|]).
  exists []. simpl. now rewrite app_nil_r.
Qed.

Lemma folders_only_trans (w1 w2 w3 : World) :
  folders_only w1 w2 -> folders_only w2 w3 -> folders_only w1 w3.
Proof.
  intros (Hf & Hs & Hr & Hsub & l1 & Ht) (Hf' & Hs' & Hr' & Hsub' & l2 & Ht').
  unfold folders_only. repeat (split; [congruence|]).
  split; [set_solver|].
  exists (l1 ++ l2). rewrite Ht', Ht, List.map_app. now rewrite <- app_assoc.
Qed.

Lemma createFolder_folders_only (p : string) (w : World) :
  folders_only w (snd (vault_createFolder p w)).
Proof.
  unfold vault_createFolder.
  destruct (vault_exists (vault w) p); [apply folders_only_refl|].
  destruct (_ && _); [apply folders_only_refl|].
  unfold folders_only. simpl. repeat (split; [reflexivity|]).
  split; [set_solver|]. now exists [p].
Qed.

Lemma ensureSegments_folders_only (parts : list string) (current : string) (w : World) :
  folders_only w (snd (ensureSegments parts current w)).
Proof.
  revert current w. induction parts as [|part rest IH]; intros current w; simpl.
  - apply folders_only_refl.
  - unfold bind at 1, adapter_exists at 1. simpl.
    set (cur := if Js.truthy current then _ else _).
    destruct (vault_exists (vault w) cur); simpl.
    + unfold bind, ret. apply IH.
    + unfold bind at 1.
      pose proof (createFolder_folders_only cur w) as Hc.
      destruct (vault_createFolder cur w) as [[e|[]] w1]; simpl in *; [exact Hc|].
      eapply folders_only_trans; [exact Hc | apply IH].
Qed.

Lemma ensureFolderExists_folders_only (folderPath : string) (w : World) :
  folders_only w (snd (ensureFolderExists folderPath w)).
Proof.
  unfold ensureFolderExists.
  destruct (_ || _); [apply folders_only_refl|].
  unfold bind, adapter_exists. simpl.
  destruct (vault_exists _ _); [apply folders_only_refl|].
  apply ensureSegments_folders_only.
Qed.

Lemma writes_created (created : list string) :
  writes (List.map CreatedFolder created) = [].
Proof. induction created; simpl; auto. Qed.

Lemma renames_created (created : list string) :
  renames (List.map CreatedFolder created) = [].
Proof. induction created; simpl; auto. Qed.

Lemma folders_only_writes (w w' : World) :
  folders_only w w' -> writes (trace w') = writes (trace w).
Proof.
  intros (_ & _ & _ & _ & l & ->). unfold writes. rewrite omap_app.
  fold (writes (List.map CreatedFolder l)). rewrite writes_created.
  now rewrite app_nil_r.
Qed.

Lemma folders_only_renames (w w' : World) :
  folders_only w w' -> renames (trace w') = renames (trace w).
Proof.
  intros (_ & _ & _ & _ & l & ->). unfold renames. rewrite omap_app.
  fold (renames (List.map CreatedFolder l)). rewrite renames_created.
  now rewrite app_nil_r.
Qed.

(** ** The persist step *)

Lemma persistSummary_writes (dateStamp outputPath summary : string) (w : World) :
  let wf := snd (persistSummary dateStamp outputPath summary w) in
  writes (trace wf) = writes (trace w)
  \/ writes (trace wf)
     = writes (trace w) ++ [(outputPath, writtenContent dateStamp summary)].
Proof.
  intros wf. subst wf.
  destruct (persistSummary dateStamp outputPath summary w) as [r wf] eqn:E.
  simpl. revert E.
  unfold persistSummary. destruct (negb (Js.truthy summary)).
  { intros [= _ <-]. left. unfold newNotice, writes. simpl. rewrite omap_app. simpl.
    now rewrite app_nil_r. }
  unfold bind at 1, getSettings at 1. simpl.
  unfold bind at 1.
  pose proof (ensureFolderExists_folders_only (outputFolder (settings w)) w) as H1.
  destruct (ensureFolderExists (outputFolder (settings w)) w) as [[e|[]] w1];
    simpl in *.
  { intros [= _ <-]. left. now apply folders_only_writes. }
  unfold bind at 1.
  set (dir := Js.join "/" _).
  pose proof (ensureFolderExists_folders_only dir w1) as H2.
  destruct (ensureFolderExists dir w1) as [[e|[]] w2]; simpl in *.
  { intros [= _ <-]. left. rewrite (folders_only_writes _ _ H2).
    now apply folders_only_writes. }
  unfold bind, adapter_write, saveSettings, newNotice. simpl.
  intros [= _ <-]. right. simpl.
  unfold writes. rewrite !omap_app. simpl. rewrite !app_nil_r.
  fold (writes (trace w2)).
  rewrite (folders_only_writes _ _ H2), (folders_only_writes _ _ H1).
  reflexivity.
Qed.

Lemma callLlm_success_world (messages : list ChatMessage) (w w' : World) (text : string) :
  callLlm messages w = (inr text, w') ->
  w' = emit (Requested (llmRequest (settings w) messages)) w.
Proof.
  rewrite callLlm_unfold.
  destruct (negb _); [discriminate|].
  simpl. destruct (requestUrl w _) as [e'|resp]; [discriminate|].
  destruct (negb _); [discriminate|].
  destruct (responseContent resp); intros [= _ <-] || discriminate. reflexivity.
Qed.

Lemma writes_emit_other (e : Event) (w : World) :
  (forall p c, e <> Wrote p c) -> writes (trace (emit e w)) = writes (trace w).
Proof.
  intros H. unfold writes. simpl. rewrite omap_app. simpl.
  destruct e; simpl; rewrite ?app_nil_r; try reflexivity.
  now specialize (H path text).
Qed.

Lemma processBody_writes (noteNow : Date) (dateStamp : string) (force : bool)
    (outputPath : string) (w : World) :
  let wf := snd (processBody noteNow dateStamp force outputPath w) in
  writes (trace wf) = writes (trace w)
  \/ exists raw w1 summary,
       files (vault w) !! getDailyNotePath (settings w) noteNow dateStamp = Some raw
       /\ callLlm (buildMessages (settings w) dateStamp (Js.trim raw)) w
          = (inr summary, w1)
       /\ writes (trace wf)
          = writes (trace w) ++ [(outputPath, writtenContent dateStamp summary)].
Proof.
  intros wf. subst wf.
  destruct (processBody noteNow dateStamp force outputPath w) as [r wf] eqn:E.
  simpl. revert E. unfold processBody.
  unfold bind at 1, getSettings at 1; simpl.
  unfold bind at 1, adapter_exists at 1; simpl.
  destruct (vault_exists _ _); simpl.
  2:{ destruct force; unfold newNotice, ret; intros [= _ <-]; left;
      [now apply writes_emit_other | reflexivity]. }
  unfold bind at 1, adapter_read at 1.
  destruct (files (vault w) !! _) as [raw|] eqn:Hraw; [|intros [= _ <-]; now left].
  destruct (_ || _).
  { destruct force; unfold newNotice, ret; intros [= _ <-]; left;
      [now apply writes_emit_other | reflexivity]. }
  unfold bind at 1.
  destruct (callLlm _ w) as [[e|summary] w1] eqn:Hcall.
  - intros [= _ <-]. left.
    destruct (callLlm_failure_world _ _ _ _ Hcall) as [-> | ->];
      [reflexivity | now apply writes_emit_other].
  - intros E.
    pose proof (persistSummary_writes dateStamp outputPath summary w1) as Hp.
    rewrite E in Hp. simpl in Hp.
    assert (Hw1 : writes (trace w1) = writes (trace w)).
    { rewrite (callLlm_success_world _ _ _ _ Hcall). now apply writes_emit_other. }
    rewrite Hw1 in Hp. destruct Hp as [Hp|Hp]; [now left|].
    right. exists raw, w1, summary. auto.
Qed.

Lemma backlinkOf_rule (dateStamp : string) :
  backlinkOf dateStamp = Js.LF +:+ Js.LF +:+ ruleAndLink dateStamp.
Proof. reflexivity. Qed.

Lemma trimEnd_rule (dateStamp : string) :
  Js.trimEnd (ruleAndLink dateStamp) = ruleAndLink dateStamp.
Proof. unfold ruleAndLink. rewrite <- !app_assoc_s. apply trimEnd_closing. Qed.

Lemma trim_backlink (dateStamp : string) :
  Js.trim (backlinkOf dateStamp) = ruleAndLink dateStamp.
Proof.
  unfold Js.trim.
  assert (Hs : Js.trimStart (backlinkOf dateStamp) = ruleAndLink dateStamp).
  { unfold backlinkOf, ruleAndLink, Js.LF. rewrite !app_cons_s, !app_nil_l_s.
    reflexivity. }
  rewrite Hs. apply trimEnd_rule.
Qed.

(** C2: when a run of the day processor writes, it writes once, to the
    summary path: the summary the client returned for the note, trimmed,
    then the backlink section (the rule [---], a blank line and the link
    [[Original note](day)]), then one line feed, and nothing after it.
    The section is set off from the summary by two line feeds; they are
    absent only when the trimmed summary is empty, where the trim of the
    whole text takes them. *)
Theorem written_summary_content (w : World) (gateNow noteNow : Date)
    (dateStamp : string) (force : bool) :
  let wf := snd (processDateIfNeeded gateNow noteNow dateStamp force w) in
  writes (trace wf) <> writes (trace w) ->
  exists raw w1 summary lead,
    files (vault w) !! getDailyNotePath (settings w) noteNow dateStamp = Some raw
    /\ callLlm (buildMessages (settings w) dateStamp (Js.trim raw)) w
       = (inr summary, w1)
    /\ writes (trace wf)
       = writes (trace w)
         ++ [(getSummaryPath (settings w) gateNow dateStamp,
              Js.trim summary +:+ lead +:+ ruleAndLink dateStamp +:+ Js.LF)]
    /\ (lead = Js.LF +:+ Js.LF \/ (lead = "" /\ Js.trim summary = "")).
Proof.
  intros wf Hneq. subst wf.
  destruct (processDateIfNeeded gateNow noteNow dateStamp force w) as [r wf] eqn:E.
  simpl in *. revert E. unfold processDateIfNeeded.
  unfold bind at 1, getSettings at 1; simpl.
  unfold bind at 1.
  set (out := getSummaryPath (settings w) gateNow dateStamp).
  set (notePath := getDailyNotePath (settings w) noteNow dateStamp).
  assert (Hgo :
    tryCatch (processBody noteNow dateStamp force out)
      (fun error =>
         consoleError "Failed to generate daily summary" ;;
         newNotice ("Daily summary failed: " +:+ message error)) w = (r, wf) ->
    exists raw w1 summary,
      files (vault w) !! notePath = Some raw
      /\ callLlm (buildMessages (settings w) dateStamp (Js.trim raw)) w
         = (inr summary, w1)
      /\ writes (trace wf)
         = writes (trace w) ++ [(out, writtenContent dateStamp summary)]).
  { unfold tryCatch.
    pose proof (processBody_writes noteNow dateStamp force out w) as Hb.
    destruct (processBody noteNow dateStamp force out w) as [[e|[]] wb]; simpl in Hb.
    - unfold_m. simpl. intros [= _ <-].
      rewrite !writes_emit_other by discriminate.
      rewrite !writes_emit_other in Hneq by discriminate.
      destruct Hb as [Hb|Hb]; [contradiction | exact Hb].
    - intros [= _ <-]. destruct Hb as [Hb|Hb]; [contradiction | exact Hb]. }
  assert (Hfin :
    (exists raw w1 summary,
      files (vault w) !! notePath = Some raw
      /\ callLlm (buildMessages (settings w) dateStamp (Js.trim raw)) w
         = (inr summary, w1)
      /\ writes (trace wf)
         = writes (trace w) ++ [(out, writtenContent dateStamp summary)]) ->
    exists raw w1 summary lead,
      files (vault w) !! notePath = Some raw
      /\ callLlm (buildMessages (settings w) dateStamp (Js.trim raw)) w
         = (inr summary, w1)
      /\ writes (trace wf)
         = writes (trace w)
           ++ [(out, Js.trim summary +:+ lead +:+ ruleAndLink dateStamp +:+ Js.LF)]
      /\ (lead = Js.LF +:+ Js.LF \/ (lead = "" /\ Js.trim summary = ""))).
  { intros (raw & w1 & summary & Hraw & Hcall & Hw).
    exists raw, w1, summary.
    destruct (decide (Js.trim summary = "")) as [Hempty|Hne].
    - exists "". split; [exact Hraw|]. split; [exact Hcall|]. split; [|now right].
      rewrite Hw. unfold writtenContent. rewrite Hempty, !app_nil_l_s.
      now rewrite trim_backlink.
    - exists (Js.LF +:+ Js.LF). split; [exact Hraw|]. split; [exact Hcall|].
      split; [|now left].
      rewrite Hw. unfold writtenContent.
      rewrite (trim_with_backlink _ _ Hne), backlinkOf_rule.
      now rewrite !app_assoc_s. }
  destruct force; simpl.
  - unfold ret. intros E. apply Hfin, Hgo, E.
  - unfold adapter_exists. destruct (vault_exists (vault w) out).
    + unfold ret. intros [= _ <-]. now contradiction Hneq.
    + intros E. apply Hfin, Hgo, E.
Qed.

Lemma written_summary_content_witness :
  exists raw w1 summary lead,
    files (vault (digestWorld "Summary text"))
      !! getDailyNotePath (settings (digestWorld "Summary text"))
           exampleNow "2026-02-20" = Some raw
    /\ callLlm (buildMessages (settings (digestWorld "Summary text"))
                  "2026-02-20" (Js.trim raw)) (digestWorld "Summary text")
       = (inr summary, w1)
    /\ writes (trace (snd (processDateIfNeeded exampleNow exampleNow
                             "2026-02-20" false (digestWorld "Summary text"))))
       = writes (trace (digestWorld "Summary text"))
         ++ [(getSummaryPath (settings (digestWorld "Summary text"))
                exampleNow "2026-02-20",
              Js.trim summary +:+ lead +:+ ruleAndLink "2026-02-20" +:+ Js.LF)]
    /\ (lead = Js.LF +:+ Js.LF \/ (lead = "" /\ Js.trim summary = "")).
Proof.
  apply (written_summary_content (digestWorld "Summary text") exampleNow exampleNow
           "2026-02-20" false).
  vm_compute. discriminate.
Defined.

(** The end-to-end example of the specification: a note of 25
    characters, the answer ["Summary text"], day 2026-02-20. *)
Example written_summary_example :
  writes (trace (snd (processDateIfNeeded exampleNow exampleNow "2026-02-20" false
                        (digestWorld "Summary text"))))
  = [("Daily Summaries/2026-02-20_summary.md",
      "Summary text" +:+ Js.LF +:+ Js.LF +:+ "---" +:+ Js.LF +:+ Js.LF
        +:+ "[Original note](2026-02-20)" +:+ Js.LF)].
Proof. vm_compute. reflexivity. Qed.

(** A summary of white space only is not empty, so the run persists;
    its trimmed text is empty and the file holds the rule and the link. *)
Example whitespace_summary_example :
  writes (trace (snd (processDateIfNeeded exampleNow exampleNow "2026-02-20" false
                        (digestWorld " "))))
  = [("Daily Summaries/2026-02-20_summary.md",
      "---" +:+ Js.LF +:+ Js.LF +:+ "[Original note](2026-02-20)" +:+ Js.LF)].
Proof. vm_compute. reflexivity. Qed.

(** ** Calendar-day keys *)

Lemma matchStampHead_inv (s stamp rest : string) :
  matchStampHead s = Some (stamp, rest) -> DigitStamp stamp /\ s = stamp +:+ rest.
Proof.
  unfold matchStampHead.
  destruct s as [|y1 [|y2 [|y3 [|y4 [|h1 [|m1 [|m2 [|h2 [|d1 [|d2 r]]]]]]]]]];
    try discriminate.
  destruct (_ && _) eqn:E; [|discriminate].
  intros [= <- <-].
  repeat (apply andb_true_iff in E; destruct E as [E ?]).
  apply Ascii.eqb_eq in H1, H4. subst h1 h2.
  split; [now constructor | reflexivity].
Qed.

Lemma matchStampHead_digits (stamp rest : string) :
  DigitStamp stamp -> matchStampHead (stamp +:+ rest) = Some (stamp, rest).
Proof.
  intros [y1 y2 y3 y4 m1 m2 d1 d2 H1 H2 H3 H4 H5 H6 H7 H8].
  unfold stampOf. sapp. unfold matchStampHead.
  now rewrite H1, H2, H3, H4, H5, H6, H7, H8.
Qed.

Lemma canonicalKey_iff (day : string) : canonicalKey day = true <-> DigitStamp day.
Proof.
  unfold canonicalKey. split.
  - destruct (matchStampHead day) as [[stamp rest]|] eqn:E; [|discriminate].
    intros H. apply String.eqb_eq in H. subst rest.
    apply matchStampHead_inv in E. destruct E as [Hd ->].
    now rewrite app_nil_r_s.
  - intros Hd. rewrite <- (app_nil_r_s day).
    now rewrite (matchStampHead_digits _ _ Hd).
Qed.

Lemma isDigit_not (c x : ascii) : isDigit c = true -> isDigit x = false -> Ascii.eqb c x = false.
Proof.
  intros Hc Hx. destruct (Ascii.eqb_spec c x) as [->|]; [congruence | reflexivity].
Qed.

(** [getDateParts] on a key of eight digits: the four year digits and
    the two month digits. *)
Lemma getDateParts_stampOf (y1 y2 y3 y4 m1 m2 d1 d2 : ascii) :
  isDigit y1 = true -> isDigit y2 = true -> isDigit y3 = true ->
  isDigit y4 = true -> isDigit m1 = true -> isDigit m2 = true ->
  isDigit d1 = true -> isDigit d2 = true ->
  getDateParts (stampOf y1 y2 y3 y4 m1 m2 d1 d2)
  = mkParts (Some (String y1 (String y2 (String y3 (String y4 "")))))
      (Some (String m1 (String m2 ""))).
Proof.
  intros H1 H2 H3 H4 H5 H6 H7 H8.
  unfold getDateParts, stampOf. simpl.
  rewrite !(isDigit_not _ "-") by (assumption || reflexivity).
  reflexivity.
Qed.

Lemma getDateParts_canonical (day : string) :
  canonicalKey day = true ->
  getDateParts day
  = mkParts (Some (String.substring 0 4 day)) (Some (String.substring 5 2 day)).
Proof.
  intros H. apply canonicalKey_iff in H.
  destruct H as [y1 y2 y3 y4 m1 m2 d1 d2 H1 H2 H3 H4 H5 H6 H7 H8].
  now rewrite getDateParts_stampOf.
Qed.

(** C9 (as the code has it): [getDateParts] checks nothing.  It always
    returns a record whose year is a string, the text before the first
    hyphen, and whose month is the text between the first two hyphens,
    or undefined when the key has no hyphen; it never fails and never
    returns null.  On a well-formed key these are the four-digit year
    and the two-digit month. *)
Theorem getDateParts_splits (day : string) :
  year (getDateParts day) = nth_error (Js.split "-" day) 0
  /\ month_part (getDateParts day) = nth_error (Js.split "-" day) 1
  /\ (exists y, year (getDateParts day) = Some y)
  /\ (canonicalKey day = true ->
      exists y m,
        getDateParts day = mkParts (Some y) (Some m)
        /\ y = String.substring 0 4 day /\ m = String.substring 5 2 day
        /\ String.length y = 4%nat /\ String.length m = 2%nat
        /\ allDigits y = true /\ allDigits m = true).
Proof.
  split; [reflexivity|]. split; [reflexivity|]. split.
  - unfold getDateParts. simpl.
    destruct day as [|c r]; simpl; [now eexists|].
    destruct (Ascii.eqb c "-"); [now eexists|].
    destruct (Js.split "-" r); now eexists.
  - intros H. rewrite (getDateParts_canonical _ H).
    apply canonicalKey_iff in H.
    destruct H as [y1 y2 y3 y4 m1 m2 d1 d2 H1 H2 H3 H4 H5 H6 H7 H8].
    do 2 eexists. split; [reflexivity|]. split; [reflexivity|].
    split; [reflexivity|]. simpl.
    unfold allDigits. simpl. rewrite H1, H2, H3, H4, H5, H6. auto.
Qed.

Lemma getDateParts_splits_witness :
  exists y m,
    getDateParts "2026-02-20" = mkParts (Some y) (Some m)
    /\ y = String.substring 0 4 "2026-02-20"
    /\ m = String.substring 5 2 "2026-02-20"
    /\ String.length y = 4%nat /\ String.length m = 2%nat
    /\ allDigits y = true /\ allDigits m = true.
Proof.
  apply (proj2 (proj2 (proj2 (getDateParts_splits "2026-02-20")))). reflexivity.
Defined.

(** C9, as stated, fails: a malformed key is not refused. *)
Lemma getDateParts_malformed_counterexample :
  canonicalKey "garbage" = false
  /\ getDateParts "garbage" = mkParts (Some "garbage") None
  /\ canonicalKey "2026/02/20" = false
  /\ getDateParts "20-2-x-y" = mkParts (Some "20") (Some "2").
Proof. repeat split. Qed.

(** ** Normalized paths *)

Lemma startsWithSlash_cons (c : ascii) (r : string) :
  startsWithSlash (String c r) = Ascii.eqb c "/".
Proof.
  destruct (Ascii.eqb_spec c "/") as [->|Hne]; [reflexivity|].
  destruct c as [[] [] [] [] [] [] [] []]; try reflexivity. now contradiction Hne.
Qed.

Lemma collapseSlashes_cons (c : ascii) (r : string) :
  collapseSlashes (String c r) =
  if Ascii.eqb c "/" && startsWithSlash r then collapseSlashes r
  else String c (collapseSlashes r).
Proof.
  simpl. destruct (Ascii.eqb_spec c "/") as [->|Hne]; simpl; [|reflexivity].
  destruct r as [|d r]; [reflexivity|].
  rewrite startsWithSlash_cons.
  destruct (Ascii.eqb_spec d "/") as [->|Hd]; [reflexivity|].
  destruct d as [[] [] [] [] [] [] [] []]; try reflexivity. now contradiction Hd.
Qed.

Lemma replaceBackslashes_app (a b : string) :
  replaceBackslashes (a +:+ b) = replaceBackslashes a +:+ replaceBackslashes b.
Proof. induction a as [|x a IH]; sapp; simpl; sapp; [reflexivity|]. now rewrite IH. Qed.

Lemma replaceBackslashes_clean (s : string) :
  noBackslash s = true -> replaceBackslashes s = s.
Proof.
  induction s as [|x s IH]; simpl; [reflexivity|].
  intros H. apply andb_true_iff in H. destruct H as [Hx Hs].
  apply negb_true_iff in Hx. rewrite Hx. now rewrite IH.
Qed.

Lemma noBackslash_replace (s : string) : noBackslash (replaceBackslashes s) = true.
Proof.
  induction s as [|x s IH]; simpl; [reflexivity|].
  rewrite IH, andb_true_r.
  destruct (Ascii.eqb_spec x "\"); [reflexivity|].
  apply negb_true_iff. now apply Ascii.eqb_neq.
Qed.

Lemma startsWithSlash_collapse (s : string) :
  startsWithSlash (collapseSlashes s) = startsWithSlash s.
Proof.
  induction s as [|c r IH]; [reflexivity|].
  rewrite collapseSlashes_cons.
  destruct (Ascii.eqb c "/" && startsWithSlash r) eqn:E.
  - apply andb_true_iff in E. destruct E as [Hc Hr].
    rewrite IH, Hr. now rewrite startsWithSlash_cons.
  - now rewrite !startsWithSlash_cons.
Qed.

Lemma noBackslash_collapse (s : string) :
  noBackslash s = true -> noBackslash (collapseSlashes s) = true.
Proof.
  induction s as [|c r IH]; [reflexivity|].
  intros H. simpl in H. apply andb_true_iff in H. destruct H as [Hc Hr].
  rewrite collapseSlashes_cons. destruct (_ && _); [now apply IH|].
  simpl. rewrite Hc. now apply IH.
Qed.

Lemma noDoubleSlash_collapse (s : string) : noDoubleSlash (collapseSlashes s) = true.
Proof.
  induction s as [|c r IH]; [reflexivity|].
  rewrite collapseSlashes_cons.
  destruct (Ascii.eqb c "/" && startsWithSlash r) eqn:E; [exact IH|].
  simpl. rewrite startsWithSlash_collapse, E, IH. reflexivity.
Qed.

Lemma normalizePath_wellSeparated (value : string) :
  wellSeparated (normalizePath value) = true.
Proof.
  unfold wellSeparated, normalizePath.
  rewrite noBackslash_collapse by apply noBackslash_replace.
  now rewrite noDoubleSlash_collapse.
Qed.

Lemma collapseSlashes_clean (s : string) :
  noDoubleSlash s = true -> collapseSlashes s = s.
Proof.
  induction s as [|c r IH]; [reflexivity|].
  simpl noDoubleSlash. intros H. apply andb_true_iff in H. destruct H as [Hc Hr].
  apply negb_true_iff in Hc. rewrite collapseSlashes_cons, Hc. now rewrite IH.
Qed.

Lemma startsWithSlash_app (a b : string) :
  a <> "" -> startsWithSlash (a +:+ b) = startsWithSlash a.
Proof. destruct a as [|c a]; [congruence|]. intros _. sapp. now rewrite !startsWithSlash_cons. Qed.

(** A clean tail after a slash passes through [collapseSlashes]. *)
Lemma collapseSlashes_tail (a t : string) :
  noDoubleSlash t = true -> startsWithSlash t = false ->
  collapseSlashes (a +:+ "/" +:+ t) = collapseSlashes (a +:+ "/") +:+ t.
Proof.
  intros Ht Hs. change ("/" +:+ t) with (String "/" t).
  induction a as [|c a IH].
  - rewrite !app_nil_l_s, !collapseSlashes_cons, Hs. simpl.
    rewrite app_cons_s, app_nil_l_s. now rewrite collapseSlashes_clean.
  - rewrite !app_cons_s, !collapseSlashes_cons.
    assert (Hsame : startsWithSlash (a +:+ String "/" t) = startsWithSlash (a +:+ "/")).
    { destruct a as [|d a]; [reflexivity|].
      now rewrite !app_cons_s, !startsWithSlash_cons. }
    rewrite Hsame. destruct (_ && _); [exact IH|].
    rewrite app_cons_s. now rewrite IH.
Qed.

Lemma normalizePath_tail (a t : string) :
  wellSeparated t = true -> startsWithSlash t = false ->
  normalizePath (a +:+ "/" +:+ t) = normalizePath (a +:+ "/") +:+ t.
Proof.
  unfold wellSeparated, normalizePath. intros H Hs.
  apply andb_true_iff in H. destruct H as [Hb Hd].
  rewrite !replaceBackslashes_app, (replaceBackslashes_clean t Hb).
  change (replaceBackslashes "/") with "/".
  now apply collapseSlashes_tail.
Qed.

(** Collapsing a prefix first changes nothing. *)
Lemma collapseSlashes_prefix (u v : string) :
  collapseSlashes (collapseSlashes u +:+ v) = collapseSlashes (u +:+ v).
Proof.
  induction u as [|c u IH]; [reflexivity|].
  rewrite app_cons_s.
  rewrite (collapseSlashes_cons c u), (collapseSlashes_cons c (u +:+ v)).
  destruct (Ascii.eqb c "/") eqn:Hc; cbn [andb].
  - destruct u as [|d u].
    { change (startsWithSlash "") with false. change (collapseSlashes "") with "".
      cbv iota. rewrite !app_nil_l_s, app_cons_s, app_nil_l_s.
      now rewrite collapseSlashes_cons, Hc. }
    rewrite startsWithSlash_app by discriminate.
    destruct (startsWithSlash (String d u)) eqn:Hd; [exact IH|].
    rewrite app_cons_s, collapseSlashes_cons, Hc.
    rewrite startsWithSlash_app.
    + rewrite startsWithSlash_collapse, Hd. cbn [andb]. now rewrite IH.
    + rewrite collapseSlashes_cons. rewrite startsWithSlash_cons in Hd.
      rewrite Hd. cbn [andb]. discriminate.
  - rewrite app_cons_s, collapseSlashes_cons, Hc. cbn [andb]. now rewrite IH.
Qed.

Lemma normalizePath_prefix (a t : string) :
  normalizePath (normalizePath a +:+ t) = normalizePath (a +:+ t).
Proof.
  unfold normalizePath. rewrite !replaceBackslashes_app.
  rewrite (replaceBackslashes_clean (collapseSlashes _)).
  - apply collapseSlashes_prefix.
  - apply noBackslash_collapse, noBackslash_replace.
Qed.

(** ** The path resolver *)

(** *** Segments *)

Lemma noChar_app (c : ascii) (a b : string) :
  noChar c (a +:+ b) = noChar c a && noChar c b.
Proof.
  induction a as [|x a IH]; [reflexivity|].
  rewrite app_cons_s. simpl. now rewrite IH, andb_assoc.
Qed.

Lemma split_noChar (sep : ascii) (s : string) :
  noChar sep s = true -> Js.split sep s = [s].
Proof.
  induction s as [|x s IH]; [reflexivity|]. simpl.
  intros H. apply andb_true_iff in H. destruct H as [Hx Hs].
  apply negb_true_iff in Hx. rewrite Hx, (IH Hs). reflexivity.
Qed.

Lemma split_segment (sep : ascii) (a b : string) :
  noChar sep a = true -> Js.split sep (a +:+ String sep b) = a :: Js.split sep b.
Proof.
  induction a as [|x a IH]; intros H.
  - rewrite app_nil_l_s. simpl. now rewrite Ascii.eqb_refl.
  - rewrite app_cons_s. simpl in *.
    apply andb_true_iff in H. destruct H as [Hx Hs].
    apply negb_true_iff in Hx. rewrite Hx, (IH Hs). reflexivity.
Qed.

Lemma noBackslash_noChar (s : string) : noBackslash s = noChar "\" s.
Proof. induction s as [|x s IH]; [reflexivity|]. simpl. now rewrite IH. Qed.

Lemma noDoubleSlash_noChar (s : string) : noChar "/" s = true -> noDoubleSlash s = true.
Proof.
  induction s as [|x s IH]; [reflexivity|]. simpl.
  intros H. apply andb_true_iff in H. destruct H as [Hx Hs].
  apply negb_true_iff in Hx. rewrite Hx, (IH Hs). reflexivity.
Qed.

Lemma noDoubleSlash_segment (a b : string) :
  noChar "/" a = true -> a <> "" -> startsWithSlash b = false ->
  noDoubleSlash (a +:+ String "/" b) = noDoubleSlash b.
Proof.
  induction a as [|x a IH]; intros H Hne Hb; [congruence|].
  rewrite app_cons_s. simpl in *.
  apply andb_true_iff in H. destruct H as [Hx Hs].
  apply negb_true_iff in Hx. rewrite Hx. simpl.
  destruct a as [|y a].
  - rewrite app_nil_l_s. simpl. now rewrite Hb.
  - now apply IH.
Qed.

Lemma startsWithSlash_noChar (a b : string) :
  noChar "/" a = true -> a <> "" -> startsWithSlash (a +:+ b) = false.
Proof.
  destruct a as [|x a]; intros H Hne; [congruence|].
  rewrite app_cons_s, startsWithSlash_cons. simpl in H.
  apply andb_true_iff in H. destruct H as [Hx _]. now apply negb_true_iff in Hx.
Qed.

Lemma wellSeparated_segment (a : string) : isSegment a -> wellSeparated a = true.
Proof.
  intros (Hs & Hb & _). unfold wellSeparated.
  now rewrite noBackslash_noChar, Hb, noDoubleSlash_noChar.
Qed.

Lemma wellSeparated_cons_segment (a b : string) :
  isSegment a -> wellSeparated b = true -> startsWithSlash b = false ->
  wellSeparated (a +:+ "/" +:+ b) = true.
Proof.
  intros (Hs & Hb & Hne) Hw Hsl. unfold wellSeparated in *.
  apply andb_true_iff in Hw. destruct Hw as [Hwb Hwd].
  change ("/" +:+ b) with (String "/" b).
  rewrite noDoubleSlash_segment by assumption.
  rewrite noBackslash_noChar, noChar_app, Hb. simpl.
  now rewrite <- noBackslash_noChar, Hwb, Hwd.
Qed.

Lemma isSegment_app (a b : string) :
  noChar "/" a = true -> noChar "\" a = true ->
  noChar "/" b = true -> noChar "\" b = true -> b <> "" -> isSegment (a +:+ b).
Proof.
  intros Ha Ha' Hb Hb' Hne. unfold isSegment. rewrite !noChar_app, Ha, Ha', Hb, Hb'.
  repeat split. intros H. apply app_eq_nil_s in H. tauto.
Qed.

(** The pieces of a key of eight digits are segments. *)
Lemma DigitStamp_segments (day : string) :
  DigitStamp day ->
  noChar "/" day = true /\ noChar "\" day = true
  /\ isSegment (String.substring 0 4 day) /\ isSegment (String.substring 5 2 day).
Proof.
  intros [y1 y2 y3 y4 m1 m2 d1 d2 H1 H2 H3 H4 H5 H6 H7 H8].
  unfold isSegment, stampOf. simpl.
  rewrite !(isDigit_not _ "\"), !(isDigit_not _ "/") by (assumption || reflexivity).
  repeat split; discriminate.
Qed.

(** The two tails a resolver appends to its root for a key of eight
    digits and a file suffix [ext]. *)
Lemma flat_tail (day ext : string) :
  DigitStamp day -> isSegment ext ->
  wellSeparated (day +:+ ext) = true
  /\ startsWithSlash (day +:+ ext) = false
  /\ Js.split "/" (day +:+ ext) = [day +:+ ext].
Proof.
  intros Hd (He & He' & Hne).
  destruct (DigitStamp_segments day Hd) as (Hs & Hb & _ & _).
  assert (Hseg : isSegment (day +:+ ext)) by now apply isSegment_app.
  split; [now apply wellSeparated_segment|]. split.
  - apply startsWithSlash_noChar; [exact Hs|]. destruct Hd. discriminate.
  - apply split_noChar. apply Hseg.
Qed.

Lemma nested_tail (day ext : string) :
  DigitStamp day -> isSegment ext ->
  let y := String.substring 0 4 day in
  let m := String.substring 5 2 day in
  wellSeparated (y +:+ "/" +:+ m +:+ "/" +:+ day +:+ ext) = true
  /\ startsWithSlash (y +:+ "/" +:+ m +:+ "/" +:+ day +:+ ext) = false
  /\ Js.split "/" (y +:+ "/" +:+ m +:+ "/" +:+ day +:+ ext) = [y; m; day +:+ ext].
Proof.
  intros Hd He y m.
  destruct (flat_tail day ext Hd He) as (Hw & Hsl & Hsp).
  destruct (DigitStamp_segments day Hd) as (_ & _ & Hy & Hm).
  fold y in Hy. fold m in Hm.
  assert (Hsl2 : startsWithSlash (m +:+ "/" +:+ day +:+ ext) = false).
  { apply startsWithSlash_noChar; apply Hm. }
  split; [|split].
  - apply wellSeparated_cons_segment; [exact Hy | | exact Hsl2].
    now apply wellSeparated_cons_segment.
  - apply startsWithSlash_noChar; apply Hy.
  - change ("/" +:+ m +:+ "/" +:+ day +:+ ext)
      with (String "/" (m +:+ String "/" (day +:+ ext))).
    rewrite split_segment by apply Hy.
    rewrite split_segment by apply Hm.
    now rewrite Hsp.
Qed.

Lemma md_segment : isSegment ".md".
Proof. repeat split; discriminate. Qed.

Lemma summary_md_segment : isSegment "_summary.md".
Proof. repeat split; discriminate. Qed.

(** C5 (as the code has it): the resolvers neither refuse nor rewrite a
    day key.  Whatever the key, the returned path has no backslash and no
    two slashes in a row.  For a canonical key the path is the normalized
    root with its slash, followed by the file name alone or by the year,
    the month and the file name: segments taken from the key's digits,
    none of them a parent reference. *)
Theorem paths_separated_and_rooted (s : DailyNotesDigestSettings) (now : Date)
    (day : string) :
  wellSeparated (getDailyNotePath s now day) = true
  /\ wellSeparated (getSummaryPath s now day) = true
  /\ (canonicalKey day = true ->
      (exists tail,
         getDailyNotePath s now day
         = normalizePath (dailyNotesFolder s +:+ "/") +:+ tail
         /\ (Js.split "/" tail = [day +:+ ".md"]
             \/ Js.split "/" tail
                = [String.substring 0 4 day; String.substring 5 2 day;
                   day +:+ ".md"]))
      /\ (exists tail,
            getSummaryPath s now day
            = normalizePath (outputFolder s +:+ "/") +:+ tail
            /\ (Js.split "/" tail = [day +:+ "_summary.md"]
                \/ Js.split "/" tail
                   = [String.substring 0 4 day; String.substring 5 2 day;
                      day +:+ "_summary.md"]))).
Proof.
  split; [|split].
  - unfold getDailyNotePath. destruct (_ && _); apply normalizePath_wellSeparated.
  - unfold getSummaryPath. destruct (_ && _); apply normalizePath_wellSeparated.
  - intros Hc. pose proof (proj1 (canonicalKey_iff day) Hc) as Hd.
    unfold getDailyNotePath, getSummaryPath.
    rewrite (getDateParts_canonical day Hc). simpl interp.
    split.
    + destruct (nested_tail day ".md" Hd md_segment) as (Hw & Hsl & Hsp).
      destruct (flat_tail day ".md" Hd md_segment) as (Hw' & Hsl' & Hsp').
      destruct (_ && _).
      * eexists. split; [apply normalizePath_tail; assumption|]. now right.
      * eexists. split; [apply normalizePath_tail; assumption|]. now left.
    + destruct (nested_tail day "_summary.md" Hd summary_md_segment) as (Hw & Hsl & Hsp).
      destruct (flat_tail day "_summary.md" Hd summary_md_segment) as (Hw' & Hsl' & Hsp').
      destruct (_ && _).
      * eexists. split; [apply normalizePath_tail; assumption|]. now right.
      * eexists. split; [apply normalizePath_tail; assumption|]. now left.
Qed.

Lemma paths_separated_and_rooted_witness :
  (exists tail,
     getDailyNotePath (exampleSettings true) (mkDate 2026 1 21 0) "2026-02-10"
     = normalizePath (dailyNotesFolder (exampleSettings true) +:+ "/") +:+ tail
     /\ (Js.split "/" tail = ["2026-02-10" +:+ ".md"]
         \/ Js.split "/" tail
            = [String.substring 0 4 "2026-02-10"; String.substring 5 2 "2026-02-10";
               "2026-02-10" +:+ ".md"]))
  /\ (exists tail,
        getSummaryPath (exampleSettings true) (mkDate 2026 1 21 0) "2026-02-10"
        = normalizePath (outputFolder (exampleSettings true) +:+ "/") +:+ tail
        /\ (Js.split "/" tail = ["2026-02-10" +:+ "_summary.md"]
            \/ Js.split "/" tail
               = [String.substring 0 4 "2026-02-10";
                  String.substring 5 2 "2026-02-10";
                  "2026-02-10" +:+ "_summary.md"])).
Proof.
  apply (proj2 (proj2 (paths_separated_and_rooted (exampleSettings true)
                         (mkDate 2026 1 21 0) "2026-02-10"))).
  reflexivity.
Defined.

(** C5, as stated, fails: a key with parent references goes into the
    path as it is, and the path leaves the root. *)
Lemma traversal_counterexample :
  canonicalKey "../../secret" = false
  /\ getDailyNotePath (exampleSettings false) (mkDate 2026 1 21 0) "../../secret"
     = "Daily/../../secret.md"
  /\ hasParentSegment "Daily/../../secret.md" = true
  /\ getSummaryPath (exampleSettings true) (mkDate 2026 1 21 0) "../../secret"
     = "Daily Summaries/../../secret/undefined/../../secret_summary.md"
  /\ hasParentSegment
       "Daily Summaries/../../secret/undefined/../../secret_summary.md" = true.
Proof. repeat split. Qed.

(** ** The resolvers read the clock through today's key only *)

Lemma app_inv_length (a b c d : string) :
  String.length a = String.length b -> a +:+ c = b +:+ d -> a = b /\ c = d.
Proof.
  revert b. induction a as [|x a IH]; intros [|y b] Hlen H; try discriminate.
  - now rewrite !app_nil_l_s in H.
  - rewrite !app_cons_s in H. injection H as -> H. simpl in Hlen.
    destruct (IH b) as [-> ->]; auto.
Qed.

Lemma padStart2_table :
  forallb
    (fun k => (String.length (Js.padStart2 (Z.of_nat k)) =? 2)%nat
              && (twoDigits (Js.padStart2 (Z.of_nat k)) =? Z.of_nat k))
    (seq 0 100) = true.
Proof. vm_compute. reflexivity. Qed.

Lemma padStart2_two (n : Z) :
  0 <= n < 100 ->
  String.length (Js.padStart2 n) = 2%nat /\ twoDigits (Js.padStart2 n) = n.
Proof.
  intros Hn. pose proof padStart2_table as H.
  rewrite forallb_forall in H. specialize (H (Z.to_nat n)).
  rewrite Z2Nat.id in H by lia.
  assert (Hin : In (Z.to_nat n) (seq 0 100)) by (apply in_seq; lia).
  apply H in Hin. apply andb_true_iff in Hin. destruct Hin as [H1 H2].
  apply Nat.eqb_eq in H1. apply Z.eqb_eq in H2. auto.
Qed.

Lemma daysInMonth_range (y m : Z) : 28 <= daysInMonth y m <= 31.
Proof.
  unfold daysInMonth.
  destruct (m =? 1); [destruct (isLeapYear y); lia|].
  destruct (_ || _); lia.
Qed.

(** On valid dates the stamp determines the calendar fields. *)
Lemma getLocalDateStamp_inj (d1 d2 : Date) :
  validDate d1 -> validDate d2 ->
  getLocalDateStamp d1 = getLocalDateStamp d2 ->
  fullYear d1 = fullYear d2 /\ month d1 = month d2 /\ date d1 = date d2.
Proof.
  intros [Hm1 Hd1] [Hm2 Hd2] H.
  pose proof (daysInMonth_range (fullYear d1) (month d1)) as R1.
  pose proof (daysInMonth_range (fullYear d2) (month d2)) as R2.
  destruct (padStart2_two (month d1 + 1)) as [Lm1 Vm1]; [lia|].
  destruct (padStart2_two (month d2 + 1)) as [Lm2 Vm2]; [lia|].
  destruct (padStart2_two (date d1)) as [Ld1 Vd1]; [lia|].
  destruct (padStart2_two (date d2)) as [Ld2 Vd2]; [lia|].
  unfold getLocalDateStamp in H. cbv zeta in H.
  assert (Hlen : String.length (pretty (fullYear d1))
                 = String.length (pretty (fullYear d2))).
  { apply (f_equal String.length) in H. rewrite !length_app_s in H.
    rewrite Lm1, Lm2, Ld1, Ld2 in H. simpl in H. lia. }
  apply app_inv_length in H; [|exact Hlen]. destruct H as [Hy H].
  apply (app_inv_length "-" "-") in H; [|reflexivity]. destruct H as [_ H].
  apply app_inv_length in H; [|congruence]. destruct H as [Hm H].
  apply (app_inv_length "-" "-") in H; [|reflexivity]. destruct H as [_ Hd].
  apply (inj pretty) in Hy.
  split; [exact Hy|]. split.
  - apply (f_equal twoDigits) in Hm. lia.
  - apply (f_equal twoDigits) in Hd. lia.
Qed.

Lemma getYesterdayStamp_of_fields (d1 d2 : Date) :
  fullYear d1 = fullYear d2 -> month d1 = month d2 -> date d1 = date d2 ->
  getYesterdayStamp d1 = getYesterdayStamp d2.
Proof.
  intros Hy Hm Hd. unfold getYesterdayStamp, setDate, getLocalDateStamp.
  rewrite Hy, Hm, Hd.
  destruct (1 <=? date d2 - 1); [reflexivity|].
  destruct (month d2 =? 0); reflexivity.
Qed.

(** C4, as amended: the two resolvers read the clock, and their result
    depends on the reading through its calendar day only.  Two readings
    that fall on the same calendar day (equal keys for today), whatever
    their time of day, give the same note path and the same summary
    path for the same day key and settings. *)
Theorem paths_depend_on_today_only (s : DailyNotesDigestSettings)
    (now1 now2 : Date) (day : string) :
  validDate now1 -> validDate now2 ->
  getLocalDateStamp now1 = getLocalDateStamp now2 ->
  getDailyNotePath s now1 day = getDailyNotePath s now2 day
  /\ getSummaryPath s now1 day = getSummaryPath s now2 day.
Proof.
  intros V1 V2 H. split.
  - unfold getDailyNotePath. now rewrite H.
  - destruct (getLocalDateStamp_inj now1 now2 V1 V2 H) as (Hy & Hm & Hd).
    unfold getSummaryPath.
    now rewrite (getYesterdayStamp_of_fields now1 now2 Hy Hm Hd).
Qed.

Lemma paths_depend_on_today_only_witness :
  getDailyNotePath (exampleSettings true) (mkDate 2026 2 1 0) "2026-02-27"
  = getDailyNotePath (exampleSettings true) (mkDate 2026 2 1 86399999) "2026-02-27"
  /\ getSummaryPath (exampleSettings true) (mkDate 2026 2 1 0) "2026-02-27"
     = getSummaryPath (exampleSettings true) (mkDate 2026 2 1 86399999) "2026-02-27".
Proof.
  apply (paths_depend_on_today_only (exampleSettings true)
           (mkDate 2026 2 1 0) (mkDate 2026 2 1 86399999) "2026-02-27").
  - unfold validDate. vm_compute. repeat split; discriminate.
  - unfold validDate. vm_compute. repeat split; discriminate.
  - reflexivity.
Defined.

(** C4, as stated, fails: today is no argument of the resolvers, they
    read the clock, and with the same day key and the same settings two
    calls on different days return different paths. *)
Lemma paths_change_with_the_clock :
  getDailyNotePath (exampleSettings true) (mkDate 2026 1 20 0) "2026-02-20"
  = "Daily/2026-02-20.md"
  /\ getDailyNotePath (exampleSettings true) (mkDate 2026 1 21 0) "2026-02-20"
     = "Daily/2026/02/2026-02-20.md"
  /\ getSummaryPath (exampleSettings true) (mkDate 2026 1 21 0) "2026-02-20"
     = "Daily Summaries/2026-02-20_summary.md"
  /\ getSummaryPath (exampleSettings true) (mkDate 2026 1 22 0) "2026-02-20"
     = "Daily Summaries/2026/02/2026-02-20_summary.md"
  /\ getDailyNotePath (exampleSettings true) (mkDate 2026 1 20 0) "2026-02-20"
     <> getDailyNotePath (exampleSettings true) (mkDate 2026 1 21 0) "2026-02-20"
  /\ getSummaryPath (exampleSettings true) (mkDate 2026 1 21 0) "2026-02-20"
     <> getSummaryPath (exampleSettings true) (mkDate 2026 1 22 0) "2026-02-20".
Proof. repeat split; discriminate. Qed.

(** ** The prompt *)

Lemma pieces_nonempty (search : string) (skip : nat) (s : string) :
  pieces search skip s <> [].
Proof.
  revert skip. induction s as [|c r IH]; intros skip; simpl; [discriminate|].
  destruct skip; [|apply IH].
  destruct (Js.startsWith search (String c r)); [discriminate|].
  destruct (pieces search 0 r); discriminate.
Qed.

Lemma join_cons (sep p : string) (rest : list string) :
  rest <> [] -> Js.join sep (p :: rest) = p +:+ sep +:+ Js.join sep rest.
Proof. destruct rest; [congruence | reflexivity]. Qed.

Lemma join_cons_char (sep : string) (c : ascii) (h : string) (t : list string) :
  Js.join sep (String c h :: t) = String c (Js.join sep (h :: t)).
Proof. destruct t; reflexivity. Qed.

Lemma getSubstitution_other (matched before after : string) (c : ascii) (r : string) :
  Ascii.eqb c "$" = false ->
  Js.getSubstitution matched before after (String c r)
  = String c (Js.getSubstitution matched before after r).
Proof.
  intros Hc.
  destruct c as [[] [] [] [] [] [] [] []]; try reflexivity. discriminate.
Qed.

(** A replacement text without a dollar stands for itself. *)
Lemma getSubstitution_plain (matched before after repl : string) :
  noChar "$" repl = true -> Js.getSubstitution matched before after repl = repl.
Proof.
  induction repl as [|c r IH]; [reflexivity|]. simpl noChar.
  intros H. apply andb_true_iff in H. destruct H as [Hc Hr].
  apply negb_true_iff in Hc. rewrite (getSubstitution_other _ _ _ _ _ Hc).
  now rewrite IH.
Qed.

Lemma replaceAll_go_pieces (search repl : string) (skip : nat) (before s : string) :
  noChar "$" repl = true ->
  Js.replaceAll_go search repl skip before s = Js.join repl (pieces search skip s).
Proof.
  intros Hrepl. revert skip before.
  induction s as [|c r IH]; intros skip before; [reflexivity|].
  simpl. destruct skip as [|k]; [|apply IH].
  destruct (Js.startsWith search (String c r)).
  - rewrite getSubstitution_plain by exact Hrepl.
    rewrite join_cons by apply pieces_nonempty.
    rewrite app_nil_l_s. now rewrite IH.
  - rewrite IH. pose proof (pieces_nonempty search 0 r) as Hne.
    destruct (pieces search 0 r) as [|h t]; [congruence|].
    now rewrite join_cons_char.
Qed.

Lemma startsWith_drop (search s : string) :
  Js.startsWith search s = true -> s = search +:+ Js.drop (String.length search) s.
Proof.
  revert s. induction search as [|a p IH]; intros s H; [reflexivity|].
  destruct s as [|b s]; [discriminate|]. simpl in H.
  apply andb_true_iff in H. destruct H as [Hab Hp]. apply Ascii.eqb_eq in Hab.
  subst b. rewrite app_cons_s. simpl. now rewrite <- IH.
Qed.

Lemma startsWith_app (search b : string) : Js.startsWith search (search +:+ b) = true.
Proof.
  induction search as [|a p IH]; [reflexivity|].
  rewrite app_cons_s. simpl. now rewrite Ascii.eqb_refl.
Qed.

(** Joining the pieces with the search text gives back what is left of
    the string after the skipped characters. *)
Lemma join_pieces (search : string) (skip : nat) (s : string) :
  search <> "" -> Js.join search (pieces search skip s) = Js.drop skip s.
Proof.
  intros Hne. revert skip. induction s as [|c r IH]; intros skip.
  - destruct skip; reflexivity.
  - simpl. destruct skip as [|k]; [|apply IH].
    destruct (Js.startsWith search (String c r)) eqn:Hs.
    + rewrite join_cons by apply pieces_nonempty.
      rewrite app_nil_l_s, IH.
      change (Js.drop 0 (String c r)) with (String c r).
      rewrite (startsWith_drop _ _ Hs) at 1.
      destruct search as [|a p]; [congruence|]. simpl.
      now rewrite Nat.sub_0_r.
    + pose proof (pieces_nonempty search 0 r) as Hp. specialize (IH 0%nat).
      destruct (pieces search 0 r) as [|h t]; [congruence|].
      rewrite join_cons_char, IH. reflexivity.
Qed.

Lemma join_head (sep h : string) (t : list string) :
  exists rest, Js.join sep (h :: t) = h +:+ rest.
Proof.
  destruct t as [|x t].
  - exists "". simpl. now rewrite app_nil_r_s.
  - now exists (sep +:+ Js.join sep (x :: t)).
Qed.

(** No piece holds an occurrence of the search text. *)
Lemma pieces_free (search : string) (skip : nat) (s : string) :
  search <> "" -> Forall (fun p => ~ occurs search p) (pieces search skip s).
Proof.
  intros Hne. revert skip. induction s as [|c r IH]; intros skip.
  - simpl. constructor; [|constructor].
    intros (a & b & H). symmetry in H. apply app_eq_nil_s in H. destruct H as [_ H].
    apply app_eq_nil_s in H. tauto.
  - simpl. destruct skip as [|k]; [|apply IH].
    destruct (Js.startsWith search (String c r)) eqn:Hs.
    + constructor; [|apply IH].
      intros (a & b & H). symmetry in H. apply app_eq_nil_s in H. destruct H as [_ H].
      apply app_eq_nil_s in H. tauto.
    + pose proof (pieces_nonempty search 0 r) as Hp.
      pose proof (join_pieces search 0 r Hne) as Hj. specialize (IH 0%nat).
      destruct (pieces search 0 r) as [|h t]; [congruence|].
      inversion IH as [|? ? Hh Ht]; subst. constructor; [|exact Ht].
      intros (a & b & H). destruct a as [|x a].
      * rewrite app_nil_l_s in H.
        destruct (join_head search h t) as [rest Hrest].
        change (Js.drop 0 r) with r in Hj. rewrite Hrest in Hj.
        assert (Hst : Js.startsWith search (String c r) = true).
        { rewrite <- Hj, <- app_cons_s, H, app_assoc_s. apply startsWith_app. }
        congruence.
      * rewrite app_cons_s in H. injection H as -> H.
        apply Hh. now exists a, b.
Qed.

Lemma DigitStamp_noDollar (day : string) : DigitStamp day -> noChar "$" day = true.
Proof.
  intros [y1 y2 y3 y4 m1 m2 d1 d2 H1 H2 H3 H4 H5 H6 H7 H8].
  unfold stampOf. simpl.
  rewrite !(isDigit_not _ "$") by (assumption || reflexivity). reflexivity.
Qed.

(** C7: for a calendar-day key, [buildMessages] returns two messages,
    the system message first.  The template is cut at its occurrences of
    [{{date}}] into pieces that hold no further occurrence, and the
    system message is those pieces joined by the day key: every
    occurrence is replaced.  The user message is the preamble
    [Daily note for day:], a blank line and the note as it is.  The
    system message is the same whatever the note. *)
Theorem buildMessages_contract (s : DailyNotesDigestSettings) (day note : string) :
  canonicalKey day = true ->
  exists parts,
    promptTemplate s = Js.join "{{date}}" parts
    /\ Forall (fun p => ~ occurs "{{date}}" p) parts
    /\ buildMessages s day note
       = [ mkMessage system (Js.join day parts);
           mkMessage user
             ("Daily note for " +:+ day +:+ ":" +:+ Js.LF +:+ Js.LF +:+ note) ]
    /\ forall note', List.hd_error (buildMessages s day note')
                     = Some (mkMessage system (Js.join day parts)).
Proof.
  intros Hc. apply canonicalKey_iff, DigitStamp_noDollar in Hc.
  assert (Hne : "{{date}}" <> "") by discriminate.
  exists (pieces "{{date}}" 0 (promptTemplate s)).
  split; [|split; [|split]].
  - now rewrite (join_pieces _ _ _ Hne).
  - now apply pieces_free.
  - unfold buildMessages, Js.replaceAll.
    now rewrite (replaceAll_go_pieces _ _ _ _ _ Hc).
  - intros note'. unfold buildMessages, Js.replaceAll.
    now rewrite (replaceAll_go_pieces _ _ _ _ _ Hc).
Qed.

Lemma buildMessages_contract_witness :
  exists parts,
    promptTemplate (exampleSettings false) = Js.join "{{date}}" parts
    /\ Forall (fun p => ~ occurs "{{date}}" p) parts
    /\ buildMessages (exampleSettings false) "2026-02-20" "Line one"
       = [ mkMessage system (Js.join "2026-02-20" parts);
           mkMessage user
             ("Daily note for " +:+ "2026-02-20" +:+ ":" +:+ Js.LF +:+ Js.LF
                +:+ "Line one") ]
    /\ forall note', List.hd_error (buildMessages (exampleSettings false)
                                      "2026-02-20" note')
                     = Some (mkMessage system (Js.join "2026-02-20" parts)).
Proof.
  apply (buildMessages_contract (exampleSettings false) "2026-02-20" "Line one").
  reflexivity.
Defined.

(** The example of the test suite. *)
Example buildMessages_example :
  buildMessages (exampleSettings false) "2026-02-20" "Line one"
  = [ mkMessage system "Digest for 2026-02-20";
      mkMessage user ("Daily note for 2026-02-20:" +:+ Js.LF +:+ Js.LF +:+ "Line one") ].
Proof. reflexivity. Qed.

(** ** The archivist *)

Section Pass.
Variable decode : string -> option string.
Variable skips : string -> bool.
Variable target : string -> string.
Variable folderOf : string -> string.

Local Abbreviation plan := (plan decode skips target folderOf).
Local Abbreviation passLoop := (passLoop decode skips target folderOf).

(** A listing with nothing to move leaves the world alone. *)
Lemma passLoop_noop (listing : list string) (w : World) :
  (forall f, In f listing -> plan f = None) -> passLoop listing w = (inr tt, w).
Proof.
  induction listing as [|f rest IH]; intros H; [reflexivity|].
  simpl. rewrite (H f) by now left.
  apply IH. intros g Hg. apply H. now right.
Qed.

Lemma rename_effect (oldPath newPath : string) (w : World) :
  (exists e, adapter_rename oldPath newPath w = (inl e, w))
  \/ (exists text,
        files (vault w) !! oldPath = Some text
        /\ adapter_rename oldPath newPath w
           = (inr tt,
              emit (Renamed oldPath newPath)
                (with_vault
                   (mkVault (<[newPath := text]> (delete oldPath (files (vault w))))
                      (folders (vault w))) w))).
Proof.
  unfold adapter_rename. destruct (files (vault w) !! oldPath) as [text|].
  - destruct (vault_exists (vault w) newPath); [left; eauto|].
    right. now exists text.
  - left. eauto.
Qed.

(** Every rename of the loop carries out the plan of its file. *)
Lemma passLoop_renames (listing : list string) (w : World) :
  exists moved,
    renames (trace (snd (passLoop listing w))) = renames (trace w) ++ moved
    /\ Forall (fun ft => exists dir, plan (fst ft) = Some (dir, snd ft)) moved.
Proof.
  revert w. induction listing as [|f rest IH]; intros w.
  - exists []. simpl. now rewrite app_nil_r.
  - simpl. destruct (plan f) as [[dir t]|] eqn:Hplan; [|apply IH].
    unfold bind at 1.
    pose proof (ensureFolderExists_folders_only dir w) as H1.
    destruct (ensureFolderExists dir w) as [[e|[]] w1]; simpl in H1.
    { exists []. simpl. rewrite app_nil_r.
      split; [now apply folders_only_renames | constructor]. }
    unfold bind at 1.
    destruct (rename_effect f t w1) as [[e He] | (text & Hf & He)]; rewrite He.
    { exists []. simpl. rewrite app_nil_r.
      split; [now apply folders_only_renames | constructor]. }
    destruct (IH (emit (Renamed f t)
                    (with_vault
                       (mkVault (<[t := text]> (delete f (files (vault w1))))
                          (folders (vault w1))) w1))) as (moved & Hm & Hall).
    exists ((f, t) :: moved). split.
    + rewrite Hm. simpl. unfold renames at 1. rewrite omap_app. simpl.
      fold (renames (trace w1)). rewrite (folders_only_renames _ _ H1).
      now rewrite <- app_assoc.
    + constructor; [|exact Hall]. simpl. now exists dir.
Qed.

(** After a loop that ran to its end, a file of the vault is one that
    was there and had nothing planned if listed, or it is a target. *)
Lemma passLoop_files (listing : list string) (w w' : World) :
  passLoop listing w = (inr tt, w') ->
  settings w' = settings w
  /\ forall p, is_Some (files (vault w') !! p) ->
       (is_Some (files (vault w) !! p) /\ (In p listing -> plan p = None))
       \/ (exists f dir, plan f = Some (dir, p)).
Proof.
  revert w. induction listing as [|f rest IH]; intros w.
  - intros [= <-]. split; [reflexivity|]. intros p Hp. left. split; [exact Hp|].
    intros [].
  - simpl. destruct (plan f) as [[dir t]|] eqn:Hplan.
    + unfold bind at 1.
      pose proof (ensureFolderExists_folders_only dir w) as H1.
      destruct (ensureFolderExists dir w) as [[e|[]] w1]; simpl in H1;
        [discriminate|].
      unfold bind at 1.
      destruct (rename_effect f t w1) as [[e He] | (text & Hf & He)]; rewrite He;
        [discriminate|].
      intros Hrest. apply IH in Hrest. destruct Hrest as [Hs Hfiles].
      destruct H1 as (Hsame & Hset & _).
      split; [simpl in Hs; congruence|].
      intros p Hp. destruct (Hfiles p Hp) as [[Hin Hnone] | Htarget];
        [|now right].
      simpl in Hin.
      destruct (decide (p = t)) as [->|Hpt]; [right; now exists f, dir|].
      rewrite lookup_insert_ne in Hin by congruence.
      destruct (decide (p = f)) as [->|Hpf].
      { rewrite lookup_delete_eq in Hin. now destruct Hin. }
      rewrite lookup_delete_ne in Hin by congruence.
      left. split; [now rewrite <- Hsame|].
      intros [Heq | Hin']; [congruence | now apply Hnone].
    + intros Hrest. apply IH in Hrest. destruct Hrest as [Hs Hfiles].
      split; [exact Hs|].
      intros p Hp. destruct (Hfiles p Hp) as [[Hin Hnone] | Htarget];
        [|now right].
      left. split; [exact Hin|].
      intros [<- | Hin']; [exact Hplan | now apply Hnone].
Qed.
End Pass.

Lemma sortDailyNotes_loop_pass (todayStamp baseFolder : string) (listing : list string) :
  sortDailyNotes_loop todayStamp baseFolder listing
  = passLoop getDailyNoteDateStamp (noteSkips todayStamp)
      (noteTargetPath baseFolder) (monthFolder baseFolder) listing.
Proof.
  induction listing as [|f rest IH]; [reflexivity|].
  simpl. unfold plan, noteSkips.
  destruct (getDailyNoteDateStamp _) as [d|]; [|exact IH].
  destruct (_ || _); [exact IH|].
  destruct (String.eqb f _); [exact IH|].
  unfold monthFolder. now rewrite IH.
Qed.

Lemma sortSummaries_loop_pass (yesterdayStamp baseFolder : string)
    (listing : list string) :
  sortSummaries_loop yesterdayStamp baseFolder listing
  = passLoop getSummaryDateStamp (summarySkips yesterdayStamp)
      (summaryTargetPath baseFolder) (monthFolder baseFolder) listing.
Proof.
  induction listing as [|f rest IH]; [reflexivity|].
  simpl. unfold plan, summarySkips.
  destruct (getSummaryDateStamp _) as [d|]; [|exact IH].
  destruct (_ || _); [exact IH|].
  destruct (String.eqb f _); [exact IH|].
  unfold monthFolder. now rewrite IH.
Qed.

(** *** Where the targets lie *)

Lemma split_nonempty (sep : ascii) (s : string) : Js.split sep s <> [].
Proof.
  induction s as [|c r IH]; simpl; [discriminate|].
  destruct (Ascii.eqb c sep); [discriminate|].
  destruct (Js.split sep r); discriminate.
Qed.

Lemma split_app_sep (sep : ascii) (a b : string) :
  Js.split sep (a +:+ String sep b) = Js.split sep a ++ Js.split sep b.
Proof.
  induction a as [|c a IH].
  - rewrite app_nil_l_s. simpl. now rewrite Ascii.eqb_refl.
  - rewrite app_cons_s. simpl. rewrite IH.
    destruct (Ascii.eqb c sep); [reflexivity|].
    pose proof (split_nonempty sep a) as Hne.
    destruct (Js.split sep a) as [|h t]; [congruence | reflexivity].
Qed.

Lemma join_split (sep : ascii) (s : string) :
  Js.join (String sep "") (Js.split sep s) = s.
Proof.
  induction s as [|c r IH]; [reflexivity|]. simpl.
  pose proof (split_nonempty sep r) as Hne.
  destruct (Ascii.eqb_spec c sep) as [->|Hc].
  - rewrite join_cons by exact Hne. now rewrite IH.
  - destruct (Js.split sep r) as [|h t]; [congruence|].
    now rewrite join_cons_char, IH.
Qed.

Lemma join_app (sep : string) (l1 l2 : list string) :
  l1 <> [] -> l2 <> [] ->
  Js.join sep (l1 ++ l2) = Js.join sep l1 +:+ sep +:+ Js.join sep l2.
Proof.
  intros H1 H2. induction l1 as [|x l1 IH]; [congruence|].
  destruct l1 as [|y l1].
  - simpl app. now rewrite join_cons.
  - change ((x :: y :: l1) ++ l2) with (x :: ((y :: l1) ++ l2)).
    rewrite join_cons by discriminate. rewrite IH by discriminate.
    rewrite (join_cons sep x (y :: l1)) by discriminate.
    now rewrite !app_assoc_s.
Qed.

(** A normalized base followed by a slash: the slash is kept unless the
    base already ends with one. *)
Lemma collapseSlashes_slash (b : string) :
  noDoubleSlash b = true ->
  exists b0, collapseSlashes (b +:+ "/") = b0 +:+ "/" /\ (b = b0 \/ b = b0 +:+ "/").
Proof.
  induction b as [|c b IH]; intros H.
  - exists "". split; [reflexivity | now left].
  - simpl in H. apply andb_true_iff in H. destruct H as [Hc Hb].
    apply negb_true_iff in Hc. rewrite app_cons_s, collapseSlashes_cons.
    destruct b as [|d b].
    + rewrite app_nil_l_s. change (startsWithSlash "/") with true.
      rewrite andb_true_r. destruct (Ascii.eqb_spec c "/") as [->|Hne].
      * exists "". split; [reflexivity | now right].
      * exists (String c ""). split; [reflexivity | now left].
    + rewrite startsWithSlash_app by discriminate. rewrite Hc.
      destruct (IH Hb) as (b0 & Hb0 & Hor). rewrite Hb0.
      exists (String c b0). split; [reflexivity|].
      destruct Hor as [-> | ->]; [now left | now right].
Qed.

Lemma normalizePath_slash (b : string) :
  wellSeparated b = true ->
  exists b0, normalizePath (b +:+ "/") = b0 +:+ "/" /\ (b = b0 \/ b = b0 +:+ "/").
Proof.
  unfold wellSeparated, normalizePath. intros H.
  apply andb_true_iff in H. destruct H as [Hb Hd].
  rewrite replaceBackslashes_app, (replaceBackslashes_clean b Hb).
  now apply collapseSlashes_slash.
Qed.

(** The shape of a target under a normalized base, for a key of eight
    digits and a file suffix. *)
Lemma target_shape (base day ext : string) :
  wellSeparated base = true -> DigitStamp day -> isSegment ext ->
  let p := getDateParts day in
  let t := normalizePath
             (base +:+ "/" +:+ interp (year p) +:+ "/" +:+ interp (month_part p)
                +:+ "/" +:+ day +:+ ext) in
  Js.pop (Js.split "/" t) = day +:+ ext /\ parentPath t <> base.
Proof.
  intros Hbase Hd Hext p t. subst p t.
  rewrite (getDateParts_canonical day) by now apply canonicalKey_iff.
  simpl interp.
  destruct (nested_tail day ext Hd Hext) as (Hw & Hsl & Hsp).
  rewrite normalizePath_tail by assumption.
  destruct (normalizePath_slash base Hbase) as (b0 & -> & Hor).
  set (y := String.substring 0 4 day) in *.
  set (m := String.substring 5 2 day) in *.
  rewrite app_assoc_s.
  change ("/" +:+ y +:+ "/" +:+ m +:+ "/" +:+ day +:+ ext)
    with (String "/" (y +:+ "/" +:+ m +:+ "/" +:+ day +:+ ext)).
  unfold parentPath. rewrite split_app_sep, Hsp. split.
  - unfold Js.pop.
    change [y; m; day +:+ ext] with ([y; m] ++ [day +:+ ext]).
    rewrite app_assoc. apply last_last.
  - unfold Js.slice_init.
    change [y; m; day +:+ ext] with ([y; m] ++ [day +:+ ext]).
    rewrite app_assoc, removelast_last.
    rewrite join_app by (discriminate || apply split_nonempty).
    rewrite join_split. intros Heq.
    apply (f_equal String.length) in Heq.
    assert (Hlen : (String.length base <= String.length b0 + 1)%nat).
    { destruct Hor as [-> | ->]; rewrite ?length_app_s; simpl; lia. }
    change (Js.join "/" [y; m]) with (y +:+ "/" +:+ m) in Heq.
    rewrite !length_app_s in Heq. simpl in Heq. lia.
Qed.

(** *** One pass *)

Lemma vault_list_In (v : Vault) (folder p : string) :
  In p (vault_list v folder) <-> is_Some (files v !! p) /\ parentPath p = folder.
Proof.
  unfold vault_list.
  rewrite <- !list_elem_of_In, merge_sort_Permutation, !list_elem_of_In.
  rewrite filter_In, in_map_iff, String.eqb_eq. split.
  - intros [((q & text) & Hq & Hin) Hpar]. simpl in Hq. subst q.
    apply list_elem_of_In, elem_of_map_to_list in Hin. split; [now exists text | exact Hpar].
  - intros [[text Hp] Hpar]. split; [|exact Hpar].
    exists (p, text). split; [reflexivity|].
    now apply list_elem_of_In, elem_of_map_to_list.
Qed.

Section RunPass.
Variable base : string.
Variable decode : string -> option string.
Variable skips : string -> bool.
Variable target : string -> string.
Variable folderOf : string -> string.

Local Abbreviation runPass := (runPass base decode skips target folderOf).
Local Abbreviation settled := (settled base decode skips target folderOf).


Hypothesis target_elsewhere :
  forall f dir t, plan decode skips target folderOf f = Some (dir, t) ->
                  parentPath t <> base.

Lemma runPass_settled (w : World) : settled w -> runPass w = (inr tt, w).
Proof.
  intros Hs. unfold runPass.
  destruct (trivialBase base); [reflexivity|].
  destruct (negb _); [reflexivity|].
  apply passLoop_noop. intros f Hf. apply vault_list_In in Hf.
  destruct Hf as [Hin Hpar]. now apply Hs.
Qed.

Lemma runPass_files (w w' : World) :
  runPass w = (inr tt, w') ->
  settings w' = settings w
  /\ forall p, is_Some (files (vault w') !! p) ->
       is_Some (files (vault w) !! p)
       \/ exists f dir, plan decode skips target folderOf f = Some (dir, p).
Proof.
  unfold runPass.
  destruct (trivialBase base); [intros [= <-]; auto|].
  destruct (negb _); [intros [= <-]; auto|].
  intros H. apply passLoop_files in H. destruct H as [Hs Hf].
  split; [exact Hs|]. intros p Hp.
  destruct (Hf p Hp) as [[Hin _] | Ht]; auto.
Qed.

(** After a pass that ran to its end the base is settled, provided
    that a base missing at the start had no file directly inside. *)
Lemma runPass_settles (w w' : World) :
  runPass w = (inr tt, w') ->
  trivialBase base = true
  \/ (vault_exists (vault w) base = false /\ w' = w)
  \/ settled w'.
Proof.
  unfold runPass.
  destruct (trivialBase base); [now left|].
  destruct (vault_exists (vault w) base) eqn:Hex; simpl.
  2:{ intros [= <-]. right. now left. }
  intros H. apply passLoop_files in H. destruct H as [_ Hf].
  right. right. intros p Hp Hpar.
  destruct (Hf p Hp) as [[Hin Hnone] | (f & dir & Ht)].
  - apply Hnone. apply vault_list_In. now split.
  - apply target_elsewhere in Ht. contradiction.
Qed.

(** Running a pass again on the world it left changes nothing. *)
Lemma runPass_twice (w w' : World) :
  runPass w = (inr tt, w') -> runPass w' = (inr tt, w').
Proof.
  intros H. destruct (runPass_settles w w' H) as [Ht | [[Hex ->] | Hs]].
  - unfold runPass. now rewrite Ht.
  - exact H.
  - now apply runPass_settled.
Qed.

Lemma runPass_renames (w : World) :
  exists moved,
    renames (trace (snd (runPass w))) = renames (trace w) ++ moved
    /\ Forall
         (fun ft => exists dir,
            plan decode skips target folderOf (fst ft) = Some (dir, snd ft))
         moved.
Proof.
  unfold runPass.
  destruct (trivialBase base).
  { exists []. simpl. rewrite app_nil_r. split; [reflexivity | constructor]. }
  destruct (negb _).
  { exists []. simpl. rewrite app_nil_r. split; [reflexivity | constructor]. }
  apply passLoop_renames.
Qed.
End RunPass.

Lemma sortDailyNotes_runPass (todayStamp : string) (w : World) :
  sortDailyNotes todayStamp w
  = runPass (normalizePath (dailyNotesFolder (settings w)))
      getDailyNoteDateStamp (noteSkips todayStamp)
      (noteTargetPath (normalizePath (dailyNotesFolder (settings w))))
      (monthFolder (normalizePath (dailyNotesFolder (settings w)))) w.
Proof.
  unfold sortDailyNotes, runPass, trivialBase.
  unfold bind at 1, getSettings at 1. simpl.
  destruct (_ || _); [reflexivity|].
  unfold bind at 1, adapter_exists at 1. simpl.
  destruct (negb _); [reflexivity|].
  unfold bind, adapter_list. simpl. now rewrite sortDailyNotes_loop_pass.
Qed.

Lemma sortSummaries_runPass (yesterdayStamp : string) (w : World) :
  sortSummaries yesterdayStamp w
  = runPass (normalizePath (outputFolder (settings w)))
      getSummaryDateStamp (summarySkips yesterdayStamp)
      (summaryTargetPath (normalizePath (outputFolder (settings w))))
      (monthFolder (normalizePath (outputFolder (settings w)))) w.
Proof.
  unfold sortSummaries, runPass, trivialBase.
  unfold bind at 1, getSettings at 1. simpl.
  destruct (_ || _); [reflexivity|].
  unfold bind at 1, adapter_exists at 1. simpl.
  destruct (negb _); [reflexivity|].
  unfold bind, adapter_list. simpl. now rewrite sortSummaries_loop_pass.
Qed.

(** *** The two passes *)

Lemma getDailyNoteDateStamp_inv (name d : string) :
  getDailyNoteDateStamp name = Some d -> DigitStamp d /\ name = d +:+ ".md".
Proof.
  unfold getDailyNoteDateStamp.
  destruct (matchStampHead name) as [[stamp rest]|] eqn:E; [|discriminate].
  destruct (String.eqb_spec rest ".md") as [->|]; [|discriminate].
  intros [= <-]. now apply matchStampHead_inv.
Qed.

Lemma getSummaryDateStamp_inv (name d : string) :
  getSummaryDateStamp name = Some d -> DigitStamp d /\ name = d +:+ "_summary.md".
Proof.
  unfold getSummaryDateStamp.
  destruct (matchStampHead name) as [[stamp rest]|] eqn:E; [|discriminate].
  destruct (String.eqb_spec rest "_summary.md") as [->|]; [|discriminate].
  intros [= <-]. now apply matchStampHead_inv.
Qed.

Lemma summary_name_is_no_note (d : string) :
  DigitStamp d -> getDailyNoteDateStamp (d +:+ "_summary.md") = None.
Proof.
  intros Hd. unfold getDailyNoteDateStamp.
  now rewrite (matchStampHead_digits d _ Hd).
Qed.

Lemma notePlan_inv (todayStamp base f dir t : string) :
  notePlan todayStamp base f = Some (dir, t) ->
  exists d,
    getDailyNoteDateStamp (Js.pop (Js.split "/" f)) = Some d
    /\ DigitStamp d /\ d <> todayStamp /\ t = noteTargetPath base d /\ f <> t.
Proof.
  unfold notePlan, plan, noteSkips.
  destruct (getDailyNoteDateStamp _) as [d|] eqn:Hd; [|discriminate].
  destruct (negb (Js.truthy d)); [discriminate|]. simpl.
  destruct (String.eqb_spec d todayStamp); [discriminate|].
  destruct (String.eqb_spec f (noteTargetPath base d)); [discriminate|].
  intros [= _ <-]. exists d. apply getDailyNoteDateStamp_inv in Hd as Hd'.
  destruct Hd' as [Hdig _]. auto.
Qed.

Lemma summaryPlan_inv (yesterdayStamp base f dir t : string) :
  summaryPlan yesterdayStamp base f = Some (dir, t) ->
  exists d,
    getSummaryDateStamp (Js.pop (Js.split "/" f)) = Some d
    /\ DigitStamp d /\ isDateStampBefore d yesterdayStamp = true
    /\ t = summaryTargetPath base d /\ f <> t.
Proof.
  unfold summaryPlan, plan, summarySkips.
  destruct (getSummaryDateStamp _) as [d|] eqn:Hd; [|discriminate].
  destruct (negb (Js.truthy d)); [discriminate|]. simpl.
  destruct (isDateStampBefore d yesterdayStamp) eqn:Hb; [|discriminate]. simpl.
  destruct (String.eqb_spec f (summaryTargetPath base d)); [discriminate|].
  intros [= _ <-]. exists d. apply getSummaryDateStamp_inv in Hd as Hd'.
  destruct Hd' as [Hdig _]. auto.
Qed.

Lemma note_target_elsewhere (todayStamp folder f dir t : string) :
  notePlan todayStamp (normalizePath folder) f = Some (dir, t) ->
  parentPath t <> normalizePath folder.
Proof.
  intros H. apply notePlan_inv in H. destruct H as (d & _ & Hd & _ & -> & _).
  apply (target_shape (normalizePath folder) d ".md");
    [apply normalizePath_wellSeparated | exact Hd | exact md_segment].
Qed.

Lemma summary_target_elsewhere (yesterdayStamp folder f dir t : string) :
  summaryPlan yesterdayStamp (normalizePath folder) f = Some (dir, t) ->
  parentPath t <> normalizePath folder.
Proof.
  intros H. apply summaryPlan_inv in H. destruct H as (d & _ & Hd & _ & -> & _).
  apply (target_shape (normalizePath folder) d "_summary.md");
    [apply normalizePath_wellSeparated | exact Hd | exact summary_md_segment].
Qed.

(** The note pass plans nothing for a target of the summary pass. *)
Lemma summary_target_is_no_note (yesterdayStamp folder f dir t : string)
    (todayStamp noteBase : string) :
  summaryPlan yesterdayStamp (normalizePath folder) f = Some (dir, t) ->
  notePlan todayStamp noteBase t = None.
Proof.
  intros H. apply summaryPlan_inv in H. destruct H as (d & _ & Hd & _ & -> & _).
  destruct (target_shape (normalizePath folder) d "_summary.md") as [Hname _];
    [apply normalizePath_wellSeparated | exact Hd | exact summary_md_segment |].
  unfold notePlan, plan. unfold summaryTargetPath. rewrite Hname.
  now rewrite (summary_name_is_no_note d Hd).
Qed.

Lemma parent_prefix (q : string) :
  parentPath q <> "" -> Js.startsWith (parentPath q +:+ "/") q = true.
Proof.
  unfold parentPath, Js.slice_init. intros Hne.
  pose proof (split_nonempty "/" q) as Hl.
  pose proof (join_split "/" q) as Hq.
  destruct (exists_last Hl) as (init & x & Hsplit).
  rewrite Hsplit in Hne, Hq |- *. rewrite removelast_last in Hne |- *.
  destruct init as [|i0 init]; [now contradiction Hne|].
  rewrite join_app in Hq by discriminate. simpl (Js.join "/" [x]) in Hq.
  rewrite <- Hq, <- app_assoc_s. apply startsWith_app.
Qed.

(** A base folder that does not exist has no file directly inside. *)
Lemma missing_folder_no_children (v : Vault) (base p : string) :
  vault_exists v base = false -> base <> "" ->
  is_Some (files v !! p) -> parentPath p <> base.
Proof.
  intros Hex Hne [text Hp] Hpar. unfold vault_exists, vault_isFolder in Hex.
  apply orb_false_iff in Hex. destruct Hex as [_ Hex].
  apply orb_false_iff in Hex. destruct Hex as [_ Hex].
  assert (Htrue : existsb (fun q => Js.startsWith (base +:+ "/") q)
                    (List.map fst (map_to_list (files v))) = true).
  { apply existsb_exists. exists p. split.
    - apply in_map_iff. exists (p, text). split; [reflexivity|].
      now apply list_elem_of_In, elem_of_map_to_list.
    - rewrite <- Hpar. apply parent_prefix. now rewrite Hpar. }
  congruence.
Qed.

Lemma trivialBase_false (base : string) : trivialBase base = false -> base <> "".
Proof. unfold trivialBase. destruct base; [discriminate | congruence]. Qed.

(** *** Running a pass again after an error *)

(** Folders only grow while folders are created, so what exists keeps
    existing. *)
Lemma folders_only_isFolder (w w' : World) (p : string) :
  folders_only w w' -> vault_isFolder (vault w) p = true ->
  vault_isFolder (vault w') p = true.
Proof.
  intros (Hf & _ & _ & Hsub & _). unfold vault_isFolder. rewrite Hf.
  intros H. apply orb_true_iff in H. apply orb_true_iff.
  destruct H as [H|H]; [left | now right].
  apply bool_decide_eq_true in H. apply bool_decide_eq_true. set_solver.
Qed.

Lemma folders_only_exists (w w' : World) (p : string) :
  folders_only w w' -> vault_exists (vault w) p = true ->
  vault_exists (vault w') p = true.
Proof.
  intros Hfo. pose proof Hfo as (Hf & _). unfold vault_exists. rewrite Hf.
  intros H. apply orb_true_iff in H. apply orb_true_iff.
  destruct H as [H|H]; [now left | right].
  now apply (folders_only_isFolder w w').
Qed.

(** A folder that exists after folder creations and did not before was
    created in between. *)
Lemma folders_only_new (w w' : World) (p : string) :
  folders_only w w' -> vault_exists (vault w) p = false ->
  vault_exists (vault w') p = true -> p ∈ folders (vault w') /\ p ∉ folders (vault w).
Proof.
  intros (Hf & _) H0 H1. unfold vault_exists, vault_isFolder in *. rewrite Hf in H1.
  apply orb_false_iff in H0. destruct H0 as [H0a H0].
  apply orb_false_iff in H0. destruct H0 as [H0b H0c].
  rewrite H0a, H0c in H1. simpl in H1. rewrite orb_false_r in H1.
  apply bool_decide_eq_true in H1. apply bool_decide_eq_false in H0b. auto.
Qed.

Lemma lastCurrent_length (parts : list string) (current : string) :
  (String.length current <= String.length (lastCurrent parts current))%nat.
Proof.
  revert current. induction parts as [|part rest IH]; intros current; simpl; [lia|].
  etransitivity; [|apply IH].
  destruct current; simpl; [lia|]. rewrite !length_app_s. simpl. lia.
Qed.

Lemma lastCurrent_longer (parts : list string) (current : string) :
  parts <> [] -> Js.truthy current = true ->
  (String.length current < String.length (lastCurrent parts current))%nat.
Proof.
  intros Hne Hc. destruct parts as [|part rest]; [congruence|]. simpl.
  rewrite Hc. eapply Nat.lt_le_trans; [|apply lastCurrent_length].
  rewrite !length_app_s. simpl. lia.
Qed.

Lemma createFolder_effect (p : string) (w w' : World) :
  vault_createFolder p w = (inr tt, w') ->
  folders (vault w') = {[p]} ∪ folders (vault w).
Proof.
  unfold vault_createFolder.
  destruct (vault_exists (vault w) p); [discriminate|].
  destruct (_ && _); [discriminate|].
  now intros [= <-].
Qed.

Lemma createFolder_failure (p : string) (w w' : World) (e : Error) :
  vault_createFolder p w = (inl e, w') -> w' = w.
Proof.
  unfold vault_createFolder.
  destruct (vault_exists (vault w) p); [now intros [= _ <-]|].
  destruct (_ && _); [now intros [= _ <-] | discriminate].
Qed.

Lemma ensureSegments_cons (part : string) (rest : list string) (current : string)
    (w : World) :
  ensureSegments (part :: rest) current w =
  if vault_exists (vault w) (nextCurrent current part)
  then ensureSegments rest (nextCurrent current part) w
  else
    match vault_createFolder (nextCurrent current part) w with
    | (inr _, w') => ensureSegments rest (nextCurrent current part) w'
    | (inl e, w') => (inl e, w')
    end.
Proof.
  simpl. unfold bind at 1, adapter_exists at 1. simpl.
  fold (nextCurrent current part).
  destruct (vault_exists (vault w) (nextCurrent current part)); simpl.
  - reflexivity.
  - unfold bind at 1.
    destruct (vault_createFolder (nextCurrent current part) w) as [[e|[]] w'];
      reflexivity.
Qed.

(** A folder creation that threw throws again on the world it left. *)
Lemma ensureSegments_rethrow (parts : list string) (current : string)
    (w w1 : World) (e : Error) :
  ensureSegments parts current w = (inl e, w1) ->
  ensureSegments parts current w1 = (inl e, w1).
Proof.
  revert current w. induction parts as [|part rest IH]; intros current w;
    [discriminate|].
  rewrite !ensureSegments_cons.
  set (c := nextCurrent current part).
  destruct (vault_exists (vault w) c) eqn:Hex.
  - intros H. pose proof (ensureSegments_folders_only rest c w) as Hfo.
    rewrite H in Hfo. simpl in Hfo.
    rewrite (folders_only_exists _ _ _ Hfo Hex). now apply IH in H.
  - destruct (vault_createFolder c w) as [[e'|[]] w'] eqn:Hc.
    + intros [= <- <-]. apply createFolder_failure in Hc as Hw. subst w'.
      now rewrite Hex, Hc.
    + intros H. pose proof (ensureSegments_folders_only rest c w') as Hfo.
      rewrite H in Hfo. simpl in Hfo.
      assert (Hex1 : vault_exists (vault w1) c = true).
      { apply (folders_only_exists w' w1 c Hfo).
        unfold vault_exists, vault_isFolder.
        rewrite (createFolder_effect _ _ _ Hc).
        rewrite (bool_decide_eq_true_2 (c ∈ {[c]} ∪ folders (vault w)))
          by set_solver.
        now rewrite orb_true_r. }
      rewrite Hex1. now apply IH in H.
Qed.

Lemma nextCurrent_truthy (current part : string) :
  Js.truthy part = true -> Js.truthy (nextCurrent current part) = true.
Proof.
  unfold nextCurrent. destruct current; simpl; [auto|]. reflexivity.
Qed.

(** The folders a failed creation leaves behind are shorter than the
    last path it was to create. *)
Lemma ensureSegments_created_shorter (parts : list string) (current : string)
    (w w1 : World) (e : Error) :
  Forall (fun p => Js.truthy p = true) parts ->
  ensureSegments parts current w = (inl e, w1) ->
  forall p, p ∈ folders (vault w1) ->
    p ∈ folders (vault w)
    \/ (String.length p < String.length (lastCurrent parts current))%nat.
Proof.
  revert current w. induction parts as [|part rest IH]; intros current w Hall;
    [discriminate|].
  inversion Hall as [|? ? Hpart Hrest]; subst.
  rewrite ensureSegments_cons. simpl lastCurrent. fold (nextCurrent current part).
  set (c := nextCurrent current part).
  destruct (vault_exists (vault w) c) eqn:Hex.
  - intros H p Hp. now apply (IH c w Hrest H).
  - destruct (vault_createFolder c w) as [[e'|[]] w'] eqn:Hc.
    + intros [= <- <-] p Hp. apply createFolder_failure in Hc. subst w'. now left.
    + intros H p Hp. destruct (IH c w' Hrest H p Hp) as [Hin|Hlt]; [|now right].
      rewrite (createFolder_effect _ _ _ Hc) in Hin.
      apply elem_of_union in Hin. destruct Hin as [Hin|Hin]; [|now left].
      apply elem_of_singleton in Hin. subst p. right.
      apply lastCurrent_longer; [|now apply nextCurrent_truthy].
      intros ->. discriminate.
Qed.

Lemma lastCurrent_join (parts : list string) (current : string) :
  Forall (fun p => Js.truthy p = true) parts ->
  lastCurrent parts current =
  if Js.truthy current
  then match parts with [] => current | _ => current +:+ "/" +:+ Js.join "/" parts end
  else Js.join "/" parts.
Proof.
  revert current. induction parts as [|part rest IH]; intros current Hall.
  - simpl. destruct current; reflexivity.
  - inversion Hall as [|? ? Hpart Hrest]; subst. simpl lastCurrent.
    fold (nextCurrent current part).
    rewrite (IH _ Hrest), (nextCurrent_truthy current part Hpart).
    unfold nextCurrent. destruct rest as [|r rest].
    + destruct (Js.truthy current); reflexivity.
    + rewrite (join_cons "/" part (r :: rest)) by discriminate.
      destruct (Js.truthy current); [|reflexivity].
      now rewrite !app_assoc_s.
Qed.

Lemma join_filter_length (l : list string) :
  (String.length (Js.join "/" (Js.filterBoolean l))
   <= String.length (Js.join "/" l))%nat.
Proof.
  induction l as [|p rest IH]; [reflexivity|].
  unfold Js.filterBoolean in *. simpl List.filter.
  destruct rest as [|r rest].
  - destruct (Js.truthy p); simpl; lia.
  - rewrite (join_cons "/" p (r :: rest)) by discriminate.
    rewrite !length_app_s. change (String.length "/") with 1%nat.
    destruct (Js.truthy p).
    + destruct (List.filter Js.truthy (r :: rest)) as [|x xs] eqn:E.
      * simpl. lia.
      * rewrite (join_cons "/" p (x :: xs)) by discriminate.
        rewrite !length_app_s. change (String.length "/") with 1%nat. lia.
    + lia.
Qed.

Lemma filterBoolean_truthy (l : list string) :
  Forall (fun p => Js.truthy p = true) (Js.filterBoolean l).
Proof.
  apply List.Forall_forall. intros p Hp. unfold Js.filterBoolean in Hp.
  apply filter_In in Hp. tauto.
Qed.

Lemma ensureFolderExists_rethrow (folderPath : string) (w w1 : World) (e : Error) :
  ensureFolderExists folderPath w = (inl e, w1) ->
  ensureFolderExists folderPath w1 = (inl e, w1).
Proof.
  unfold ensureFolderExists.
  set (normalized := normalizePath folderPath).
  destruct (_ || _); [discriminate|].
  unfold bind, adapter_exists. simpl.
  destruct (vault_exists (vault w) normalized) eqn:Hex; [discriminate|].
  set (parts := Js.filterBoolean (Js.split "/" normalized)).
  intros H.
  pose proof (ensureSegments_folders_only parts "" w) as Hfo.
  rewrite H in Hfo. simpl in Hfo.
  destruct (vault_exists (vault w1) normalized) eqn:Hex1.
  - exfalso.
    destruct (folders_only_new _ _ _ Hfo Hex Hex1) as [Hin Hnot].
    destruct (ensureSegments_created_shorter parts "" w w1 e
                (filterBoolean_truthy _) H normalized Hin) as [Hold|Hlt];
      [contradiction|].
    rewrite (lastCurrent_join parts "" (filterBoolean_truthy _)) in Hlt.
    simpl in Hlt. pose proof (join_filter_length (Js.split "/" normalized)) as Hle.
    fold parts in Hle. rewrite join_split in Hle. lia.
  - now apply (ensureSegments_rethrow parts "" w).
Qed.

(** *** Listings *)

Lemma StronglySorted_filter_bool {A} (R : relation A) (P : A -> bool) (l : list A) :
  StronglySorted R l -> StronglySorted R (List.filter P l).
Proof.
  induction 1 as [|x l Hl IH Hx]; simpl; [constructor|].
  destruct (P x); [|exact IH]. constructor; [exact IH|].
  apply List.Forall_forall. intros y Hy. apply filter_In in Hy.
  rewrite List.Forall_forall in Hx. apply Hx. tauto.
Qed.

Lemma vault_list_NoDup (v : Vault) (folder : string) :
  List.NoDup (vault_list v folder).
Proof.
  unfold vault_list. apply NoDup_ListNoDup. rewrite merge_sort_Permutation.
  apply NoDup_ListNoDup, List.NoDup_filter, NoDup_ListNoDup.
  apply (NoDup_fst_map_to_list (files v)).
Qed.

Lemma vault_list_sorted (v : Vault) (folder : string) :
  StronglySorted String.le (vault_list v folder).
Proof. unfold vault_list. apply StronglySorted_merge_sort; apply _. Qed.

(** A listing is determined by the files it holds. *)
Lemma vault_list_filter (v v' : Vault) (folder : string) (P : string -> bool) :
  (forall p, In p (vault_list v' folder) <-> In p (vault_list v folder) /\ P p = true) ->
  vault_list v' folder = List.filter P (vault_list v folder).
Proof.
  intros H. apply (StronglySorted_unique String.le).
  - apply vault_list_sorted.
  - apply StronglySorted_filter_bool, vault_list_sorted.
  - apply NoDup_Permutation.
    + apply NoDup_ListNoDup, vault_list_NoDup.
    + apply NoDup_ListNoDup, List.NoDup_filter, vault_list_NoDup.
    + intros p. rewrite !list_elem_of_In, filter_In. apply H.
Qed.

Lemma present_true (w : World) (p : string) :
  present w p = true <-> is_Some (files (vault w) !! p).
Proof. unfold present. apply bool_decide_eq_true. Qed.

Lemma rename_fails_again (oldPath newPath : string) (w w' : World) (e : Error) :
  adapter_rename oldPath newPath w = (inl e, w) -> folders_only w w' ->
  adapter_rename oldPath newPath w' = (inl e, w').
Proof.
  intros H Hfo. pose proof Hfo as (Hf & _). revert H. unfold adapter_rename.
  rewrite Hf. destruct (files (vault w) !! oldPath) as [text|].
  - destruct (vault_exists (vault w) newPath) eqn:Hex.
    + rewrite (folders_only_exists _ _ _ Hfo Hex). now intros [= <-].
    + intros [= ].
  - now intros [= <-].
Qed.

Section Rerun.
Variable decode : string -> option string.
Variable skips : string -> bool.
Variable target : string -> string.
Variable folderOf : string -> string.
Variable base : string.

Local Abbreviation plan := (plan decode skips target folderOf).
Local Abbreviation passLoop := (passLoop decode skips target folderOf).
Local Abbreviation runPass := (runPass base decode skips target folderOf).

Hypothesis target_elsewhere :
  forall f dir t, plan f = Some (dir, t) -> parentPath t <> base.

(** Whatever the outcome of a loop, the settings are kept and a file of
    the vault was there at the start or is a target. *)
Lemma passLoop_files_any (listing : list string) (w w' : World) (r : Error + unit) :
  passLoop listing w = (r, w') ->
  settings w' = settings w
  /\ forall p, is_Some (files (vault w') !! p) ->
       is_Some (files (vault w) !! p) \/ (exists f dir, plan f = Some (dir, p)).
Proof.
  revert w. induction listing as [|f rest IH]; intros w.
  - intros [= _ <-]. auto.
  - simpl. destruct (plan f) as [[dir t]|] eqn:Hplan; [|apply IH].
    unfold bind at 1.
    pose proof (ensureFolderExists_folders_only dir w) as H1.
    destruct (ensureFolderExists dir w) as [[e|[]] w1]; simpl in H1;
      destruct H1 as (Hsame & Hset & _).
    { intros [= _ <-]. rewrite Hsame. auto. }
    unfold bind at 1.
    destruct (rename_effect f t w1) as [[e He] | (text & Hf & He)]; rewrite He.
    { intros [= _ <-]. rewrite Hsame. auto. }
    intros Hrest. apply IH in Hrest. destruct Hrest as [Hs Hfiles].
    split; [rewrite Hs; simpl; exact Hset|].
    intros p Hp. destruct (Hfiles p Hp) as [Hin | Htarget]; [|now right].
    simpl in Hin.
    destruct (decide (p = t)) as [->|Hpt]; [right; now exists f, dir|].
    rewrite lookup_insert_ne in Hin by congruence.
    destruct (decide (p = f)) as [->|Hpf].
    { rewrite lookup_delete_eq in Hin. now destruct Hin. }
    rewrite lookup_delete_ne in Hin by congruence.
    left. now rewrite <- Hsame.
Qed.

(** A loop that stopped on an error stops again, before any rename,
    when it is run on what is left of its listing. *)
Lemma passLoop_rerun (listing : list string) (w w' : World) (e : Error) :
  List.NoDup listing ->
  (forall f, In f listing -> parentPath f = base /\ is_Some (files (vault w) !! f)) ->
  passLoop listing w = (inl e, w') ->
  exists e' w'',
    passLoop (List.filter (present w') listing) w' = (inl e', w'')
    /\ renames (trace w'') = renames (trace w').
Proof.
  revert w. induction listing as [|f rest IH]; intros w Hnd Hl; [discriminate|].
  inversion Hnd as [|? ? Hfresh Hnd']; subst.
  destruct (Hl f (or_introl eq_refl)) as [Hpar Hfw].
  assert (Hl' : forall g, In g rest ->
                  parentPath g = base /\ is_Some (files (vault w) !! g)).
  { intros g Hg. apply Hl. now right. }
  simpl passLoop at 1. destruct (plan f) as [[dir t]|] eqn:Hplan.
  2:{ intros H. destruct (IH w Hnd' Hl' H) as (e' & w'' & Hrun & Hren).
      exists e', w''. split; [|exact Hren].
      simpl. destruct (present w' f); [|exact Hrun].
      simpl. now rewrite Hplan. }
  unfold bind at 1.
  pose proof (ensureFolderExists_folders_only dir w) as H1.
  destruct (ensureFolderExists dir w) as [[e1|[]] w1] eqn:Hens; simpl in H1.
  { intros [= <- <-]. exists e1, w1. split; [|reflexivity].
    destruct H1 as (Hsame & _).
    simpl. unfold present at 1. rewrite Hsame.
    rewrite (bool_decide_eq_true_2 _ Hfw). simpl. rewrite Hplan.
    unfold bind at 1. now rewrite (ensureFolderExists_rethrow _ _ _ _ Hens). }
  unfold bind at 1.
  destruct (rename_effect f t w1) as [[e2 He] | (text & Hf & He)]; rewrite He.
  { intros [= <- <-].
    destruct H1 as (Hsame & _).
    pose proof (ensureFolderExists_folders_only dir w1) as H2.
    destruct (ensureFolderExists dir w1) as [[e3|[]] w2] eqn:Hens2; simpl in H2.
    - exists e3, w2. split; [|now apply folders_only_renames].
      simpl. unfold present at 1. rewrite Hsame.
      rewrite (bool_decide_eq_true_2 _ Hfw). simpl. rewrite Hplan.
      unfold bind at 1. now rewrite Hens2.
    - exists e2, w2. split; [|now apply folders_only_renames].
      simpl. unfold present at 1. rewrite Hsame.
      rewrite (bool_decide_eq_true_2 _ Hfw). simpl. rewrite Hplan.
      unfold bind at 1. rewrite Hens2. unfold bind at 1.
      now rewrite (rename_fails_again _ _ _ _ _ He H2). }
  set (w2 := emit (Renamed f t) _).
  intros H.
  assert (Hl2 : forall g, In g rest ->
                  parentPath g = base /\ is_Some (files (vault w2) !! g)).
  { intros g Hg. destruct (Hl' g Hg) as [Hgp Hgw]. split; [exact Hgp|].
    destruct H1 as (Hsame & _). simpl.
    destruct (decide (g = t)) as [->|Hgt]; [rewrite lookup_insert_eq; eauto|].
    rewrite lookup_insert_ne by congruence.
    rewrite lookup_delete_ne by (intros ->; contradiction).
    now rewrite Hsame. }
  destruct (IH w2 Hnd' Hl2 H) as (e' & w'' & Hrun & Hren).
  exists e', w''. split; [|exact Hren].
  simpl. replace (present w' f) with false; [exact Hrun|].
  symmetry. apply bool_decide_eq_false. intros Hfin.
  pose proof (passLoop_files_any rest w2 _ _ H) as [_ Hfiles].
  destruct (Hfiles f Hfin) as [Hin | (g & dir' & Hg)].
  - simpl in Hin. apply target_elsewhere in Hplan as Ht.
    rewrite lookup_insert_ne in Hin by (intros ->; congruence).
    rewrite lookup_delete_eq in Hin. now destruct Hin.
  - apply target_elsewhere in Hg. contradiction.
Qed.

(** A pass that stopped on an error stops again, before any rename,
    when it is run on the world it left. *)
Lemma runPass_rerun (w w' : World) (e : Error) :
  runPass w = (inl e, w') ->
  exists e' w'', runPass w' = (inl e', w'') /\ renames (trace w'') = renames (trace w').
Proof.
  unfold runPass.
  destruct (trivialBase base) eqn:Htriv; [discriminate|].
  destruct (vault_exists (vault w) base) eqn:Hex; [|discriminate]. simpl.
  intros H.
  pose proof (passLoop_files_any _ w _ _ H) as [_ Hfiles].
  destruct (passLoop_rerun (vault_list (vault w) base) w w' e
              (vault_list_NoDup _ _)) as (e' & w'' & Hrun & Hren);
    [|exact H|].
  { intros f Hf. apply vault_list_In in Hf. tauto. }
  assert (Hlist : vault_list (vault w') base
                  = List.filter (present w') (vault_list (vault w) base)).
  { apply vault_list_filter. intros p. rewrite !vault_list_In, present_true. split.
    - intros [Hp Hpar]. split; [split|]; auto.
      destruct (Hfiles p Hp) as [Hin | (g & dir & Hg)]; [exact Hin|].
      apply target_elsewhere in Hg. contradiction.
    - tauto. }
  exists e', w''. split; [|exact Hren].
  rewrite <- Hlist in Hrun.
  destruct (vault_exists (vault w') base) eqn:Hex'; [exact Hrun|]. exfalso.
  destruct (vault_list (vault w') base) as [|p rest] eqn:Hl; [discriminate|].
  assert (Hp : In p (vault_list (vault w') base)) by (rewrite Hl; now left).
  apply vault_list_In in Hp. destruct Hp as [Hp Hpar].
  apply (missing_folder_no_children (vault w') base p); auto.
  now apply trivialBase_false.
Qed.

(** Whatever the outcome of a pass, the settings are kept and a file of
    the vault was there at the start or is a target. *)
Lemma runPass_files_any (w w' : World) (r : Error + unit) :
  runPass w = (r, w') ->
  settings w' = settings w
  /\ forall p, is_Some (files (vault w') !! p) ->
       is_Some (files (vault w) !! p) \/ (exists f dir, plan f = Some (dir, p)).
Proof.
  unfold runPass.
  destruct (trivialBase base); [intros [= _ <-]; auto|].
  destruct (negb _); [intros [= _ <-]; auto|].
  apply passLoop_files_any.
Qed.
End Rerun.

Lemma note_pass_moves (todayStamp : string) (w : World) :
  exists moved,
    renames (trace (snd (sortDailyNotes todayStamp w))) = renames (trace w) ++ moved
    /\ Forall (noteMove (settings w) todayStamp) moved.
Proof.
  rewrite sortDailyNotes_runPass.
  destruct (runPass_renames (normalizePath (dailyNotesFolder (settings w)))
              getDailyNoteDateStamp (noteSkips todayStamp)
              (noteTargetPath (normalizePath (dailyNotesFolder (settings w))))
              (monthFolder (normalizePath (dailyNotesFolder (settings w)))) w)
    as (moved & Hm & Hall).
  exists moved. split; [exact Hm|].
  eapply Forall_impl; [exact Hall|]. intros [f t] [dir Hp]. simpl in Hp.
  apply notePlan_inv in Hp. destruct Hp as (d & Hd & _ & Hne & Ht & Hft).
  exists d. auto.
Qed.

Lemma summary_pass_moves (yesterdayStamp : string) (w : World) :
  exists moved,
    renames (trace (snd (sortSummaries yesterdayStamp w))) = renames (trace w) ++ moved
    /\ Forall (summaryMove (settings w) yesterdayStamp) moved.
Proof.
  rewrite sortSummaries_runPass.
  destruct (runPass_renames (normalizePath (outputFolder (settings w)))
              getSummaryDateStamp (summarySkips yesterdayStamp)
              (summaryTargetPath (normalizePath (outputFolder (settings w))))
              (monthFolder (normalizePath (outputFolder (settings w)))) w)
    as (moved & Hm & Hall).
  exists moved. split; [exact Hm|].
  eapply Forall_impl; [exact Hall|]. intros [f t] [dir Hp]. simpl in Hp.
  apply summaryPlan_inv in Hp. destruct Hp as (d & Hd & _ & Hb & Ht & Hft).
  exists d. auto.
Qed.

(** After a note pass that ran to its end, and whatever the summary
    pass then did, the note pass has nothing left to do. *)
Lemma note_pass_stays_settled (todayStamp yesterdayStamp : string)
    (w wA wB : World) (r : Error + unit) :
  sortDailyNotes todayStamp w = (inr tt, wA) ->
  sortSummaries yesterdayStamp wA = (r, wB) ->
  sortDailyNotes todayStamp wB = (inr tt, wB).
Proof.
  intros EN ES.
  rewrite sortDailyNotes_runPass in EN. rewrite sortSummaries_runPass in ES.
  pose proof (runPass_files _ _ _ _ _ _ _ EN) as [HsetA HfilesA].
  pose proof (runPass_files_any _ _ _ _ _ _ _ _ ES) as [Hset1 Hfiles1].
  rewrite HsetA in ES, Hfiles1.
  set (baseN := normalizePath (dailyNotesFolder (settings w))) in *.
  rewrite sortDailyNotes_runPass. rewrite Hset1, HsetA. fold baseN.
  destruct (trivialBase baseN) eqn:Htriv.
  { unfold runPass. now rewrite Htriv. }
  apply runPass_settled. intros p Hp Hpar.
  destruct (Hfiles1 p Hp) as [HpA | (f & dir & Ht)].
  2:{ eapply summary_target_is_no_note. exact Ht. }
  destruct (runPass_settles baseN _ _ _ _
              (note_target_elsewhere todayStamp _) w wA EN)
    as [Ht | [[Hex ->] | Hsettled]].
  - congruence.
  - exfalso. apply (missing_folder_no_children (vault w) baseN p); auto.
    now apply trivialBase_false.
  - now apply Hsettled.
Qed.

(** C8: every rename of a run of the archivist moves a file to its
    computed target, which is not the file's own path; a rename of the
    note pass is never for the file whose decoded key is today's key.
    A run that completes leaves a world on which a second run, with
    the same two keys, returns the world as it is: no rename, and no
    other effect.  And whatever the first run did, also when a storage
    error stopped it, a second run with the same two keys adds no
    rename to those of the first. *)
Theorem archivist_moves_and_settles (w : World) (todayStamp yesterdayStamp : string) :
  (exists movedNotes movedSummaries,
     renames (trace (snd (sortDailyNotesAndSummaries_run todayStamp yesterdayStamp w)))
     = renames (trace w) ++ movedNotes ++ movedSummaries
     /\ Forall (noteMove (settings w) todayStamp) movedNotes
     /\ Forall (summaryMove (settings w) yesterdayStamp) movedSummaries)
  /\ (forall w1,
        sortDailyNotesAndSummaries_run todayStamp yesterdayStamp w = (inr tt, w1) ->
        sortDailyNotesAndSummaries_run todayStamp yesterdayStamp w1 = (inr tt, w1))
  /\ renames (trace (snd (sortDailyNotesAndSummaries_run todayStamp yesterdayStamp
                            (snd (sortDailyNotesAndSummaries_run todayStamp
                                    yesterdayStamp w)))))
     = renames (trace (snd (sortDailyNotesAndSummaries_run todayStamp
                              yesterdayStamp w))).
Proof.
  split; [|split].
  - unfold sortDailyNotesAndSummaries_run, bind.
    destruct (note_pass_moves todayStamp w) as (mN & HmN & HallN).
    destruct (sortDailyNotes todayStamp w) as [[e|[]] wA] eqn:EN; simpl in HmN.
    + exists mN, []. simpl. rewrite app_nil_r.
      repeat split; [exact HmN | exact HallN | constructor].
    + destruct (summary_pass_moves yesterdayStamp wA) as (mS & HmS & HallS).
      rewrite sortDailyNotes_runPass in EN. apply runPass_files in EN.
      destruct EN as [Hset _]. rewrite Hset in HallS.
      exists mN, mS. split; [|split; assumption].
      rewrite HmS, HmN. now rewrite <- app_assoc.
  - intros w1. unfold sortDailyNotesAndSummaries_run.
    unfold bind at 1.
    destruct (sortDailyNotes todayStamp w) as [[e|[]] wA] eqn:EN; [discriminate|].
    intros ES.
    unfold bind. rewrite (note_pass_stays_settled _ _ _ _ _ _ EN ES).
    rewrite sortSummaries_runPass in ES |- *.
    pose proof (runPass_files_any _ _ _ _ _ _ _ _ ES) as [Hset1 _].
    rewrite Hset1.
    apply (runPass_twice _ _ _ _ _
             (summary_target_elsewhere yesterdayStamp _) wA w1 ES).
  - unfold sortDailyNotesAndSummaries_run.
    unfold bind at 2 3.
    destruct (sortDailyNotes todayStamp w) as [[e|[]] wA] eqn:EN.
    + simpl. rewrite sortDailyNotes_runPass in EN.
      pose proof (runPass_files_any _ _ _ _ _ _ _ _ EN) as [HsetA _].
      destruct (runPass_rerun _ _ _ _ _ (note_target_elsewhere todayStamp _)
                  _ _ _ EN) as (e' & w'' & Hrun & Hren).
      unfold bind. rewrite sortDailyNotes_runPass, HsetA, Hrun. exact Hren.
    + destruct (sortSummaries yesterdayStamp wA) as [[e|[]] wB] eqn:ES; simpl.
      * unfold bind. rewrite (note_pass_stays_settled _ _ _ _ _ _ EN ES).
        rewrite sortSummaries_runPass in ES.
        destruct (runPass_rerun _ _ _ _ _ (summary_target_elsewhere yesterdayStamp _)
                    _ _ _ ES) as (e' & w'' & Hrun & Hren).
        pose proof (runPass_files_any _ _ _ _ _ _ _ _ ES) as [HsetB _].
        rewrite sortSummaries_runPass, HsetB, Hrun. exact Hren.
      * unfold bind. rewrite (note_pass_stays_settled _ _ _ _ _ _ EN ES).
        rewrite sortSummaries_runPass in ES |- *.
        pose proof (runPass_files_any _ _ _ _ _ _ _ _ ES) as [HsetB _].
        rewrite HsetB.
        now rewrite (runPass_twice _ _ _ _ _
                       (summary_target_elsewhere yesterdayStamp _) wA wB ES).
Qed.

Example archiveWorld_first_run :
  renames (trace (snd (sortDailyNotesAndSummaries_run "2026-02-21" "2026-02-20"
                         archiveWorld)))
  = [ ("Daily/2026-01-05.md", "Daily/2026/01/2026-01-05.md");
      ("Daily/2026-02-20.md", "Daily/2026/02/2026-02-20.md");
      ("Daily Summaries/2026-01-05_summary.md",
       "Daily Summaries/2026/01/2026-01-05_summary.md") ].
Proof. vm_compute. reflexivity. Qed.

(** A first run stopped by a taken target, and the run after it. *)
Example clashWorld_runs :
  fst (sortDailyNotesAndSummaries_run "2026-02-21" "2026-02-20" clashWorld)
  = inl (mkError "Destination file already exists!")
  /\ renames (trace (snd (sortDailyNotesAndSummaries_run "2026-02-21" "2026-02-20"
                            clashWorld)))
     = [ ("Daily/2026-01-05.md", "Daily/2026/01/2026-01-05.md") ]
  /\ fst (sortDailyNotesAndSummaries_run "2026-02-21" "2026-02-20"
            (snd (sortDailyNotesAndSummaries_run "2026-02-21" "2026-02-20"
                    clashWorld)))
     = inl (mkError "Destination file already exists!")
  /\ renames (trace (snd (sortDailyNotesAndSummaries_run "2026-02-21" "2026-02-20"
            (snd (sortDailyNotesAndSummaries_run "2026-02-21" "2026-02-20"
                    clashWorld)))))
     = [ ("Daily/2026-01-05.md", "Daily/2026/01/2026-01-05.md") ].
Proof. vm_compute. repeat split. Qed.

Lemma archivist_moves_and_settles_witness :
  sortDailyNotesAndSummaries_run "2026-02-21" "2026-02-20"
    (snd (sortDailyNotesAndSummaries_run "2026-02-21" "2026-02-20" archiveWorld))
  = (inr tt,
     snd (sortDailyNotesAndSummaries_run "2026-02-21" "2026-02-20" archiveWorld)).
Proof.
  apply (proj1 (proj2 (archivist_moves_and_settles archiveWorld
                         "2026-02-21" "2026-02-20"))).
  vm_compute. reflexivity.
Defined.

(** ** Day keys and the calendar *)

Lemma pretty_four_digits (y : Z) :
  1000 <= y <= 9999 ->
  pretty y = String (digitChar (y / 1000)) (String (digitChar (y / 100 mod 10))
               (String (digitChar (y / 10 mod 10)) (String (digitChar (y mod 10)) ""))).
Proof.
  intros Hy. destruct y as [|p|p]; try lia.
  change (pretty (Z.pos p)) with (pretty (N.pos p)).
  unfold pretty, pretty_N. destruct (decide (N.pos p = 0%N)) as [|_]; [discriminate|].
  set (x := N.pos p). assert (Hx : (1000 <= x <= 9999)%N) by (unfold x; lia).
  assert (Hz : Z.pos p = Z.of_N x) by reflexivity. rewrite Hz. clearbody x. clear Hz Hy p.
  rewrite pretty_N_go_step by lia.
  rewrite pretty_N_go_step by (apply N.div_str_pos; lia).
  assert (H100 : ((x / 10) / 10 = x / 100)%N).
  { rewrite N.Div0.div_div. reflexivity. }
  rewrite H100.
  rewrite pretty_N_go_step by (apply N.div_str_pos; lia).
  assert (H1000 : ((x / 100) / 10 = x / 1000)%N).
  { rewrite N.Div0.div_div. reflexivity. }
  rewrite H1000.
  rewrite pretty_N_go_step by (apply N.div_str_pos; lia).
  assert (H0 : ((x / 1000) / 10 = 0)%N).
  { rewrite N.Div0.div_div. apply N.div_small. lia. }
  rewrite H0, pretty_N_go_0. unfold digitChar.
  assert (Hsmall : ((x / 1000) mod 10 = x / 1000)%N).
  { apply N.mod_small. apply N.Div0.div_lt_upper_bound. lia. }
  rewrite Hsmall.
  repeat f_equal.
  - rewrite Z2N.inj_div, N2Z.id by lia. reflexivity.
  - rewrite Z2N.inj_mod, Z2N.inj_div, N2Z.id by
      (try apply Z.div_pos; lia). reflexivity.
  - rewrite Z2N.inj_mod, Z2N.inj_div, N2Z.id by
      (try apply Z.div_pos; lia). reflexivity.
  - rewrite Z2N.inj_mod, N2Z.id by lia. reflexivity.
Qed.

Lemma digitChar_isDigit (k : Z) : isDigit (digitChar k) = true.
Proof.
  unfold digitChar, pretty_N_char.
  destruct (Z.to_N k) as [|p]; [reflexivity|].
  do 4 (destruct p as [p|p|]; try reflexivity).
Qed.

Lemma digitChar_compare (a b : Z) :
  0 <= a <= 9 -> 0 <= b <= 9 ->
  Ascii.compare (digitChar a) (digitChar b) = (a ?= b).
Proof.
  intros Ha Hb.
  assert (Ea : a = 0 \/ a = 1 \/ a = 2 \/ a = 3 \/ a = 4 \/ a = 5 \/ a = 6
               \/ a = 7 \/ a = 8 \/ a = 9) by lia.
  assert (Eb : b = 0 \/ b = 1 \/ b = 2 \/ b = 3 \/ b = 4 \/ b = 5 \/ b = 6
               \/ b = 7 \/ b = 8 \/ b = 9) by lia.
  clear Ha Hb.
  repeat (destruct Ea as [->|Ea]); try subst a;
    repeat (destruct Eb as [->|Eb]); try subst b; reflexivity.
Qed.

Lemma compare_app (a b c d : string) :
  String.length a = String.length b ->
  String.compare (a +:+ c) (b +:+ d)
  = match String.compare a b with Eq => String.compare c d | r => r end.
Proof.
  revert b. induction a as [|x a IH]; intros [|y b] Hlen; try discriminate.
  - reflexivity.
  - rewrite !app_cons_s. simpl. destruct (Ascii.compare x y); auto.
Qed.

(** Four-digit years compare as their numbers do. *)
Lemma compare_years (y1 y2 : Z) :
  1000 <= y1 <= 9999 -> 1000 <= y2 <= 9999 ->
  String.compare (pretty y1) (pretty y2) = (y1 ?= y2).
Proof.
  intros H1 H2. rewrite (pretty_four_digits y1 H1), (pretty_four_digits y2 H2).
  cbn [String.compare].
  assert (Ra : 0 <= y1 / 1000 <= 9)
    by (split; [apply Z.div_pos; lia
               | apply Z.lt_succ_r, Z.div_lt_upper_bound; lia]).
  assert (Rb : 0 <= y2 / 1000 <= 9)
    by (split; [apply Z.div_pos; lia
               | apply Z.lt_succ_r, Z.div_lt_upper_bound; lia]).
  pose proof (Z.mod_pos_bound (y1 / 100) 10 ltac:(lia)).
  pose proof (Z.mod_pos_bound (y2 / 100) 10 ltac:(lia)).
  pose proof (Z.mod_pos_bound (y1 / 10) 10 ltac:(lia)).
  pose proof (Z.mod_pos_bound (y2 / 10) 10 ltac:(lia)).
  pose proof (Z.mod_pos_bound y1 10 ltac:(lia)).
  pose proof (Z.mod_pos_bound y2 10 ltac:(lia)).
  rewrite !digitChar_compare by lia.
  assert (E1 : y1 = 1000 * (y1 / 1000) + 100 * (y1 / 100 mod 10)
                    + 10 * (y1 / 10 mod 10) + y1 mod 10).
  { pose proof (Z.div_mod y1 10 ltac:(lia)).
    pose proof (Z.div_mod (y1 / 10) 10 ltac:(lia)).
    pose proof (Z.div_mod (y1 / 100) 10 ltac:(lia)).
    assert (y1 / 10 / 10 = y1 / 100) by (rewrite Z.div_div by lia; reflexivity).
    assert (y1 / 100 / 10 = y1 / 1000) by (rewrite Z.div_div by lia; reflexivity).
    assert (y1 / 1000 mod 10 = y1 / 1000) by (apply Z.mod_small; lia).
    lia. }
  assert (E2 : y2 = 1000 * (y2 / 1000) + 100 * (y2 / 100 mod 10)
                    + 10 * (y2 / 10 mod 10) + y2 mod 10).
  { pose proof (Z.div_mod y2 10 ltac:(lia)).
    pose proof (Z.div_mod (y2 / 10) 10 ltac:(lia)).
    pose proof (Z.div_mod (y2 / 100) 10 ltac:(lia)).
    assert (y2 / 10 / 10 = y2 / 100) by (rewrite Z.div_div by lia; reflexivity).
    assert (y2 / 100 / 10 = y2 / 1000) by (rewrite Z.div_div by lia; reflexivity).
    assert (y2 / 1000 mod 10 = y2 / 1000) by (apply Z.mod_small; lia).
    lia. }
  generalize dependent (y1 / 1000). generalize dependent (y1 / 100 mod 10).
  generalize dependent (y1 / 10 mod 10). generalize dependent (y1 mod 10).
  generalize dependent (y2 / 1000). generalize dependent (y2 / 100 mod 10).
  generalize dependent (y2 / 10 mod 10). generalize dependent (y2 mod 10).
  intros. subst y1 y2.
  repeat match goal with
  | |- context [?a ?= ?b] =>
      lazymatch a with
      | (_ + _) => fail
      | _ => destruct (Z.compare_spec a b)
      end
  end; symmetry;
  first [apply Z.compare_eq_iff; lia | apply Z.compare_lt_iff; lia
        | apply Z.compare_gt_iff; lia].
Qed.

Lemma padStart2_compare_table :
  forallb
    (fun a => forallb
       (fun b => match String.compare (Js.padStart2 (Z.of_nat a))
                                      (Js.padStart2 (Z.of_nat b)),
                       (Z.of_nat a ?= Z.of_nat b) with
                 | Eq, Eq | Lt, Lt | Gt, Gt => true
                 | _, _ => false
                 end)
       (seq 0 100))
    (seq 0 100) = true.
Proof. vm_compute. reflexivity. Qed.

(** Two-digit fields compare as their numbers do. *)
Lemma compare_padStart2 (a b : Z) :
  0 <= a < 100 -> 0 <= b < 100 ->
  String.compare (Js.padStart2 a) (Js.padStart2 b) = (a ?= b).
Proof.
  intros Ha Hb. pose proof padStart2_compare_table as H.
  rewrite forallb_forall in H. specialize (H (Z.to_nat a)).
  rewrite forallb_forall in H by (apply in_seq; lia).
  specialize (H ltac:(apply in_seq; lia) (Z.to_nat b) ltac:(apply in_seq; lia)).
  rewrite !Z2Nat.id in H by lia.
  destruct (String.compare _ _), (a ?= b); congruence.
Qed.

Lemma pretty_four_length (y : Z) :
  1000 <= y <= 9999 -> String.length (pretty y) = 4%nat.
Proof. intros H. now rewrite (pretty_four_digits y H). Qed.

Lemma stamp_compare (a b : Date) :
  validDate a -> validDate b -> fourDigitYear a -> fourDigitYear b ->
  String.compare (getLocalDateStamp a) (getLocalDateStamp b)
  = match fullYear a ?= fullYear b with
    | Eq => match month a ?= month b with
            | Eq => date a ?= date b
            | r => r
            end
    | r => r
    end.
Proof.
  intros [Hma Hda] [Hmb Hdb] Hya Hyb.
  pose proof (daysInMonth_range (fullYear a) (month a)) as Ra.
  pose proof (daysInMonth_range (fullYear b) (month b)) as Rb.
  destruct (padStart2_two (month a + 1)) as [Lma _]; [lia|].
  destruct (padStart2_two (month b + 1)) as [Lmb _]; [lia|].
  unfold getLocalDateStamp. cbv zeta.
  rewrite compare_app
    by (rewrite !pretty_four_length by assumption; reflexivity).
  rewrite (compare_years _ _ Hya Hyb).
  destruct (fullYear a ?= fullYear b); try reflexivity.
  rewrite (compare_app "-" "-") by reflexivity. cbn [String.compare Ascii.compare].
  change (N_of_ascii "-" ?= N_of_ascii "-")%N with Eq. cbv iota.
  rewrite compare_app by congruence.
  rewrite compare_padStart2 by lia.
  rewrite (Z.add_comm (month a) 1), (Z.add_comm (month b) 1), Z.add_compare_mono_l.
  destruct (month a ?= month b); try reflexivity.
  rewrite (compare_app "-" "-") by reflexivity. cbn [String.compare Ascii.compare].
  change (N_of_ascii "-" ?= N_of_ascii "-")%N with Eq. cbv iota.
  apply compare_padStart2; lia.
Qed.

Lemma stamp_order_aux (a b : Date) :
  validDate a -> validDate b -> fourDigitYear a -> fourDigitYear b ->
  isDateStampBefore (getLocalDateStamp a) (getLocalDateStamp b) = dateBefore a b.
Proof.
  intros Va Vb Ya Yb. unfold isDateStampBefore, Js.lt, String.ltb, dateBefore.
  rewrite (stamp_compare a b Va Vb Ya Yb).
  destruct (Z.compare_spec (fullYear a) (fullYear b)) as [Ey|Ly|Gy].
  - rewrite Ey, Z.ltb_irrefl, Z.eqb_refl. simpl.
    destruct (Z.compare_spec (month a) (month b)) as [Em|Lm|Gm].
    + rewrite Em, Z.ltb_irrefl, Z.eqb_refl. simpl.
      destruct (Z.compare_spec (date a) (date b)) as [Ed|Ld|Gd]; symmetry.
      * rewrite Ed. apply Z.ltb_irrefl.
      * now apply Z.ltb_lt.
      * apply Z.ltb_ge. lia.
    + symmetry. apply orb_true_iff. left. now apply Z.ltb_lt.
    + symmetry. apply orb_false_iff. split; [apply Z.ltb_ge; lia|].
      apply andb_false_iff. left. apply Z.eqb_neq. lia.
  - symmetry. apply orb_true_iff. left. now apply Z.ltb_lt.
  - symmetry. apply orb_false_iff. split; [apply Z.ltb_ge; lia|].
    apply andb_false_iff. left. apply Z.eqb_neq. lia.
Qed.

(** X1: on dates whose year prints as four digits, the string order of
    the stamps is the calendar order of the dates. *)
Theorem stamp_order_is_calendar_order (a b : Date) :
  validDate a -> validDate b -> fourDigitYear a -> fourDigitYear b ->
  isDateStampBefore (getLocalDateStamp a) (getLocalDateStamp b) = dateBefore a b.
Proof. exact (stamp_order_aux a b). Qed.

Lemma stamp_order_is_calendar_order_witness :
  isDateStampBefore (getLocalDateStamp (mkDate 2025 11 31 0))
    (getLocalDateStamp (mkDate 2026 0 1 0))
  = dateBefore (mkDate 2025 11 31 0) (mkDate 2026 0 1 0).
Proof.
  apply (stamp_order_is_calendar_order (mkDate 2025 11 31 0) (mkDate 2026 0 1 0));
    unfold validDate, fourDigitYear; vm_compute; repeat split; discriminate.
Defined.

Lemma padStart2_digits_table :
  forallb
    (fun k => match Js.padStart2 (Z.of_nat k) with
              | String a (String b "") => isDigit a && isDigit b
              | _ => false
              end)
    (seq 0 100) = true.
Proof. vm_compute. reflexivity. Qed.

Lemma padStart2_digits (n : Z) :
  0 <= n < 100 ->
  exists a b, Js.padStart2 n = String a (String b "")
              /\ isDigit a = true /\ isDigit b = true.
Proof.
  intros Hn. pose proof padStart2_digits_table as H.
  rewrite forallb_forall in H. specialize (H (Z.to_nat n)).
  rewrite Z2Nat.id in H by lia.
  assert (Hin : In (Z.to_nat n) (seq 0 100)) by (apply in_seq; lia).
  apply H in Hin.
  destruct (Js.padStart2 n) as [|a [|b [|]]]; try discriminate.
  apply andb_true_iff in Hin. exists a, b. tauto.
Qed.

Lemma getLocalDateStamp_canonical_aux (d : Date) :
  validDate d -> fourDigitYear d -> canonicalKey (getLocalDateStamp d) = true.
Proof.
  intros [Hm Hd] Hy.
  pose proof (daysInMonth_range (fullYear d) (month d)) as R.
  destruct (padStart2_digits (month d + 1)) as (m1 & m2 & Em & Hm1 & Hm2); [lia|].
  destruct (padStart2_digits (date d)) as (d1 & d2 & Ed & Hd1 & Hd2); [lia|].
  apply canonicalKey_iff. unfold getLocalDateStamp. cbv zeta.
  rewrite (pretty_four_digits _ Hy), Em, Ed.
  apply (digit_stamp _ _ _ _ m1 m2 d1 d2); auto using digitChar_isDigit.
Qed.

(** X2: the stamp of a date whose year prints as four digits is a
    canonical day key. *)
Theorem getLocalDateStamp_canonical (d : Date) :
  validDate d -> fourDigitYear d -> canonicalKey (getLocalDateStamp d) = true.
Proof. exact (getLocalDateStamp_canonical_aux d). Qed.

Lemma getLocalDateStamp_canonical_witness :
  canonicalKey (getLocalDateStamp (mkDate 2026 1 3 36000000)) = true.
Proof.
  apply (getLocalDateStamp_canonical (mkDate 2026 1 3 36000000));
    unfold validDate, fourDigitYear; vm_compute; repeat split; discriminate.
Defined.

Lemma yesterdayOf_valid (now : Date) : validDate now -> validDate (yesterdayOf now).
Proof.
  intros [Hm Hd]. unfold yesterdayOf, setDate, validDate.
  pose proof (daysInMonth_range (fullYear now) (month now)) as R.
  destruct (Z.leb_spec 1 (date now - 1)) as [Hge|Hlt]; simpl; [lia|].
  destruct (Z.eqb_spec (month now) 0); simpl.
  - pose proof (daysInMonth_range (fullYear now - 1) 11). lia.
  - pose proof (daysInMonth_range (fullYear now) (month now - 1)). lia.
Qed.

Lemma dateBefore_iff (a b : Date) :
  dateBefore a b = true
  <-> fullYear a < fullYear b
      \/ (fullYear a = fullYear b
          /\ (month a < month b \/ (month a = month b /\ date a < date b))).
Proof.
  unfold dateBefore.
  rewrite orb_true_iff, andb_true_iff, orb_true_iff, andb_true_iff.
  rewrite !Z.ltb_lt, !Z.eqb_eq. reflexivity.
Qed.

(** [yesterdayOf] is the calendar day just before: it is earlier, and
    no valid date lies strictly between. *)
Lemma yesterdayOf_predecessor (now d : Date) :
  validDate now -> validDate d ->
  dateBefore (yesterdayOf now) now = true
  /\ (dateBefore d now = true -> dateBefore (yesterdayOf now) d = false).
Proof.
  intros [Hm Hd] [Hm' Hd'].
  rewrite <- (not_true_iff_false (dateBefore (yesterdayOf now) d)).
  rewrite !dateBefore_iff.
  assert (H1 : fullYear d = fullYear now -> month d = month now - 1 ->
               date d <= daysInMonth (fullYear now) (month now - 1)).
  { intros E1 E2. rewrite <- E1, <- E2. lia. }
  assert (H2 : fullYear d = fullYear now - 1 -> month d = 11 ->
               date d <= daysInMonth (fullYear now - 1) 11).
  { intros E1 E2. rewrite <- E1, <- E2. lia. }
  pose proof (daysInMonth_range (fullYear now) (month now - 1)) as R1.
  pose proof (daysInMonth_range (fullYear now - 1) 11) as R2.
  unfold yesterdayOf, setDate.
  destruct (Z.leb_spec 1 (date now - 1)) as [Hge|Hlt]; simpl; [lia|].
  destruct (Z.eqb_spec (month now) 0) as [Hz|Hnz]; simpl; lia.
Qed.

(** X3: [getYesterdayStamp] is the key of the calendar day just before
    the clock's day: the key of a valid date, before today's key, with
    the key of no valid date strictly between the two. *)
Theorem getYesterdayStamp_is_previous_day (now : Date) :
  validDate now -> 1001 <= fullYear now <= 9999 ->
  getYesterdayStamp now = getLocalDateStamp (yesterdayOf now)
  /\ validDate (yesterdayOf now)
  /\ canonicalKey (getYesterdayStamp now) = true
  /\ isDateStampBefore (getYesterdayStamp now) (getLocalDateStamp now) = true
  /\ forall d, validDate d -> fourDigitYear d ->
       isDateStampBefore (getLocalDateStamp d) (getLocalDateStamp now) = true ->
       isDateStampBefore (getYesterdayStamp now) (getLocalDateStamp d) = false.
Proof.
  intros V Hy.
  pose proof (yesterdayOf_valid now V) as Vy.
  assert (Yn : fourDigitYear now) by (unfold fourDigitYear; lia).
  assert (Yy : fourDigitYear (yesterdayOf now)).
  { unfold fourDigitYear, yesterdayOf, setDate.
    destruct (1 <=? date now - 1); simpl; [lia|].
    destruct (month now =? 0); simpl; lia. }
  change (getYesterdayStamp now) with (getLocalDateStamp (yesterdayOf now)).
  split; [reflexivity|]. split; [exact Vy|]. split.
  { now apply getLocalDateStamp_canonical_aux. }
  split.
  - rewrite stamp_order_aux by assumption.
    apply (yesterdayOf_predecessor now now V V).
  - intros d Vd Yd. rewrite !stamp_order_aux by assumption.
    apply (yesterdayOf_predecessor now d V Vd).
Qed.

Lemma getYesterdayStamp_is_previous_day_witness :
  getYesterdayStamp (mkDate 2024 2 1 0) = getLocalDateStamp (yesterdayOf (mkDate 2024 2 1 0))
  /\ validDate (yesterdayOf (mkDate 2024 2 1 0))
  /\ canonicalKey (getYesterdayStamp (mkDate 2024 2 1 0)) = true
  /\ isDateStampBefore (getYesterdayStamp (mkDate 2024 2 1 0))
       (getLocalDateStamp (mkDate 2024 2 1 0)) = true
  /\ forall d, validDate d -> fourDigitYear d ->
       isDateStampBefore (getLocalDateStamp d) (getLocalDateStamp (mkDate 2024 2 1 0))
       = true ->
       isDateStampBefore (getYesterdayStamp (mkDate 2024 2 1 0)) (getLocalDateStamp d)
       = false.
Proof.
  apply (getYesterdayStamp_is_previous_day (mkDate 2024 2 1 0)).
  - unfold validDate. vm_compute. repeat split; discriminate.
  - vm_compute. split; discriminate.
Defined.

(** ** File names and day keys *)

(** X4: the note pattern accepts exactly the names made of a canonical
    day key and the suffix [.md], and returns the key. *)
Theorem getDailyNoteDateStamp_iff (name d : string) :
  getDailyNoteDateStamp name = Some d
  <-> canonicalKey d = true /\ name = d +:+ ".md".
Proof.
  split.
  - intros H. apply getDailyNoteDateStamp_inv in H. destruct H as [Hd ->].
    split; [now apply canonicalKey_iff | reflexivity].
  - intros [Hd ->]. apply canonicalKey_iff in Hd. unfold getDailyNoteDateStamp.
    now rewrite (matchStampHead_digits d _ Hd).
Qed.

(** X5: the summary pattern accepts exactly the names made of a
    canonical day key and the suffix [_summary.md], and returns the key;
    no name is accepted by both patterns. *)
Theorem getSummaryDateStamp_iff (name d : string) :
  (getSummaryDateStamp name = Some d
   <-> canonicalKey d = true /\ name = d +:+ "_summary.md")
  /\ (getDailyNoteDateStamp name = None \/ getSummaryDateStamp name = None).
Proof.
  split; [split|].
  - intros H. apply getSummaryDateStamp_inv in H. destruct H as [Hd ->].
    split; [now apply canonicalKey_iff | reflexivity].
  - intros [Hd ->]. apply canonicalKey_iff in Hd. unfold getSummaryDateStamp.
    now rewrite (matchStampHead_digits d _ Hd).
  - unfold getDailyNoteDateStamp, getSummaryDateStamp.
    destruct (matchStampHead name) as [[stamp rest]|]; [|now left].
    destruct (String.eqb_spec rest ".md") as [->|]; [now right | now left].
Qed.

(** The last segment of a resolver path for a key of eight digits. *)
Lemma resolver_name (folder day ext : string) (nested : bool) :
  DigitStamp day -> isSegment ext ->
  Js.pop (Js.split "/"
    (if nested
     then normalizePath
            (folder +:+ "/" +:+ interp (year (getDateParts day)) +:+ "/"
               +:+ interp (month_part (getDateParts day)) +:+ "/" +:+ day +:+ ext)
     else normalizePath (folder +:+ "/" +:+ day +:+ ext)))
  = day +:+ ext.
Proof.
  intros Hd Hext.
  rewrite (getDateParts_canonical day) by now apply canonicalKey_iff.
  simpl interp.
  destruct (nested_tail day ext Hd Hext) as (Hw & Hsl & Hsp).
  destruct (flat_tail day ext Hd Hext) as (Hw' & Hsl' & Hsp').
  destruct (normalizePath_slash (normalizePath folder)
              (normalizePath_wellSeparated folder)) as (b0 & Hb0 & _).
  rewrite normalizePath_prefix in Hb0.
  destruct nested.
  - rewrite normalizePath_tail by assumption. rewrite Hb0, app_assoc_s.
    change ("/" +:+ ?t) with (String "/" t).
    rewrite split_app_sep, Hsp. unfold Js.pop.
    change [String.substring 0 4 day; String.substring 5 2 day; day +:+ ext]
      with ([String.substring 0 4 day; String.substring 5 2 day] ++ [day +:+ ext]).
    rewrite app_assoc. apply last_last.
  - rewrite normalizePath_tail by assumption. rewrite Hb0, app_assoc_s.
    change ("/" +:+ ?t) with (String "/" t).
    rewrite split_app_sep, Hsp'. unfold Js.pop. apply last_last.
Qed.

(** X6: for a canonical day key, the file name of the path a resolver
    returns is read back as that key by the matching pattern. *)
Theorem resolver_paths_decode (s : DailyNotesDigestSettings) (now : Date)
    (day : string) :
  canonicalKey day = true ->
  getDailyNoteDateStamp (Js.pop (Js.split "/" (getDailyNotePath s now day)))
  = Some day
  /\ getSummaryDateStamp (Js.pop (Js.split "/" (getSummaryPath s now day)))
     = Some day.
Proof.
  intros Hc. pose proof (proj1 (canonicalKey_iff day) Hc) as Hd. split.
  - unfold getDailyNotePath. cbv zeta.
    rewrite (resolver_name (dailyNotesFolder s) day ".md" _ Hd md_segment).
    unfold getDailyNoteDateStamp. now rewrite (matchStampHead_digits day _ Hd).
  - unfold getSummaryPath. cbv zeta.
    rewrite (resolver_name (outputFolder s) day "_summary.md" _ Hd summary_md_segment).
    unfold getSummaryDateStamp. now rewrite (matchStampHead_digits day _ Hd).
Qed.

Lemma resolver_paths_decode_witness :
  getDailyNoteDateStamp
    (Js.pop (Js.split "/" (getDailyNotePath (exampleSettings true)
                             (mkDate 2026 1 21 0) "2026-02-10")))
  = Some "2026-02-10"
  /\ getSummaryDateStamp
       (Js.pop (Js.split "/" (getSummaryPath (exampleSettings true)
                                (mkDate 2026 1 21 0) "2026-02-10")))
     = Some "2026-02-10".
Proof.
  apply (resolver_paths_decode (exampleSettings true) (mkDate 2026 1 21 0)
           "2026-02-10").
  reflexivity.
Defined.

(** ** [normalizePath] *)

Lemma replaceBackslashes_length (s : string) :
  String.length (replaceBackslashes s) = String.length s.
Proof. induction s as [|c r IH]; simpl; [reflexivity | now rewrite IH]. Qed.

Lemma collapseSlashes_length (s : string) :
  (String.length (collapseSlashes s) <= String.length s)%nat.
Proof.
  induction s as [|c r IH]; [reflexivity|].
  rewrite collapseSlashes_cons. destruct (_ && _); simpl; lia.
Qed.

Lemma wellSeparated_fixed (p : string) :
  wellSeparated p = true -> normalizePath p = p.
Proof.
  unfold wellSeparated, normalizePath. intros H.
  apply andb_true_iff in H. destruct H as [Hb Hd].
  rewrite (replaceBackslashes_clean p Hb). now apply collapseSlashes_clean.
Qed.

(** X7: [normalizePath] is idempotent, its fixed points are exactly the
    paths without a backslash and without two slashes in a row, and it
    never lengthens a path. *)
Theorem normalizePath_idempotent (p : string) :
  normalizePath (normalizePath p) = normalizePath p
  /\ (normalizePath p = p <-> wellSeparated p = true)
  /\ (String.length (normalizePath p) <= String.length p)%nat.
Proof.
  split; [|split].
  - apply wellSeparated_fixed, normalizePath_wellSeparated.
  - split.
    + intros H. rewrite <- H. apply normalizePath_wellSeparated.
    + apply wellSeparated_fixed.
  - unfold normalizePath. etransitivity; [apply collapseSlashes_length|].
    now rewrite replaceBackslashes_length.
Qed.

(** ** Folder creation *)

Lemma nextCurrent_length (current part : string) :
  Js.truthy part = true ->
  (String.length current < String.length (nextCurrent current part))%nat.
Proof.
  unfold nextCurrent. destruct part as [|c part]; [discriminate|]. intros _.
  destruct current; simpl; [lia|]. rewrite !length_app_s. simpl. lia.
Qed.

Lemma visited_longer (parts : list string) (current q : string) :
  Forall (fun p => Js.truthy p = true) parts ->
  In q (visited parts current) ->
  (String.length current < String.length q)%nat.
Proof.
  revert current. induction parts as [|part rest IH]; intros current Hall; [intros []|].
  inversion Hall as [|? ? Hpart Hrest]; subst. simpl.
  pose proof (nextCurrent_length current part Hpart) as Hlt.
  intros [<- | Hin]; [exact Hlt|].
  specialize (IH _ Hrest Hin). lia.
Qed.

(** Creating a folder changes the existence of that path only. *)
Lemma createFolder_exists (c q : string) (w w' : World) :
  vault_createFolder c w = (inr tt, w') -> q <> c ->
  vault_exists (vault w') q = vault_exists (vault w) q.
Proof.
  intros Hc Hne. pose proof (createFolder_folders_only c w) as Hfo.
  rewrite Hc in Hfo. simpl in Hfo. destruct Hfo as (Hf & _).
  unfold vault_exists, vault_isFolder. rewrite Hf.
  rewrite (createFolder_effect _ _ _ Hc).
  f_equal. f_equal. apply bool_decide_ext.
  rewrite elem_of_union, elem_of_singleton. tauto.
Qed.

Lemma createFolder_created (c : string) (w w' : World) :
  vault_createFolder c w = (inr tt, w') ->
  vault_exists (vault w') c = true /\ trace w' = trace w ++ [CreatedFolder c]
  /\ files (vault w') = files (vault w).
Proof.
  intros Hc. pose proof (createFolder_effect _ _ _ Hc) as He.
  unfold vault_createFolder in Hc.
  destruct (vault_exists (vault w) c); [discriminate|].
  destruct (_ && _); [discriminate|].
  injection Hc as <-. simpl. split; [|split; reflexivity].
  unfold vault_exists, vault_isFolder. simpl.
  rewrite (bool_decide_eq_true_2 (c ∈ {[c]} ∪ folders (vault w)))
    by (apply elem_of_union; left; now apply elem_of_singleton).
  now rewrite orb_true_r.
Qed.

Lemma filter_ext_in_bool {A} (f g : A -> bool) (l : list A) :
  (forall x, In x l -> f x = g x) -> List.filter f l = List.filter g l.
Proof.
  induction l as [|x l IH]; intros H; [reflexivity|]. simpl.
  rewrite (H x) by now left. rewrite IH; [reflexivity|].
  intros y Hy. apply H. now right.
Qed.

(** A loop that ran to its end created exactly the checked paths that
    did not exist, in order. *)
Lemma ensureSegments_effect (parts : list string) (current : string) (w w' : World) :
  Forall (fun p => Js.truthy p = true) parts ->
  ensureSegments parts current w = (inr tt, w') ->
  trace w' = trace w
             ++ List.map CreatedFolder
                  (List.filter (fun q => negb (vault_exists (vault w) q))
                     (visited parts current))
  /\ folders (vault w')
     = list_to_set (List.filter (fun q => negb (vault_exists (vault w) q))
                      (visited parts current)) ∪ folders (vault w).
Proof.
  revert current w. induction parts as [|part rest IH]; intros current w Hall.
  - intros [= <-]. simpl. rewrite app_nil_r. split; [reflexivity|].
    now rewrite (left_id_L ∅ (∪)).
  - inversion Hall as [|? ? Hpart Hrest]; subst.
    rewrite ensureSegments_cons. simpl visited. simpl List.filter.
    set (c := nextCurrent current part).
    destruct (vault_exists (vault w) c) eqn:Hex; simpl negb; cbv iota.
    + intros H. now apply IH.
    + destruct (vault_createFolder c w) as [[e|[]] w1] eqn:Hc; [discriminate|].
      intros H. destruct (IH c w1 Hrest H) as [Ht Hf].
      destruct (createFolder_created _ _ _ Hc) as (_ & Ht1 & _).
      assert (Hsame : List.filter (fun q => negb (vault_exists (vault w1) q))
                        (visited rest c)
                      = List.filter (fun q => negb (vault_exists (vault w) q))
                          (visited rest c)).
      { apply filter_ext_in_bool. intros q Hq. f_equal.
        apply (createFolder_exists c q w w1 Hc).
        intros ->. apply (visited_longer rest c c Hrest) in Hq. lia. }
      rewrite Hsame in Ht, Hf. split.
      * rewrite Ht, Ht1. simpl. now rewrite <- app_assoc.
      * rewrite Hf, (createFolder_effect _ _ _ Hc). simpl.
        apply set_eq. intros x. rewrite !elem_of_union. tauto.
Qed.

(** X8: when [ensureFolderExists] returns normally, it has created
    exactly the missing paths among those it checks, the shortest
    first, and it has changed nothing else. *)
Theorem ensureFolderExists_creates_missing (folderPath : string) (w w' : World) :
  ensureFolderExists folderPath w = (inr tt, w') ->
  trace w' = trace w ++ List.map CreatedFolder (missingAncestors (vault w) folderPath)
  /\ folders (vault w')
     = list_to_set (missingAncestors (vault w) folderPath) ∪ folders (vault w)
  /\ files (vault w') = files (vault w)
  /\ settings w' = settings w.
Proof.
  intros H. pose proof (ensureFolderExists_folders_only folderPath w) as Hfo.
  rewrite H in Hfo. simpl in Hfo. destruct Hfo as (Hf & Hs & _).
  assert (Hgoal : trace w' = trace w
                    ++ List.map CreatedFolder (missingAncestors (vault w) folderPath)
                  /\ folders (vault w')
                     = list_to_set (missingAncestors (vault w) folderPath)
                       ∪ folders (vault w)); [|tauto].
  revert H. unfold ensureFolderExists, missingAncestors, trivialBase. cbv zeta.
  destruct (_ || _).
  { intros [= <-]. simpl. rewrite app_nil_r. split; [reflexivity|].
    now rewrite (left_id_L ∅ (∪)). }
  unfold bind, adapter_exists. simpl.
  destruct (vault_exists (vault w) (normalizePath folderPath)).
  { intros [= <-]. simpl. rewrite app_nil_r. split; [reflexivity|].
    now rewrite (left_id_L ∅ (∪)). }
  apply ensureSegments_effect, filterBoolean_truthy.
Qed.

Lemma ensureFolderExists_creates_missing_witness :
  let w := mkWorld (mkVault ∅ {[ "daily_digests" ]}) (exampleSettings false)
             (fun _ => inr (okResponse "Summary")) [] in
  let w' := snd (ensureFolderExists "daily_digests/2026/02" w) in
  trace w' = trace w
             ++ List.map CreatedFolder (missingAncestors (vault w) "daily_digests/2026/02")
  /\ folders (vault w')
     = list_to_set (missingAncestors (vault w) "daily_digests/2026/02")
       ∪ folders (vault w)
  /\ files (vault w') = files (vault w)
  /\ settings w' = settings w.
Proof.
  intros w w'.
  apply (ensureFolderExists_creates_missing "daily_digests/2026/02" w w').
  vm_compute. reflexivity.
Defined.

Lemma lastCurrent_cons (part : string) (rest : list string) (current : string) :
  lastCurrent (part :: rest) current = lastCurrent rest (nextCurrent current part).
Proof. reflexivity. Qed.

(** After a loop that ran to its end, the path it built exists. *)
Lemma ensureSegments_last (parts : list string) (current : string) (w w' : World) :
  parts <> [] ->
  ensureSegments parts current w = (inr tt, w') ->
  vault_exists (vault w') (lastCurrent parts current) = true.
Proof.
  revert current w. induction parts as [|part rest IH]; intros current w Hne;
    [congruence|].
  rewrite ensureSegments_cons, lastCurrent_cons.
  set (c := nextCurrent current part).
  assert (Hstep : forall w1, vault_exists (vault w1) c = true ->
            ensureSegments rest c w1 = (inr tt, w') ->
            vault_exists (vault w') (lastCurrent rest c) = true).
  { intros w1 Hex H. destruct rest as [|r rest'].
    - injection H as <-. exact Hex.
    - now apply (IH c w1). }
  destruct (vault_exists (vault w) c) eqn:Hex; [now apply Hstep|].
  destruct (vault_createFolder c w) as [[e|[]] w1] eqn:Hc; [discriminate|].
  apply Hstep. now apply (createFolder_created c w w1).
Qed.

(** X9: when [ensureFolderExists] returns normally for a path whose
    normalized form has no empty segment and is not [.], the normalized
    path exists afterwards. *)
Theorem ensureFolderExists_ensures (folderPath : string) (w w' : World) :
  ensureFolderExists folderPath w = (inr tt, w') ->
  Js.filterBoolean (Js.split "/" (normalizePath folderPath))
  = Js.split "/" (normalizePath folderPath) ->
  normalizePath folderPath <> "." ->
  vault_exists (vault w') (normalizePath folderPath) = true.
Proof.
  intros H Hparts Hdot. revert H. unfold ensureFolderExists. cbv zeta.
  set (n := normalizePath folderPath) in *.
  destruct (String.eqb_spec n ".") as [|_]; [contradiction|].
  rewrite orb_false_r.
  destruct (Js.truthy n) eqn:Htr; simpl.
  2:{ destruct n; [|discriminate]. discriminate Hparts. }
  unfold bind, adapter_exists. simpl.
  destruct (vault_exists (vault w) n) eqn:Hex; [now intros [= <-]|].
  intros H. apply ensureSegments_last in H.
  - rewrite lastCurrent_join in H by apply filterBoolean_truthy.
    simpl in H. now rewrite Hparts, join_split in H.
  - rewrite Hparts. apply split_nonempty.
Qed.

Lemma ensureFolderExists_ensures_witness :
  vault_exists
    (vault (snd (ensureFolderExists "daily_digests\2026//02"
                   (mkWorld (mkVault ∅ ∅) (exampleSettings false)
                      (fun _ => inr (okResponse "Summary")) []))))
    (normalizePath "daily_digests\2026//02") = true.
Proof.
  apply (ensureFolderExists_ensures "daily_digests\2026//02"
           (mkWorld (mkVault ∅ ∅) (exampleSettings false)
              (fun _ => inr (okResponse "Summary")) [])).
  - vm_compute. reflexivity.
  - reflexivity.
  - discriminate.
Defined.

(** A loop that ran to its end finds every path when it is run again. *)
Lemma ensureSegments_again (parts : list string) (current : string) (w w' : World) :
  ensureSegments parts current w = (inr tt, w') ->
  ensureSegments parts current w' = (inr tt, w').
Proof.
  revert current w. induction parts as [|part rest IH]; intros current w;
    [reflexivity|].
  rewrite !ensureSegments_cons.
  set (c := nextCurrent current part).
  assert (Hstep : forall w1, vault_exists (vault w1) c = true ->
            ensureSegments rest c w1 = (inr tt, w') ->
            (if vault_exists (vault w') c then ensureSegments rest c w'
             else match vault_createFolder c w' with
                  | (inr _, w2) => ensureSegments rest c w2
                  | (inl e, w2) => (inl e, w2)
                  end) = (inr tt, w')).
  { intros w1 Hex H. pose proof (ensureSegments_folders_only rest c w1) as Hfo.
    rewrite H in Hfo. simpl in Hfo.
    rewrite (folders_only_exists _ _ _ Hfo Hex). now apply (IH c w1). }
  destruct (vault_exists (vault w) c) eqn:Hex; [now apply Hstep|].
  destruct (vault_createFolder c w) as [[e|[]] w1] eqn:Hc; [discriminate|].
  apply Hstep. now apply (createFolder_created c w w1).
Qed.

(** X10: [ensureFolderExists] is idempotent: called again on the world
    it left, it returns normally and changes nothing. *)
Theorem ensureFolderExists_idempotent (folderPath : string) (w w' : World) :
  ensureFolderExists folderPath w = (inr tt, w') ->
  ensureFolderExists folderPath w' = (inr tt, w').
Proof.
  unfold ensureFolderExists. cbv zeta.
  destruct (_ || _); [reflexivity|].
  unfold bind, adapter_exists. simpl.
  destruct (vault_exists (vault w) (normalizePath folderPath)) eqn:Hex.
  - intros [= <-]. now rewrite Hex.
  - intros H. destruct (vault_exists (vault w') (normalizePath folderPath));
      [reflexivity|].
    now apply (ensureSegments_again _ _ w).
Qed.

Lemma ensureFolderExists_idempotent_witness :
  let w := mkWorld (mkVault ∅ ∅) (exampleSettings false)
             (fun _ => inr (okResponse "Summary")) [] in
  let w' := snd (ensureFolderExists "/daily_digests/2026/" w) in
  ensureFolderExists "/daily_digests/2026/" w' = (inr tt, w').
Proof.
  intros w w'.
  apply (ensureFolderExists_idempotent "/daily_digests/2026/" w w').
  vm_compute. reflexivity.
Defined.

Lemma split_parts_noChar (sep : ascii) (s p : string) :
  In p (Js.split sep s) -> noChar sep p = true.
Proof.
  revert p. induction s as [|c r IH]; intros p; simpl.
  - intros [<- | []]. reflexivity.
  - destruct (Ascii.eqb c sep) eqn:Hc.
    + intros [<- | Hin]; [reflexivity | now apply IH].
    + pose proof (split_nonempty sep r) as Hne.
      destruct (Js.split sep r) as [|h t]; [congruence|].
      intros [<- | Hin].
      * simpl. rewrite Hc. simpl. apply IH. now left.
      * apply IH. now right.
Qed.

(** The folder of the path built from [current] and one more segment is
    [current]. *)
Lemma parentPath_nextCurrent (current part : string) :
  noChar "/" part = true -> parentPath (nextCurrent current part) = current.
Proof.
  intros Hp. unfold nextCurrent, parentPath, Js.slice_init.
  destruct current as [|c cur]; simpl Js.truthy; cbv iota.
  - now rewrite (split_noChar "/" part Hp).
  - change ("/" +:+ part) with (String "/" part).
    rewrite split_app_sep, (split_noChar "/" part Hp), removelast_last.
    apply join_split.
Qed.

Lemma isFolder_of_exists (v : Vault) (q : string) :
  files v !! q = None -> vault_exists v q = true -> vault_isFolder v q = true.
Proof.
  intros Hf. unfold vault_exists. rewrite Hf.
  rewrite (bool_decide_eq_false_2 (is_Some None)) by (intros [? ?]; discriminate).
  auto.
Qed.

Lemma ensureSegments_succeeds (parts : list string) (current : string) (w : World) :
  Forall (fun p => noChar "/" p = true) parts ->
  current = "" \/ vault_isFolder (vault w) current = true ->
  (forall q, In q (visited parts current) -> files (vault w) !! q = None) ->
  fst (ensureSegments parts current w) = inr tt.
Proof.
  revert current w. induction parts as [|part rest IH]; intros current w Hall Hcur Hfiles;
    [reflexivity|].
  inversion Hall as [|? ? Hpart Hrest]; subst.
  rewrite ensureSegments_cons.
  set (c := nextCurrent current part).
  assert (Hc : files (vault w) !! c = None) by (apply Hfiles; now left).
  assert (Hrestfiles : forall q, In q (visited rest c) -> files (vault w) !! q = None).
  { intros q Hq. apply Hfiles. now right. }
  destruct (vault_exists (vault w) c) eqn:Hex.
  - apply IH; auto. right. now apply isFolder_of_exists.
  - destruct (vault_createFolder c w) as [[e|[]] w1] eqn:Hcreate.
    + exfalso. revert Hcreate. unfold vault_createFolder. rewrite Hex.
      unfold c. rewrite (parentPath_nextCurrent current part Hpart).
      destruct Hcur as [-> | Hfold]; [discriminate|].
      rewrite Hfold, andb_false_r. discriminate.
    + destruct (createFolder_created _ _ _ Hcreate) as (Hex1 & _ & Hf1).
      apply IH; auto.
      * right. apply isFolder_of_exists; [now rewrite Hf1 | exact Hex1].
      * intros q Hq. rewrite Hf1. now apply Hrestfiles.
Qed.

(** X11: [ensureFolderExists] can fail only on a file in the way: when
    none of the paths it checks is a file, it returns normally. *)
Theorem ensureFolderExists_succeeds (folderPath : string) (w : World) :
  (forall q,
     In q (visited (Js.filterBoolean (Js.split "/" (normalizePath folderPath))) "") ->
     files (vault w) !! q = None) ->
  fst (ensureFolderExists folderPath w) = inr tt.
Proof.
  intros Hfiles. unfold ensureFolderExists. cbv zeta.
  destruct (_ || _); [reflexivity|].
  unfold bind, adapter_exists. simpl.
  destruct (vault_exists (vault w) (normalizePath folderPath)); [reflexivity|].
  apply ensureSegments_succeeds; [|now left|exact Hfiles].
  apply List.Forall_forall. intros p Hp. unfold Js.filterBoolean in Hp.
  apply filter_In in Hp. destruct Hp as [Hp _].
  now apply (split_parts_noChar "/" (normalizePath folderPath)).
Qed.

Lemma ensureFolderExists_succeeds_witness :
  fst (ensureFolderExists "Daily/2026/02" archiveWorld) = inr tt.
Proof.
  apply (ensureFolderExists_succeeds "Daily/2026/02" archiveWorld).
  intros q Hq. simpl in Hq.
  destruct Hq as [<- | [<- | [<- | []]]]; vm_compute; reflexivity.
Defined.

(** A file in the way makes the folder creation fail. *)
Example ensureFolderExists_blocked :
  fst (ensureFolderExists "Daily/todo.md/2026" archiveWorld)
  = inl (mkError "ENOENT: no such file or directory: Daily/todo.md/2026").
Proof. vm_compute. reflexivity. Qed.

(** ** The day processor, case by case *)

Lemma short_or_empty (s : string) :
  negb (Js.truthy s) || (String.length s <? 20)%nat = (String.length s <? 20)%nat.
Proof. destruct s; reflexivity. Qed.

Lemma persistSummary_unfold (dateStamp outputPath summary : string) (w : World) :
  persistSummary dateStamp outputPath summary w =
  if negb (Js.truthy summary)
  then (inr tt, emit (Noticed "LLM returned an empty summary") w)
  else
    match ensureFolderExists (outputFolder (settings w)) w with
    | (inl e, w1) => (inl e, w1)
    | (inr _, w1) =>
        match ensureFolderExists (parentPath outputPath) w1 with
        | (inl e, w2) => (inl e, w2)
        | (inr _, w2) =>
            (inr tt, persisted dateStamp outputPath
                       (writtenContent dateStamp summary) w2)
        end
    end.
Proof.
  unfold persistSummary. destruct (negb (Js.truthy summary)); [reflexivity|].
  unfold bind at 1, getSettings at 1. simpl.
  unfold bind at 1.
  destruct (ensureFolderExists (outputFolder (settings w)) w) as [[e|[]] w1];
    [reflexivity|].
  unfold bind at 1. fold (parentPath outputPath).
  destruct (ensureFolderExists (parentPath outputPath) w1) as [[e|[]] w2];
    reflexivity.
Qed.

Lemma processBody_unfold (noteNow : Date) (dateStamp : string) (force : bool)
    (outputPath : string) (w : World) :
  processBody noteNow dateStamp force outputPath w =
  let p := getDailyNotePath (settings w) noteNow dateStamp in
  if negb (vault_exists (vault w) p)
  then (inr tt, if force then emit (Noticed ("Daily note not found: " +:+ p)) w else w)
  else
    match files (vault w) !! p with
    | None => (inl (mkError ("ENOENT: no such file or directory: " +:+ p)), w)
    | Some raw =>
        if (String.length (Js.trim raw) <? 20)%nat
        then (inr tt,
              if force
              then emit (Noticed ("Daily note is empty or nearly empty: " +:+ p)) w
              else w)
        else
          match callLlm (buildMessages (settings w) dateStamp (Js.trim raw)) w with
          | (inl e, w1) => (inl e, w1)
          | (inr summary, w1) => persistSummary dateStamp outputPath summary w1
          end
    end.
Proof.
  unfold processBody.
  unfold bind at 1, getSettings at 1; simpl.
  unfold bind at 1, adapter_exists at 1; simpl.
  destruct (vault_exists _ _); simpl; [|destruct force; reflexivity].
  unfold bind at 1, adapter_read at 1.
  destruct (files (vault w) !! _) as [raw|]; [|reflexivity].
  rewrite short_or_empty.
  destruct (_ <? _)%nat; [destruct force; reflexivity|].
  unfold bind.
  destruct (callLlm _ w) as [[e|summary] w1]; reflexivity.
Qed.

Lemma processDateIfNeeded_unfold (gateNow noteNow : Date) (dateStamp : string)
    (force : bool) (w : World) :
  processDateIfNeeded gateNow noteNow dateStamp force w =
  if gateOpen w gateNow dateStamp force then
    match processBody noteNow dateStamp force
            (getSummaryPath (settings w) gateNow dateStamp) w with
    | (inr _, w') => (inr tt, w')
    | (inl e, w') =>
        (inr tt,
         emit (Noticed ("Daily summary failed: " +:+ message e))
           (emit (ConsoleError "Failed to generate daily summary") w'))
    end
  else (inr tt, w).
Proof.
  unfold processDateIfNeeded, gateOpen.
  unfold bind at 1, getSettings at 1; simpl.
  unfold bind at 1.
  assert (Hbody : forall out,
    tryCatch (processBody noteNow dateStamp force out)
      (fun error =>
         bind (consoleError "Failed to generate daily summary")
           (fun _ => newNotice ("Daily summary failed: " +:+ message error))) w
    = match processBody noteNow dateStamp force out w with
      | (inr _, w') => (inr tt, w')
      | (inl e, w') =>
          (inr tt,
           emit (Noticed ("Daily summary failed: " +:+ message e))
             (emit (ConsoleError "Failed to generate daily summary") w'))
      end).
  { intros out. unfold tryCatch.
    destruct (processBody noteNow dateStamp force out w) as [[e|[]] w']; reflexivity. }
  destruct force; simpl.
  - unfold ret. apply Hbody.
  - unfold adapter_exists.
    destruct (vault_exists (vault w) _); simpl; [reflexivity | apply Hbody].
Qed.

(** X12: with the gate open, a day whose note is missing or shorter
    than 20 characters after trimming is left alone: the run returns
    normally and the world is unchanged, but for one notice, giving the
    reason, when the run is forced. *)
Theorem skipped_day_is_quiet (w : World) (gateNow noteNow : Date)
    (dateStamp : string) (force : bool) (reason : string) :
  gateOpen w gateNow dateStamp force = true ->
  skipReason w noteNow dateStamp = Some reason ->
  processDateIfNeeded gateNow noteNow dateStamp force w
  = (inr tt, if force then emit (Noticed reason) w else w).
Proof.
  intros Hgate Hskip. rewrite processDateIfNeeded_unfold, Hgate, processBody_unfold.
  revert Hskip. unfold skipReason. cbv zeta.
  destruct (negb (vault_exists _ _)); [now intros [= <-]|].
  destruct (files (vault w) !! _) as [raw|]; [|discriminate].
  destruct (_ <? _)%nat; [now intros [= <-] | discriminate].
Qed.

Lemma skipped_day_is_quiet_witness :
  processDateIfNeeded exampleNow exampleNow "2026-02-19" true
    (noteWorld false (fun _ => inr (okResponse "S")))
  = (inr tt,
     emit (Noticed "Daily note not found: Daily/2026-02-19.md")
       (noteWorld false (fun _ => inr (okResponse "S")))).
Proof.
  apply (skipped_day_is_quiet (noteWorld false (fun _ => inr (okResponse "S")))
           exampleNow exampleNow
           "2026-02-19" true "Daily note not found: Daily/2026-02-19.md");
    vm_compute; reflexivity.
Defined.

Lemma unpersisted_refl (w : World) : unpersisted w w.
Proof. unfold unpersisted. repeat split; reflexivity. Qed.

Lemma unpersisted_trans (w1 w2 w3 : World) :
  unpersisted w1 w2 -> unpersisted w2 w3 -> unpersisted w1 w3.
Proof.
  intros (A1 & A2 & A4 & A5 & A6 & A7 & A8) (B1 & B2 & B4 & B5 & B6 & B7 & B8).
  unfold unpersisted. repeat (split; [congruence|]).
  split; [|repeat split; congruence].
  intros x Hx. apply B5, A5, Hx.
Qed.

Lemma folders_only_proj {A} (f : Event -> option A) (w w' : World) :
  (forall p, f (CreatedFolder p) = None) ->
  folders_only w w' -> omap f (trace w') = omap f (trace w).
Proof.
  intros Hf (_ & _ & _ & _ & l & ->). rewrite omap_app.
  assert (Hnil : omap f (List.map CreatedFolder l) = []).
  { induction l as [|p l IH]; [reflexivity|]. simpl. now rewrite Hf. }
  rewrite Hnil. apply app_nil_r.
Qed.

Lemma folders_only_requests (w w' : World) :
  folders_only w w' -> requests (trace w') = requests (trace w).
Proof. intros H. unfold requests. now apply folders_only_proj. Qed.

Lemma folders_only_notices (w w' : World) :
  folders_only w w' -> notices (trace w') = notices (trace w).
Proof. intros H. unfold notices. now apply folders_only_proj. Qed.

Lemma folders_only_unpersisted (w w' : World) :
  folders_only w w' -> unpersisted w w'.
Proof.
  intros Hfo. pose proof Hfo as (H1 & H2 & H4 & H5 & _).
  unfold unpersisted. repeat (split; [assumption|]).
  repeat split; apply folders_only_proj; auto.
Qed.

Lemma unpersisted_emit (e : Event) (w : World) :
  match e with Wrote _ _ | SavedData _ | Renamed _ _ => False | _ => True end ->
  unpersisted w (emit e w).
Proof.
  intros He. unfold unpersisted, writes, saves, renames. simpl.
  rewrite !omap_app. destruct e; try contradiction; simpl; rewrite !app_nil_r;
    repeat split; reflexivity.
Qed.

Lemma callLlm_unpersisted (messages : list ChatMessage) (w : World) :
  unpersisted w (snd (callLlm messages w)).
Proof.
  destruct (callLlm messages w) as [[e|text] w'] eqn:E; simpl.
  - destruct (callLlm_failure_world _ _ _ _ E) as [-> | ->];
      [apply unpersisted_refl | now apply unpersisted_emit].
  - rewrite (callLlm_success_world _ _ _ _ E). now apply unpersisted_emit.
Qed.

(** The outcome of the persist steps: nothing persisted, or the file,
    the marker, the save and the notice together. *)
Lemma persistSummary_outcome (dateStamp outputPath summary : string) (w : World) :
  let wf := snd (persistSummary dateStamp outputPath summary w) in
  unpersisted w wf
  \/ (exists w2, folders_only w w2
        /\ persistSummary dateStamp outputPath summary w
           = (inr tt, persisted dateStamp outputPath
                        (writtenContent dateStamp summary) w2)).
Proof.
  cbv zeta. rewrite persistSummary_unfold.
  destruct (negb (Js.truthy summary)).
  { left. simpl. now apply unpersisted_emit. }
  pose proof (ensureFolderExists_folders_only (outputFolder (settings w)) w) as H1.
  destruct (ensureFolderExists (outputFolder (settings w)) w) as [[e|[]] w1];
    simpl in H1.
  { left. now apply folders_only_unpersisted. }
  pose proof (ensureFolderExists_folders_only (parentPath outputPath) w1) as H2.
  destruct (ensureFolderExists (parentPath outputPath) w1) as [[e|[]] w2];
    simpl in H2.
  { left. simpl. apply folders_only_unpersisted.
    eapply folders_only_trans; eassumption. }
  right. exists w2. split; [|reflexivity].
  eapply folders_only_trans; eassumption.
Qed.

(** The outcome of the [try] block: nothing persisted, or a request
    followed by the persist steps. *)
Lemma processBody_outcome (noteNow : Date) (dateStamp : string) (force : bool)
    (outputPath : string) (w : World) :
  let wf := snd (processBody noteNow dateStamp force outputPath w) in
  unpersisted w wf
  \/ (exists raw summary w2,
        files (vault w) !! getDailyNotePath (settings w) noteNow dateStamp = Some raw
        /\ callLlm (buildMessages (settings w) dateStamp (Js.trim raw)) w
           = (inr summary,
              emit (Requested (llmRequest (settings w)
                                 (buildMessages (settings w) dateStamp (Js.trim raw)))) w)
        /\ folders_only
             (emit (Requested (llmRequest (settings w)
                                 (buildMessages (settings w) dateStamp (Js.trim raw)))) w)
             w2
        /\ processBody noteNow dateStamp force outputPath w
           = (inr tt, persisted dateStamp outputPath
                        (writtenContent dateStamp summary) w2)).
Proof.
  cbv zeta. rewrite processBody_unfold. cbv zeta.
  destruct (negb (vault_exists _ _)).
  { left. simpl. destruct force; [now apply unpersisted_emit | apply unpersisted_refl]. }
  destruct (files (vault w) !! _) as [raw|] eqn:Hraw; [|left; apply unpersisted_refl].
  destruct (_ <? _)%nat.
  { left. simpl. destruct force; [now apply unpersisted_emit | apply unpersisted_refl]. }
  pose proof (callLlm_unpersisted (buildMessages (settings w) dateStamp (Js.trim raw)) w)
    as Hcall.
  destruct (callLlm _ w) as [[e|summary] w1] eqn:E; simpl in Hcall; [now left|].
  pose proof (callLlm_success_world _ _ _ _ E) as Hw1.
  destruct (persistSummary_outcome dateStamp outputPath summary w1)
    as [Hq | (w2 & Hfo & Hp)].
  - left. eapply unpersisted_trans; eassumption.
  - right. exists raw, summary, w2. rewrite <- Hw1. auto.
Qed.

Lemma persisted_fields (dateStamp outputPath text : string) (w : World) :
  let wf := persisted dateStamp outputPath text w in
  files (vault wf) = <[outputPath := text]> (files (vault w))
  /\ folders (vault wf) = folders (vault w)
  /\ settings wf = set_lastProcessedDate (settings w) dateStamp
  /\ requestUrl wf = requestUrl w
  /\ writes (trace wf) = writes (trace w) ++ [(outputPath, text)]
  /\ saves (trace wf) = saves (trace w) ++ [settings wf]
  /\ notices (trace wf) = notices (trace w) ++ ["Daily summary saved: " +:+ outputPath]
  /\ renames (trace wf) = renames (trace w)
  /\ requests (trace wf) = requests (trace w).
Proof.
  cbv zeta. unfold persisted, writes, saves, notices, renames, requests. simpl.
  rewrite !omap_app. simpl. rewrite !app_nil_r. repeat split; reflexivity.
Qed.

(** The world in which the persist steps start: a request was logged
    and folders were created. *)
Lemma after_request_fields (r : RequestUrlParam) (w w2 : World) :
  folders_only (emit (Requested r) w) w2 ->
  unpersisted w w2 /\ notices (trace w2) = notices (trace w)
  /\ requests (trace w2) = requests (trace w) ++ [r].
Proof.
  intros Hfo. split; [|split].
  - eapply unpersisted_trans; [|apply folders_only_unpersisted, Hfo].
    now apply unpersisted_emit.
  - rewrite (folders_only_notices _ _ Hfo). unfold notices.
    simpl. rewrite omap_app. simpl. apply app_nil_r.
  - rewrite (folders_only_requests _ _ Hfo). unfold requests.
    simpl. now rewrite omap_app.
Qed.

Lemma processDate_outcome (w : World) (gateNow noteNow : Date)
    (dateStamp : string) (force : bool) :
  exists wf,
    processDateIfNeeded gateNow noteNow dateStamp force w = (inr tt, wf)
    /\ (unpersisted w wf
        \/ exists raw summary w2,
             gateOpen w gateNow dateStamp force = true
             /\ files (vault w) !! getDailyNotePath (settings w) noteNow dateStamp
                = Some raw
             /\ folders_only
                  (emit (Requested
                           (llmRequest (settings w)
                              (buildMessages (settings w) dateStamp (Js.trim raw)))) w)
                  w2
             /\ wf = persisted dateStamp
                       (getSummaryPath (settings w) gateNow dateStamp)
                       (writtenContent dateStamp summary) w2).
Proof.
  rewrite processDateIfNeeded_unfold.
  destruct (gateOpen w gateNow dateStamp force) eqn:Hgate.
  2:{ exists w. split; [reflexivity|]. left. apply unpersisted_refl. }
  set (out := getSummaryPath (settings w) gateNow dateStamp).
  destruct (processBody_outcome noteNow dateStamp force out w)
    as [Hq | (raw & summary & w2 & Hraw & Hcall & Hfo & Hp)].
  - destruct (processBody noteNow dateStamp force out w) as [[e|[]] wb]; simpl in Hq.
    + eexists. split; [reflexivity|]. left.
      eapply unpersisted_trans; [exact Hq|].
      eapply unpersisted_trans; [|now apply unpersisted_emit].
      now apply unpersisted_emit.
    + eexists. split; [reflexivity|]. now left.
  - rewrite Hp. eexists. split; [reflexivity|]. right.
    exists raw, summary, w2. auto.
Qed.


Lemma getSummaryPath_marker (s : DailyNotesDigestSettings) (d : string) (now : Date)
    (dateStamp : string) :
  getSummaryPath (set_lastProcessedDate s d) now dateStamp
  = getSummaryPath s now dateStamp.
Proof. reflexivity. Qed.

(** X14: after a run that wrote a summary, a later run for the same day
    without force returns at once and leaves the world as it is,
    provided [getSummaryPath] still returns the path of the summary:
    sorting is off, or the later reading of the clock puts the day on
    the same side of yesterday as the reading of the first run did. *)
Theorem written_day_is_done (w : World) (gateNow noteNow gateNow' noteNow' : Date)
    (dateStamp : string) (force : bool) :
  let wf := snd (processDateIfNeeded gateNow noteNow dateStamp force w) in
  writes (trace wf) <> writes (trace w) ->
  (sortDailyNotesAndSummaries (settings w) = true ->
   isDateStampBefore dateStamp (getYesterdayStamp gateNow')
   = isDateStampBefore dateStamp (getYesterdayStamp gateNow)) ->
  processDateIfNeeded gateNow' noteNow' dateStamp false wf = (inr tt, wf).
Proof.
  cbv zeta.
  destruct (processDate_outcome w gateNow noteNow dateStamp force)
    as (wf & Hrun & [Hq | (raw & summary & w2 & _ & _ & Hfo & ->)]);
    rewrite Hrun; simpl.
  - intros Hneq. exfalso. apply Hneq, Hq.
  - intros _ Hside.
    destruct (after_request_fields _ _ _ Hfo)
      as ((F1 & F2 & _) & _ & _).
    set (out := getSummaryPath (settings w) gateNow dateStamp).
    set (text := writtenContent dateStamp summary).
    destruct (persisted_fields dateStamp out text w2)
      as (P1 & P2 & P3 & _).
    assert (Hpath : getSummaryPath (settings w) gateNow' dateStamp = out).
    { unfold out, getSummaryPath.
      destruct (sortDailyNotesAndSummaries (settings w)); [|reflexivity].
      now rewrite Hside. }
    rewrite processDateIfNeeded_unfold.
    assert (Hgate : gateOpen (persisted dateStamp out text w2) gateNow'
                      dateStamp false = false).
    { unfold gateOpen. rewrite P3, getSummaryPath_marker, F2, Hpath.
      cbn [orb]. rewrite (vault_exists_file _ out text); [reflexivity|].
      rewrite P1. apply lookup_insert_eq. }
    now rewrite Hgate.
Qed.

Lemma written_day_is_done_witness :
  let w := noteWorld true (fun _ => inr (okResponse "Summary text")) in
  let wf := snd (processDateIfNeeded (mkDate 2026 1 20 0) (mkDate 2026 1 20 0)
                   "2026-02-20" true w) in
  processDateIfNeeded lateEvening nextMidnight "2026-02-20" false wf = (inr tt, wf).
Proof.
  intros w wf.
  apply (written_day_is_done w (mkDate 2026 1 20 0) (mkDate 2026 1 20 0)
           lateEvening nextMidnight "2026-02-20" true).
  - vm_compute. discriminate.
  - intros _. reflexivity.
Defined.

(** With sorting on, once the day lies before yesterday, [getSummaryPath]
    looks under the year and the month: a summary that still lies
    directly in the output folder does not close the gate. *)
Example written_day_is_redone :
  let w := noteWorld true (fun _ => inr (okResponse "Summary text")) in
  let wf := snd (processDateIfNeeded (mkDate 2026 1 20 0) (mkDate 2026 1 20 0)
                   "2026-02-20" true w) in
  List.map fst (writes (trace wf)) = ["Daily Summaries/2026-02-20_summary.md"]
  /\ gateOpen wf lateEvening "2026-02-20" false = false
  /\ gateOpen wf nextMidnight "2026-02-20" false = true.
Proof. vm_compute. repeat split. Qed.

Lemma requests_emit_other (e : Event) (w : World) :
  match e with Requested _ => False | _ => True end ->
  requests (trace (emit e w)) = requests (trace w).
Proof.
  intros He. unfold requests. simpl. rewrite omap_app.
  destruct e; try contradiction; simpl; apply app_nil_r.
Qed.

Lemma persistSummary_requests (dateStamp outputPath summary : string) (w : World) :
  requests (trace (snd (persistSummary dateStamp outputPath summary w)))
  = requests (trace w).
Proof.
  rewrite persistSummary_unfold.
  destruct (negb (Js.truthy summary)); [now apply requests_emit_other|].
  pose proof (ensureFolderExists_folders_only (outputFolder (settings w)) w) as H1.
  destruct (ensureFolderExists (outputFolder (settings w)) w) as [[e|[]] w1];
    simpl in H1.
  { simpl. now apply folders_only_requests. }
  pose proof (ensureFolderExists_folders_only (parentPath outputPath) w1) as H2.
  destruct (ensureFolderExists (parentPath outputPath) w1) as [[e|[]] w2];
    simpl in H2; cbn [snd].
  - rewrite (folders_only_requests _ _ H2).
    now apply folders_only_requests.
  - destruct (persisted_fields dateStamp outputPath
                (writtenContent dateStamp summary) w2)
      as (_ & _ & _ & _ & _ & _ & _ & _ & ->).
    rewrite (folders_only_requests _ _ H2).
    now apply folders_only_requests.
Qed.

(** X15: a run of the day processor issues at most one request, and
    exactly when the gate is open, the note file is there with at least
    20 characters after trimming, and the endpoint is not blank; the
    request carries the trimmed note. *)
Theorem day_processor_requests (w : World) (gateNow noteNow : Date)
    (dateStamp : string) (force : bool) :
  requests (trace (snd (processDateIfNeeded gateNow noteNow dateStamp force w)))
  = requests (trace w) ++ expectedRequests w gateNow noteNow dateStamp force.
Proof.
  rewrite processDateIfNeeded_unfold. unfold expectedRequests.
  destruct (gateOpen w gateNow dateStamp force); [|simpl; now rewrite app_nil_r].
  set (out := getSummaryPath (settings w) gateNow dateStamp).
  assert (Hcatch : forall (b : (Error + unit) * World),
    requests (trace (snd (match b with
                          | (inr _, w') => (@inr Error unit tt, w')
                          | (inl e, w') =>
                              (@inr Error unit tt,
                               emit (Noticed ("Daily summary failed: " +:+ message e))
                                 (emit (ConsoleError "Failed to generate daily summary")
                                    w'))
                          end)))
    = requests (trace (snd b))).
  { intros [[e|[]] w']; cbn [snd]; [|reflexivity].
    now rewrite !requests_emit_other by exact I. }
  rewrite Hcatch, processBody_unfold. cbv zeta.
  destruct (vault_exists _ _) eqn:Hex; simpl negb; cbv iota.
  2:{ assert (Hnone : files (vault w)
                        !! getDailyNotePath (settings w) noteNow dateStamp = None).
      { destruct (files (vault w) !! _) as [raw|] eqn:Hraw; [|reflexivity].
        rewrite (vault_exists_file _ _ _ Hraw) in Hex. discriminate. }
      rewrite Hnone. simpl. rewrite app_nil_r.
      destruct force; [now apply requests_emit_other | reflexivity]. }
  destruct (files (vault w) !! _) as [raw|]; [|simpl; now rewrite app_nil_r].
  destruct (Nat.ltb_spec (String.length (Js.trim raw)) 20) as [Hlt|Hge].
  { rewrite (proj2 (Nat.leb_gt _ _) Hlt). simpl. rewrite app_nil_r.
    destruct force; [now apply requests_emit_other | reflexivity]. }
  rewrite (proj2 (Nat.leb_le _ _) Hge). simpl andb.
  set (msgs := buildMessages (settings w) dateStamp (Js.trim raw)).
  destruct (callLlm msgs w) as [[e|summary] w1] eqn:E.
  - simpl. revert E. rewrite callLlm_unfold.
    destruct (Js.truthy _); simpl.
    + destruct (requestUrl w _) as [e'|resp].
      { intros [= _ <-]. unfold requests. simpl. now rewrite omap_app. }
      destruct (negb _).
      { intros [= _ <-]. unfold requests. simpl. now rewrite omap_app. }
      destruct (responseContent resp); intros [= _ <-] || discriminate;
        unfold requests; simpl; now rewrite omap_app.
    + intros [= _ <-]. now rewrite app_nil_r.
  - rewrite persistSummary_requests.
    pose proof (callLlm_success_world _ _ _ _ E) as ->.
    revert E. rewrite callLlm_unfold.
    destruct (Js.truthy _); simpl; [|discriminate].
    intros _. unfold requests. simpl. now rewrite omap_app.
Qed.

(** X16: when the client returns the empty string, the run ends with
    the notice of an empty summary and persists nothing. *)
Theorem empty_summary_is_dropped (w w1 : World) (gateNow noteNow : Date)
    (dateStamp : string) (force : bool) (raw : string) :
  gateOpen w gateNow dateStamp force = true ->
  files (vault w) !! getDailyNotePath (settings w) noteNow dateStamp = Some raw ->
  (20 <= String.length (Js.trim raw))%nat ->
  callLlm (buildMessages (settings w) dateStamp (Js.trim raw)) w = (inr "", w1) ->
  processDateIfNeeded gateNow noteNow dateStamp force w
  = (inr tt, emit (Noticed "LLM returned an empty summary") w1)
  /\ unpersisted w w1.
Proof.
  intros Hgate Hraw Hlen Hcall. split.
  - rewrite processDateIfNeeded_unfold, Hgate, processBody_unfold. cbv zeta.
    rewrite (vault_exists_file _ _ _ Hraw), Hraw. simpl negb. cbv iota.
    rewrite (proj2 (Nat.ltb_ge _ _) Hlen), Hcall, persistSummary_unfold.
    reflexivity.
  - pose proof (callLlm_unpersisted
                  (buildMessages (settings w) dateStamp (Js.trim raw)) w) as H.
    now rewrite Hcall in H.
Qed.

Lemma empty_summary_is_dropped_witness :
  processDateIfNeeded exampleNow exampleNow "2026-02-20" false (digestWorld "")
  = (inr tt,
     emit (Noticed "LLM returned an empty summary")
       (emit (Requested
                (llmRequest (settings (digestWorld ""))
                   (buildMessages (settings (digestWorld "")) "2026-02-20"
                      "A note with 25 characters")))
          (digestWorld "")))
  /\ unpersisted (digestWorld "")
       (emit (Requested
                (llmRequest (settings (digestWorld ""))
                   (buildMessages (settings (digestWorld "")) "2026-02-20"
                      "A note with 25 characters")))
          (digestWorld "")).
Proof.
  apply (empty_summary_is_dropped (digestWorld "") _ exampleNow exampleNow
           "2026-02-20" false
           "  A note with 25 characters  ").
  - vm_compute. reflexivity.
  - vm_compute. reflexivity.
  - vm_compute. lia.
  - vm_compute. reflexivity.
Defined.

(** ** The archivist only relocates *)

Lemma relocated_nil (v v' : Vault) : files v' = files v -> relocated [] v v'.
Proof. intros H. split; intros p text Hp; left; congruence. Qed.

Section Content.
Variable decode : string -> option string.
Variable skips : string -> bool.
Variable target : string -> string.
Variable folderOf : string -> string.
Variable base : string.

Local Abbreviation plan := (plan decode skips target folderOf).
Local Abbreviation passLoop := (passLoop decode skips target folderOf).
Local Abbreviation runPass := (runPass base decode skips target folderOf).

Hypothesis target_elsewhere :
  forall f dir t, plan f = Some (dir, t) -> parentPath t <> base.

(** Whatever its outcome, a loop only relocates: every rename carries
    out the plan of a listed file, and no text is lost, changed or
    made up. *)
Lemma passLoop_relocates (listing : list string) (w w' : World) (r : Error + unit) :
  (forall f, In f listing -> parentPath f = base) ->
  passLoop listing w = (r, w') ->
  exists moved,
    renames (trace w') = renames (trace w) ++ moved
    /\ Forall (fun ft => In (fst ft) listing
                         /\ exists dir, plan (fst ft) = Some (dir, snd ft)) moved
    /\ relocated moved (vault w) (vault w').
Proof.
  revert w. induction listing as [|f rest IH]; intros w Hl.
  - intros [= _ <-]. exists []. rewrite app_nil_r.
    split; [reflexivity|]. split; [constructor | now apply relocated_nil].
  - assert (Hl' : forall g, In g rest -> parentPath g = base).
    { intros g Hg. apply Hl. now right. }
    assert (Hweaken : forall moved : list (string * string),
              Forall (fun ft => In (fst ft) rest
                                /\ exists dir, plan (fst ft) = Some (dir, snd ft)) moved ->
              Forall (fun ft => In (fst ft) (f :: rest)
                                /\ exists dir, plan (fst ft) = Some (dir, snd ft)) moved).
    { intros moved Hm. eapply Forall_impl; [exact Hm|].
      intros ft [Hin Hp]. split; [now right | exact Hp]. }
    simpl. destruct (plan f) as [[dir t]|] eqn:Hplan.
    2:{ intros H. destruct (IH w Hl' H) as (moved & Hm & Hall & Hrel).
        exists moved. auto. }
    unfold bind at 1.
    pose proof (ensureFolderExists_folders_only dir w) as H1.
    destruct (ensureFolderExists dir w) as [[e|[]] w1]; simpl in H1.
    { intros [= _ <-]. exists []. rewrite app_nil_r.
      split; [now apply folders_only_renames|]. split; [constructor|].
      apply relocated_nil, H1. }
    unfold bind at 1. unfold adapter_rename at 1.
    destruct H1 as (Hsame & _ & _ & _ & created & Htrace).
    destruct (files (vault w1) !! f) as [text|] eqn:Hf.
    2:{ intros [= _ <-]. exists []. rewrite app_nil_r. split.
        - rewrite Htrace. unfold renames. rewrite omap_app.
          fold (renames (List.map CreatedFolder created)).
          rewrite renames_created. apply app_nil_r.
        - split; [constructor | now apply relocated_nil]. }
    destruct (vault_exists (vault w1) t) eqn:Hex.
    { intros [= _ <-]. exists []. rewrite app_nil_r. split.
      - rewrite Htrace. unfold renames. rewrite omap_app.
        fold (renames (List.map CreatedFolder created)).
        rewrite renames_created. apply app_nil_r.
      - split; [constructor | now apply relocated_nil]. }
    assert (Ht : files (vault w1) !! t = None).
    { destruct (files (vault w1) !! t) as [x|] eqn:E; [|reflexivity].
      rewrite (vault_exists_file _ _ _ E) in Hex. discriminate. }
    assert (Hft : f <> t).
    { intros ->. congruence. }
    intros H. apply IH in H; [|exact Hl'].
    destruct H as (moved & Hm & Hall & Hkeep & Hback). simpl in Hm, Hkeep, Hback.
    assert (Hsrc : forall x y, In (x, y) moved -> x <> t).
    { intros x y Hin ->. rewrite List.Forall_forall in Hall.
      destruct (Hall _ Hin) as [Hin' _]. simpl in Hin'.
      apply Hl' in Hin'. now apply (target_elsewhere _ _ _ Hplan). }
    exists ((f, t) :: moved). split; [|split; [|split]].
    + rewrite Hm. unfold renames at 1. rewrite omap_app. simpl.
      fold (renames (trace w1)). rewrite Htrace. unfold renames at 1.
      rewrite omap_app. fold (renames (List.map CreatedFolder created)).
      rewrite renames_created, app_nil_r. fold (renames (trace w)).
      now rewrite <- app_assoc.
    + constructor; [|now apply Hweaken].
      simpl. split; [now left | now exists dir].
    + intros p txt Hp. rewrite <- Hsame in Hp.
      destruct (decide (p = f)) as [->|Hpf].
      * assert (txt = text) by congruence. subst txt.
        destruct (Hkeep t text) as [Hstay | (t' & Hin & _)].
        { apply lookup_insert_eq. }
        -- right. exists t. split; [now left | exact Hstay].
        -- exfalso. now apply (Hsrc t t').
      * assert (Hpt : p <> t) by (intros ->; congruence).
        destruct (Hkeep p txt) as [Hstay | (t' & Hin & Hthere)].
        { rewrite lookup_insert_ne by congruence.
          now rewrite lookup_delete_ne by congruence. }
        -- now left.
        -- right. exists t'. split; [now right | exact Hthere].
    + intros q txt Hq. rewrite <- Hsame.
      destruct (Hback q txt Hq) as [Hin | (p & Hin & Hp)].
      * destruct (decide (q = t)) as [->|Hqt].
        -- rewrite lookup_insert_eq in Hin. injection Hin as <-.
           right. exists f. split; [now left | exact Hf].
        -- rewrite lookup_insert_ne in Hin by congruence.
           destruct (decide (q = f)) as [->|Hqf].
           { now rewrite lookup_delete_eq in Hin. }
           rewrite lookup_delete_ne in Hin by congruence. now left.
      * assert (Hpt : p <> t) by now apply (Hsrc p q).
        rewrite lookup_insert_ne in Hp by congruence.
        destruct (decide (p = f)) as [->|Hpf].
        { now rewrite lookup_delete_eq in Hp. }
        rewrite lookup_delete_ne in Hp by congruence.
        right. exists p. split; [now right | exact Hp].
Qed.

Lemma runPass_relocates (w w' : World) (r : Error + unit) :
  runPass w = (r, w') ->
  exists moved,
    renames (trace w') = renames (trace w) ++ moved
    /\ Forall (fun ft => parentPath (fst ft) = base
                         /\ exists dir, plan (fst ft) = Some (dir, snd ft)) moved
    /\ relocated moved (vault w) (vault w').
Proof.
  unfold runPass.
  destruct (trivialBase base).
  { intros [= _ <-]. exists []. rewrite app_nil_r.
    split; [reflexivity|]. split; [constructor | now apply relocated_nil]. }
  destruct (negb _).
  { intros [= _ <-]. exists []. rewrite app_nil_r.
    split; [reflexivity|]. split; [constructor | now apply relocated_nil]. }
  intros H. apply passLoop_relocates in H.
  - destruct H as (moved & Hm & Hall & Hrel). exists moved.
    split; [exact Hm|]. split; [|exact Hrel].
    eapply Forall_impl; [exact Hall|]. intros ft [Hin Hp]. split; [|exact Hp].
    apply vault_list_In in Hin. tauto.
  - intros f Hf. apply vault_list_In in Hf. tauto.
Qed.

(** After a pass that ran to its end, a file that lay in the base with
    something planned is at its target. *)
Lemma runPass_moved (w w' : World) (p dir t text : string) :
  trivialBase base = false ->
  runPass w = (inr tt, w') ->
  files (vault w) !! p = Some text -> parentPath p = base ->
  plan p = Some (dir, t) ->
  files (vault w') !! t = Some text.
Proof.
  intros Htriv Hrun Hp Hpar Hplan.
  destruct (runPass_relocates w w' _ Hrun) as (moved & _ & Hall & Hkeep & _).
  destruct (Hkeep p text Hp) as [Hstay | (t' & Hin & Hthere)].
  - exfalso.
    destruct (runPass_settles base decode skips target folderOf target_elsewhere
                w w' Hrun) as [Ht | [[Hex ->] | Hs]].
    + congruence.
    + apply (missing_folder_no_children (vault w) base p); eauto.
      now apply trivialBase_false.
    + rewrite (Hs p) in Hplan; [discriminate | eauto | exact Hpar].
  - rewrite List.Forall_forall in Hall. destruct (Hall _ Hin) as [_ [dir' Hp']].
    simpl in Hp'. assert (t' = t) by congruence. now subst t'.
Qed.
End Content.

Lemma relocated_trans (m1 m2 : list (string * string)) (v1 v2 v3 : Vault) :
  relocated m1 v1 v2 -> relocated m2 v2 v3 ->
  (forall x t y, In (x, t) m1 -> In (t, y) m2 -> False) ->
  relocated (m1 ++ m2) v1 v3.
Proof.
  intros [K1 B1] [K2 B2] Hchain. split.
  - intros p text Hp. destruct (K1 p text Hp) as [H2 | (t & Hin & H2)].
    + destruct (K2 p text H2) as [H3 | (t & Hin & H3)]; [now left|].
      right. exists t. split; [apply in_or_app; now right | exact H3].
    + destruct (K2 t text H2) as [H3 | (y & Hin' & _)].
      * right. exists t. split; [apply in_or_app; now left | exact H3].
      * exfalso. eapply Hchain; eassumption.
  - intros q text Hq. destruct (B2 q text Hq) as [H2 | (p & Hin & H2)].
    + destruct (B1 q text H2) as [H1 | (p & Hin & H1)]; [now left|].
      right. exists p. split; [apply in_or_app; now left | exact H1].
    + destruct (B1 p text H2) as [H1 | (p0 & Hin' & _)].
      * right. exists p. split; [apply in_or_app; now right | exact H1].
      * exfalso. eapply Hchain; eassumption.
Qed.

Lemma note_name_is_no_summary (d : string) :
  DigitStamp d -> getSummaryDateStamp (d +:+ ".md") = None.
Proof.
  intros Hd. unfold getSummaryDateStamp.
  now rewrite (matchStampHead_digits d _ Hd).
Qed.

(** The summary pass plans nothing for a target of the note pass. *)
Lemma note_target_is_no_summary (todayStamp folder f dir t : string)
    (yesterdayStamp summaryBase : string) :
  notePlan todayStamp (normalizePath folder) f = Some (dir, t) ->
  summaryPlan yesterdayStamp summaryBase t = None.
Proof.
  intros H. apply notePlan_inv in H. destruct H as (d & _ & Hd & _ & -> & _).
  destruct (target_shape (normalizePath folder) d ".md") as [Hname _];
    [apply normalizePath_wellSeparated | exact Hd | exact md_segment |].
  unfold summaryPlan, plan. unfold noteTargetPath. rewrite Hname.
  now rewrite (note_name_is_no_summary d Hd).
Qed.

(** The two passes in a row, whatever their outcome. *)
Lemma archivist_relocates (w : World) (todayStamp yesterdayStamp : string) :
  exists movedNotes movedSummaries,
    renames (trace (snd (sortDailyNotesAndSummaries_run todayStamp yesterdayStamp w)))
    = renames (trace w) ++ movedNotes ++ movedSummaries
    /\ Forall (fun ft => exists dir,
                 notePlan todayStamp (normalizePath (dailyNotesFolder (settings w)))
                   (fst ft) = Some (dir, snd ft)) movedNotes
    /\ Forall (fun ft => exists dir,
                 summaryPlan yesterdayStamp (normalizePath (outputFolder (settings w)))
                   (fst ft) = Some (dir, snd ft)) movedSummaries
    /\ relocated (movedNotes ++ movedSummaries) (vault w)
         (vault (snd (sortDailyNotesAndSummaries_run todayStamp yesterdayStamp w))).
Proof.
  unfold sortDailyNotesAndSummaries_run, bind.
  destruct (sortDailyNotes todayStamp w) as [[e|[]] wA] eqn:EN.
  - rewrite sortDailyNotes_runPass in EN.
    destruct (runPass_relocates _ _ _ _ _ (note_target_elsewhere todayStamp _)
                _ _ _ EN) as (m1 & Hm1 & Hall1 & Hrel1).
    exists m1, []. simpl. rewrite !app_nil_r.
    split; [exact Hm1|]. split; [|split; [constructor | exact Hrel1]].
    eapply Forall_impl; [exact Hall1|]. intros ft [_ Hp]. exact Hp.
  - rewrite sortDailyNotes_runPass in EN.
    destruct (runPass_relocates _ _ _ _ _ (note_target_elsewhere todayStamp _)
                _ _ _ EN) as (m1 & Hm1 & Hall1 & Hrel1).
    pose proof (runPass_files_any _ _ _ _ _ _ _ _ EN) as [HsetA _].
    destruct (sortSummaries yesterdayStamp wA) as [r wB] eqn:ES.
    rewrite sortSummaries_runPass, HsetA in ES.
    destruct (runPass_relocates _ _ _ _ _ (summary_target_elsewhere yesterdayStamp _)
                _ _ _ ES) as (m2 & Hm2 & Hall2 & Hrel2).
    exists m1, m2. simpl.
    assert (H1 : Forall (fun ft => exists dir,
                 notePlan todayStamp (normalizePath (dailyNotesFolder (settings w)))
                   (fst ft) = Some (dir, snd ft)) m1).
    { eapply Forall_impl; [exact Hall1|]. intros ft [_ Hp]. exact Hp. }
    assert (H2 : Forall (fun ft => exists dir,
                 summaryPlan yesterdayStamp (normalizePath (outputFolder (settings w)))
                   (fst ft) = Some (dir, snd ft)) m2).
    { eapply Forall_impl; [exact Hall2|]. intros ft [_ Hp]. exact Hp. }
    split; [rewrite Hm2, Hm1; now rewrite <- app_assoc|].
    split; [exact H1|]. split; [exact H2|].
    apply (relocated_trans m1 m2 _ (vault wA)); [exact Hrel1 | exact Hrel2 |].
    intros x t y Hin1 Hin2.
    rewrite List.Forall_forall in H1, H2.
    destruct (H1 _ Hin1) as [dir1 Hp1]. destruct (H2 _ Hin2) as [dir2 Hp2].
    simpl in Hp1, Hp2.
    rewrite (note_target_is_no_summary _ _ _ _ _ yesterdayStamp
               (normalizePath (outputFolder (settings w))) Hp1) in Hp2.
    discriminate.
Qed.

(** *** Moves *)

Lemma movedBy_app (m1 m2 : list (string * string)) (a b c : gmap string string) :
  movedBy m1 a b -> movedBy m2 b c -> movedBy (m1 ++ m2) a c.
Proof.
  intros H1 H2. induction H1 as [m|p t text rest m m' Hp Ht _ IH]; [exact H2|].
  simpl. econstructor; eauto.
Qed.

(** A path that is free and no target stays free. *)
Lemma movedBy_none (moved : list (string * string)) (m m' : gmap string string)
    (q : string) :
  movedBy moved m m' -> m !! q = None ->
  (forall x y, In (x, y) moved -> y <> q) -> m' !! q = None.
Proof.
  intros H. induction H as [m|p t text rest m m' Hp Ht _ IH]; intros Hq Hnot;
    [exact Hq|].
  apply IH.
  - rewrite lookup_insert_ne by (apply (Hnot p t); now left).
    destruct (decide (p = q)) as [->|Hpq]; [apply lookup_delete_eq|].
    now rewrite lookup_delete_ne.
  - intros x y Hin. apply (Hnot x y). now right.
Qed.

(** When no target is a source, every target was free at the start and
    every source is free at the end. *)
Lemma movedBy_ends (moved : list (string * string)) (m m' : gmap string string) :
  movedBy moved m m' ->
  (forall p t p' t', In (p, t) moved -> In (p', t') moved -> t <> p') ->
  forall p t, In (p, t) moved -> m !! t = None /\ m' !! p = None.
Proof.
  intros H. induction H as [m|p0 t0 text rest m m' Hp Ht Hrest IH];
    intros Hdis p t Hin; [contradiction|].
  assert (Hdis' : forall p t p' t', In (p, t) rest -> In (p', t') rest -> t <> p').
  { intros a b c d Ha Hc. apply (Hdis a b c d); now right. }
  destruct Hin as [[= -> ->] | Hin].
  - split; [exact Ht|].
    apply (movedBy_none rest _ _ p Hrest).
    + rewrite lookup_insert_ne by (apply (Hdis p t p t); now left).
      apply lookup_delete_eq.
    + intros x y Hxy. apply (Hdis x y p t); [now right | now left].
  - destruct (IH Hdis' p t Hin) as [Hfree Hgone]. split; [|exact Hgone].
    assert (Htp : t <> p0) by (apply (Hdis p t p0 t0); [now right | now left]).
    destruct (decide (t = t0)) as [->|Hne].
    + now rewrite lookup_insert_eq in Hfree.
    + rewrite lookup_insert_ne in Hfree by congruence.
      now rewrite lookup_delete_ne in Hfree by congruence.
Qed.

(** Moves keep the texts, each as often as it occurs. *)
Lemma movedBy_texts (moved : list (string * string)) (m m' : gmap string string) :
  movedBy moved m m' -> (map_to_list m').*2 ≡ₚ (map_to_list m).*2.
Proof.
  intros H. induction H as [m|p t text rest m m' Hp Ht _ IH]; [reflexivity|].
  rewrite IH.
  assert (Hfree : delete p m !! t = None).
  { destruct (decide (p = t)) as [->|Hne]; [apply lookup_delete_eq|].
    now rewrite lookup_delete_ne. }
  rewrite (map_to_list_insert _ _ _ Hfree).
  rewrite <- (map_to_list_delete m p text Hp). reflexivity.
Qed.

Section Moves.
Variable decode : string -> option string.
Variable skips : string -> bool.
Variable target : string -> string.
Variable folderOf : string -> string.

(** Whatever its outcome, a loop changes the files by its renames and by
    nothing else, and each rename is a move. *)
Lemma passLoop_movedBy (listing : list string) (w w' : World) (r : Error + unit) :
  passLoop decode skips target folderOf listing w = (r, w') ->
  exists moved,
    renames (trace w') = renames (trace w) ++ moved
    /\ movedBy moved (files (vault w)) (files (vault w')).
Proof.
  revert w. induction listing as [|f rest IH]; intros w.
  - intros [= _ <-]. exists []. rewrite app_nil_r. split; [reflexivity | constructor].
  - simpl. destruct (plan decode skips target folderOf f) as [[dir t]|]; [|apply IH].
    unfold bind at 1.
    pose proof (ensureFolderExists_folders_only dir w) as H1.
    destruct (ensureFolderExists dir w) as [[e|[]] w1]; simpl in H1;
      pose proof (folders_only_renames _ _ H1) as Hren;
      destruct H1 as (Hsame & _).
    { intros [= _ <-]. exists []. rewrite app_nil_r, Hsame.
      split; [exact Hren | constructor]. }
    unfold bind at 1. unfold adapter_rename at 1.
    destruct (files (vault w1) !! f) as [text|] eqn:Hf.
    2:{ intros [= _ <-]. exists []. rewrite app_nil_r, Hsame.
        split; [exact Hren | constructor]. }
    destruct (vault_exists (vault w1) t) eqn:Hex.
    { intros [= _ <-]. exists []. rewrite app_nil_r, Hsame.
      split; [exact Hren | constructor]. }
    assert (Ht : files (vault w1) !! t = None).
    { destruct (files (vault w1) !! t) as [x|] eqn:E; [|reflexivity].
      rewrite (vault_exists_file _ _ _ E) in Hex. discriminate. }
    intros H. apply IH in H. destruct H as (moved & Hm & Hmoves).
    simpl in Hm, Hmoves. exists ((f, t) :: moved). split.
    + rewrite Hm. unfold renames at 1. rewrite omap_app. simpl.
      fold (renames (trace w1)). rewrite Hren. now rewrite <- app_assoc.
    + rewrite <- Hsame. econstructor; eassumption.
Qed.

Lemma runPass_movedBy (base : string) (w w' : World) (r : Error + unit) :
  runPass base decode skips target folderOf w = (r, w') ->
  exists moved,
    renames (trace w') = renames (trace w) ++ moved
    /\ movedBy moved (files (vault w)) (files (vault w')).
Proof.
  unfold runPass.
  destruct (trivialBase base).
  { intros [= _ <-]. exists []. rewrite app_nil_r. split; [reflexivity | constructor]. }
  destruct (negb _).
  { intros [= _ <-]. exists []. rewrite app_nil_r. split; [reflexivity | constructor]. }
  apply passLoop_movedBy.
Qed.
End Moves.

(** The files of a run of the archivist: those of the start, changed by
    the renames of the run as moves, in their order. *)
Lemma archivist_movedBy (w : World) (todayStamp yesterdayStamp : string) :
  exists moved,
    renames (trace (snd (sortDailyNotesAndSummaries_run todayStamp yesterdayStamp w)))
    = renames (trace w) ++ moved
    /\ movedBy moved (files (vault w))
         (files (vault (snd (sortDailyNotesAndSummaries_run
                               todayStamp yesterdayStamp w)))).
Proof.
  unfold sortDailyNotesAndSummaries_run, bind.
  destruct (sortDailyNotes todayStamp w) as [[e|[]] wA] eqn:EN;
    rewrite sortDailyNotes_runPass in EN;
    destruct (runPass_movedBy _ _ _ _ _ _ _ _ EN) as (m1 & Hm1 & Hmoves1).
  - exists m1. auto.
  - destruct (sortSummaries yesterdayStamp wA) as [r wB] eqn:ES.
    rewrite sortSummaries_runPass in ES.
    destruct (runPass_movedBy _ _ _ _ _ _ _ _ ES) as (m2 & Hm2 & Hmoves2).
    exists (m1 ++ m2). cbn [snd]. split.
    + rewrite Hm2, Hm1. now rewrite <- app_assoc.
    + eapply movedBy_app; eassumption.
Qed.

(** Nothing is planned for a target: a file at its target is where the
    pass wants it. *)
Lemma note_target_settled (todayStamp folder f dir t : string) :
  notePlan todayStamp (normalizePath folder) f = Some (dir, t) ->
  notePlan todayStamp (normalizePath folder) t = None.
Proof.
  intros H. apply notePlan_inv in H. destruct H as (d & _ & Hd & Hne & -> & _).
  destruct (target_shape (normalizePath folder) d ".md") as [Hname _];
    [apply normalizePath_wellSeparated | exact Hd | exact md_segment |].
  unfold notePlan, plan. unfold noteTargetPath at 1. rewrite Hname.
  unfold getDailyNoteDateStamp. rewrite (matchStampHead_digits d _ Hd).
  simpl String.eqb. cbv iota.
  destruct (noteSkips todayStamp d); [reflexivity|].
  now rewrite String.eqb_refl.
Qed.

Lemma summary_target_settled (yesterdayStamp folder f dir t : string) :
  summaryPlan yesterdayStamp (normalizePath folder) f = Some (dir, t) ->
  summaryPlan yesterdayStamp (normalizePath folder) t = None.
Proof.
  intros H. apply summaryPlan_inv in H. destruct H as (d & _ & Hd & Hb & -> & _).
  destruct (target_shape (normalizePath folder) d "_summary.md") as [Hname _];
    [apply normalizePath_wellSeparated | exact Hd | exact summary_md_segment |].
  unfold summaryPlan, plan. unfold summaryTargetPath at 1. rewrite Hname.
  unfold getSummaryDateStamp. rewrite (matchStampHead_digits d _ Hd).
  simpl String.eqb. cbv iota.
  destruct (summarySkips yesterdayStamp d); [reflexivity|].
  now rewrite String.eqb_refl.
Qed.

(** X17: a run of the archivist, whatever its outcome, only relocates
    files.  The files after the run are those of the start changed by
    the renames of the run, each a move: it takes the text at its source
    to its target, which is free, and leaves the source empty.  No
    target is the source of a rename, so every target was free at the
    start and every source is free at the end.  The texts after the run
    are the texts of the start, each as often as before: none is lost,
    changed, copied or overwritten; and each file is at its old path or
    at the target of the rename that took it. *)
Theorem archivist_only_relocates (w : World) (todayStamp yesterdayStamp : string) :
  let wf := snd (sortDailyNotesAndSummaries_run todayStamp yesterdayStamp w) in
  exists moved,
    renames (trace wf) = renames (trace w) ++ moved
    /\ movedBy moved (files (vault w)) (files (vault wf))
    /\ (forall p t, In (p, t) moved ->
          files (vault w) !! t = None /\ files (vault wf) !! p = None)
    /\ (map_to_list (files (vault wf))).*2 ≡ₚ (map_to_list (files (vault w))).*2
    /\ relocated moved (vault w) (vault wf).
Proof.
  cbv zeta.
  destruct (archivist_relocates w todayStamp yesterdayStamp)
    as (m1 & m2 & Hm & H1 & H2 & Hrel).
  destruct (archivist_movedBy w todayStamp yesterdayStamp) as (moved & Hm' & Hmoves).
  assert (moved = m1 ++ m2) as ->.
  { rewrite Hm in Hm'. now apply app_inv_head in Hm'. }
  exists (m1 ++ m2). split; [exact Hm|]. split; [exact Hmoves|].
  split; [|split; [now apply (movedBy_texts (m1 ++ m2)) | exact Hrel]].
  apply (movedBy_ends _ _ _ Hmoves).
  intros p t p' t' Hin Hin' ->.
  rewrite List.Forall_forall in H1, H2.
  set (baseN := normalizePath (dailyNotesFolder (settings w))) in *.
  set (baseS := normalizePath (outputFolder (settings w))) in *.
  assert (Hsettled : notePlan todayStamp baseN p' = None
                     /\ summaryPlan yesterdayStamp baseS p' = None).
  { apply in_app_or in Hin. destruct Hin as [Hin | Hin].
    - destruct (H1 _ Hin) as [dir Hp]. cbn [fst snd] in Hp. split.
      + exact (note_target_settled _ _ _ _ _ Hp).
      + exact (note_target_is_no_summary _ _ _ _ _ yesterdayStamp baseS Hp).
    - destruct (H2 _ Hin) as [dir Hp]. cbn [fst snd] in Hp. split.
      + exact (summary_target_is_no_note _ _ _ _ _ todayStamp baseN Hp).
      + exact (summary_target_settled _ _ _ _ _ Hp). }
  destruct Hsettled as [Hn Hs].
  apply in_app_or in Hin'. destruct Hin' as [Hin' | Hin'].
  - destruct (H1 _ Hin') as [dir Hp]. cbn [fst snd] in Hp. congruence.
  - destruct (H2 _ Hin') as [dir Hp]. cbn [fst snd] in Hp.
    unfold summaryPlan in Hs, Hp. congruence.
Qed.

(** The run on the example vault: two notes and one summary move. *)
Example archivist_moves_example :
  let wf := snd (sortDailyNotesAndSummaries_run "2026-02-21" "2026-02-20"
                   archiveWorld) in
  renames (trace wf)
  = [("Daily/2026-01-05.md", "Daily/2026/01/2026-01-05.md");
     ("Daily/2026-02-20.md", "Daily/2026/02/2026-02-20.md");
     ("Daily Summaries/2026-01-05_summary.md",
      "Daily Summaries/2026/01/2026-01-05_summary.md")]
  /\ List.length (map_to_list (files (vault wf))) = 6%nat.
Proof. vm_compute. split; reflexivity. Qed.

Lemma notePlan_flat (todayStamp base p d : string) :
  DigitStamp d -> wellSeparated base = true -> parentPath p = base ->
  Js.pop (Js.split "/" p) = d +:+ ".md" -> d <> todayStamp ->
  notePlan todayStamp base p
  = Some (monthFolder base d, noteTargetPath base d).
Proof.
  intros Hd Hbase Hpar Hname Hne. unfold notePlan, plan, noteSkips.
  rewrite Hname. unfold getDailyNoteDateStamp.
  rewrite (matchStampHead_digits d _ Hd). simpl String.eqb. cbv iota.
  assert (Htr : Js.truthy d = true) by (destruct Hd; reflexivity).
  rewrite Htr. simpl negb. simpl orb.
  destruct (String.eqb_spec d todayStamp) as [|_]; [contradiction|].
  destruct (String.eqb_spec p (noteTargetPath base d)) as [->|_]; [|reflexivity].
  exfalso. revert Hpar.
  apply (target_shape base d ".md" Hbase Hd md_segment).
Qed.

Lemma summaryPlan_flat (yesterdayStamp base p d : string) :
  DigitStamp d -> wellSeparated base = true -> parentPath p = base ->
  Js.pop (Js.split "/" p) = d +:+ "_summary.md" ->
  isDateStampBefore d yesterdayStamp = true ->
  summaryPlan yesterdayStamp base p
  = Some (monthFolder base d, summaryTargetPath base d).
Proof.
  intros Hd Hbase Hpar Hname Hbefore. unfold summaryPlan, plan, summarySkips.
  rewrite Hname. unfold getSummaryDateStamp.
  rewrite (matchStampHead_digits d _ Hd). simpl String.eqb. cbv iota.
  assert (Htr : Js.truthy d = true) by (destruct Hd; reflexivity).
  rewrite Htr, Hbefore. simpl negb. simpl orb.
  destruct (String.eqb_spec p (summaryTargetPath base d)) as [->|_]; [|reflexivity].
  exfalso. revert Hpar.
  apply (target_shape base d "_summary.md" Hbase Hd summary_md_segment).
Qed.

(** X18: with sorting on, after a run of the archivist that completed
    (with today's and yesterday's keys, as the entry points call it), a
    dated note other than today's and a dated summary older than
    yesterday, which lay directly in their base folders, are found with
    their text at the paths the resolvers return. *)
Theorem archived_files_are_found (w wf : World) (now : Date) (d p text : string) :
  sortDailyNotesAndSummaries (settings w) = true ->
  sortDailyNotesAndSummaries_run (getLocalDateStamp now)
    (getYesterdayStamp now) w = (inr tt, wf) ->
  canonicalKey d = true ->
  files (vault w) !! p = Some text ->
  (parentPath p = normalizePath (dailyNotesFolder (settings w)) ->
   trivialBase (normalizePath (dailyNotesFolder (settings w))) = false ->
   Js.pop (Js.split "/" p) = d +:+ ".md" ->
   d <> getLocalDateStamp now ->
   files (vault wf) !! getDailyNotePath (settings wf) now d = Some text)
  /\ (parentPath p = normalizePath (outputFolder (settings w)) ->
      trivialBase (normalizePath (outputFolder (settings w))) = false ->
      Js.pop (Js.split "/" p) = d +:+ "_summary.md" ->
      isDateStampBefore d (getYesterdayStamp now) = true ->
      files (vault wf) !! getSummaryPath (settings wf) now d = Some text).
Proof.
  intros Hsort Hrun Hc Hp. apply canonicalKey_iff in Hc.
  revert Hrun. unfold sortDailyNotesAndSummaries_run. unfold bind at 1.
  destruct (sortDailyNotes (getLocalDateStamp now) w) as [[e|[]] wA] eqn:EN;
    [discriminate|].
  intros ES.
  rewrite sortDailyNotes_runPass in EN.
  rewrite sortSummaries_runPass in ES.
  pose proof (runPass_files_any _ _ _ _ _ _ _ _ EN) as [HsetA _].
  pose proof (runPass_files_any _ _ _ _ _ _ _ _ ES) as [HsetB _].
  rewrite HsetA in ES.
  set (baseN := normalizePath (dailyNotesFolder (settings w))) in *.
  set (baseS := normalizePath (outputFolder (settings w))) in *.
  set (today := getLocalDateStamp now) in *.
  set (yesterday := getYesterdayStamp now) in *.
  destruct (runPass_relocates _ _ _ _ _ (note_target_elsewhere today _)
              _ _ _ EN) as (m1 & _ & Hall1 & Hkeep1 & _).
  destruct (runPass_relocates _ _ _ _ _ (summary_target_elsewhere yesterday _)
              _ _ _ ES) as (m2 & _ & Hall2 & Hkeep2 & _).
  rewrite List.Forall_forall in Hall1, Hall2.
  split.
  - intros Hpar Htriv Hname Hne.
    pose proof (notePlan_flat today baseN p d Hc
                  (normalizePath_wellSeparated _) Hpar Hname Hne) as Hplan.
    assert (HA : files (vault wA) !! noteTargetPath baseN d = Some text).
    { apply (runPass_moved _ _ _ _ _ (note_target_elsewhere today _)
               w wA p _ _ text Htriv EN Hp Hpar Hplan). }
    assert (Hpath : getDailyNotePath (settings wf) now d
                    = noteTargetPath baseN d).
    { rewrite HsetB, HsetA.
      unfold getDailyNotePath, noteTargetPath. fold today. rewrite Hsort.
      destruct (String.eqb_spec d today) as [|_]; [contradiction|]. simpl.
      symmetry. apply normalizePath_prefix. }
    rewrite Hpath.
    destruct (Hkeep2 _ text HA) as [Hstay | (y & Hin & _)]; [exact Hstay|].
    exfalso. destruct (Hall2 _ Hin) as [_ [dir Hp2]]. simpl in Hp2.
    pose proof (note_target_is_no_summary _ _ _ _ _ yesterday baseS Hplan) as Hn.
    unfold summaryPlan in Hn. fold baseS in Hp2. congruence.
  - intros Hpar Htriv Hname Hbefore.
    pose proof (summaryPlan_flat yesterday baseS p d Hc
                  (normalizePath_wellSeparated _) Hpar Hname Hbefore) as Hplan.
    assert (HA : files (vault wA) !! p = Some text).
    { destruct (Hkeep1 p text Hp) as [Hstay | (y & Hin & _)]; [exact Hstay|].
      exfalso. destruct (Hall1 _ Hin) as [_ [dir Hp1]]. simpl in Hp1.
      apply notePlan_inv in Hp1. destruct Hp1 as (d' & Hd' & _).
      rewrite Hname, (summary_name_is_no_note d Hc) in Hd'. discriminate. }
    assert (Hpath : getSummaryPath (settings wf) now d
                    = summaryTargetPath baseS d).
    { rewrite HsetB, HsetA.
      unfold getSummaryPath, summaryTargetPath. fold yesterday.
      rewrite Hsort, Hbefore. simpl.
      symmetry. apply normalizePath_prefix. }
    rewrite Hpath.
    apply (runPass_moved _ _ _ _ _ (summary_target_elsewhere yesterday _)
             wA wf p _ _ text Htriv ES HA Hpar Hplan).
Qed.

Lemma archived_files_are_found_witness :
  let wf := snd (sortDailyNotesAndSummaries_run "2026-02-21" "2026-02-20" archiveWorld) in
  files (vault wf) !! getDailyNotePath (settings wf) exampleNow "2026-01-05"
  = Some "n4"
  /\ files (vault wf) !! getSummaryPath (settings wf) exampleNow "2026-01-05"
     = Some "s1".
Proof.
  intros wf. split.
  - apply (proj1 (archived_files_are_found archiveWorld wf exampleNow "2026-01-05"
                    "Daily/2026-01-05.md" "n4" eq_refl
                    ltac:(vm_compute; reflexivity) eq_refl
                    ltac:(vm_compute; reflexivity)));
      try reflexivity. discriminate.
  - apply (proj2 (archived_files_are_found archiveWorld wf exampleNow "2026-01-05"
                    "Daily Summaries/2026-01-05_summary.md" "s1" eq_refl
                    ltac:(vm_compute; reflexivity) eq_refl
                    ltac:(vm_compute; reflexivity)));
      reflexivity.
Defined.

(** ** Archived summaries stay reachable *)

(** The target of the summary pass for a day before yesterday is the
    path of the resolver. *)
Lemma summaryTargetPath_resolver (s : DailyNotesDigestSettings) (gateNow : Date)
    (day : string) :
  sortDailyNotesAndSummaries s = true ->
  isDateStampBefore day (getYesterdayStamp gateNow) = true ->
  summaryTargetPath (normalizePath (outputFolder s)) day = getSummaryPath s gateNow day.
Proof.
  intros Hsort Hbefore. unfold summaryTargetPath, getSummaryPath.
  rewrite Hsort, Hbefore. simpl. apply normalizePath_prefix.
Qed.

(** C10: with sorting enabled, for a canonical day key strictly before
    yesterday's key, the summary pass decodes that key from the day's
    summary file name and the target it computes under the normalized
    output folder is the path [getSummaryPath] returns.  A run of
    [sortSummaries], whatever its outcome, renames only summary files of
    canonical day keys strictly before the yesterday's key it was given,
    and the target of each rename is the path [getSummaryPath] returns
    for that key whenever it reads the clock on a day for which the key
    lies before yesterday's.  And after a run that completed, the
    summary of such a day that lay directly in the output folder is
    found at that path with its text, so that the gate of the day
    processor closes: a run without force returns at once. *)
Theorem archived_summary_is_found (w : World) (yesterdayStamp : string) :
  sortDailyNotesAndSummaries (settings w) = true ->
  let wf := snd (sortSummaries yesterdayStamp w) in
  (forall (day : string) (gateNow : Date),
     canonicalKey day = true ->
     isDateStampBefore day (getYesterdayStamp gateNow) = true ->
     getSummaryDateStamp (day +:+ "_summary.md") = Some day
     /\ summaryTargetPath (normalizePath (outputFolder (settings w))) day
        = getSummaryPath (settings w) gateNow day)
  /\ (exists moved,
     renames (trace wf) = renames (trace w) ++ moved
     /\ Forall
          (fun ft =>
             exists day,
               getSummaryDateStamp (Js.pop (Js.split "/" (fst ft))) = Some day
               /\ canonicalKey day = true
               /\ isDateStampBefore day yesterdayStamp = true
               /\ forall gateNow,
                    isDateStampBefore day (getYesterdayStamp gateNow) = true ->
                    snd ft = getSummaryPath (settings w) gateNow day)
          moved)
  /\ forall (day p text : string) (gateNow noteNow : Date),
       fst (sortSummaries yesterdayStamp w) = inr tt ->
       canonicalKey day = true ->
       isDateStampBefore day yesterdayStamp = true ->
       isDateStampBefore day (getYesterdayStamp gateNow) = true ->
       trivialBase (normalizePath (outputFolder (settings w))) = false ->
       files (vault w) !! p = Some text ->
       parentPath p = normalizePath (outputFolder (settings w)) ->
       Js.pop (Js.split "/" p) = day +:+ "_summary.md" ->
       files (vault wf) !! getSummaryPath (settings wf) gateNow day = Some text
       /\ processDateIfNeeded gateNow noteNow day false wf = (inr tt, wf).
Proof.
  intros Hsort. cbv zeta.
  destruct (sortSummaries yesterdayStamp w) as [r wf] eqn:ES. cbn [fst snd].
  rewrite sortSummaries_runPass in ES.
  set (base := normalizePath (outputFolder (settings w))) in *.
  pose proof (runPass_files_any _ _ _ _ _ _ _ _ ES) as [Hset _].
  split; [|split].
  - intros day gateNow Hc Hgate. split.
    + unfold getSummaryDateStamp.
      now rewrite (matchStampHead_digits day _ (proj1 (canonicalKey_iff day) Hc)).
    + now apply summaryTargetPath_resolver.
  - destruct (runPass_relocates _ _ _ _ _ (summary_target_elsewhere yesterdayStamp _)
                _ _ _ ES) as (moved & Hm & Hall & _).
    exists moved. split; [exact Hm|].
    eapply Forall_impl; [exact Hall|]. intros [f t] [_ [dir Hplan]].
    cbn [fst snd] in *. apply summaryPlan_inv in Hplan.
    destruct Hplan as (day & Hday & Hdig & Hbefore & -> & _).
    exists day. split; [exact Hday|]. split; [now apply canonicalKey_iff|].
    split; [exact Hbefore|]. intros gateNow Hgate.
    now apply summaryTargetPath_resolver.
  - intros day p text gateNow noteNow -> Hc Hbefore Hgate Htriv Hp Hpar Hname.
    apply canonicalKey_iff in Hc.
    pose proof (summaryPlan_flat yesterdayStamp base p day Hc
                  (normalizePath_wellSeparated _) Hpar Hname Hbefore) as Hplan.
    assert (Hfile : files (vault wf) !! getSummaryPath (settings wf) gateNow day
                    = Some text).
    { rewrite Hset, <- (summaryTargetPath_resolver _ _ _ Hsort Hgate).
      apply (runPass_moved _ _ _ _ _ (summary_target_elsewhere yesterdayStamp _)
               w wf p _ _ text Htriv ES Hp Hpar Hplan). }
    split; [exact Hfile|].
    rewrite processDateIfNeeded_unfold. unfold gateOpen.
    now rewrite (vault_exists_file _ _ _ Hfile).
Qed.

Lemma archived_summary_is_found_witness :
  let wf := snd (sortSummaries "2026-02-20" archiveWorld) in
  files (vault wf) !! getSummaryPath (settings wf) exampleNow "2026-01-05" = Some "s1"
  /\ processDateIfNeeded exampleNow exampleNow "2026-01-05" false wf = (inr tt, wf).
Proof.
  intros wf.
  apply (proj2 (proj2 (archived_summary_is_found archiveWorld "2026-02-20" eq_refl))
           "2026-01-05" "Daily Summaries/2026-01-05_summary.md" "s1"
           exampleNow exampleNow);
    vm_compute; reflexivity.
Defined.

(** The run of the witness: one rename, to the path of the resolver. *)
Example archived_summary_run :
  renames (trace (snd (sortSummaries "2026-02-20" archiveWorld)))
  = [("Daily Summaries/2026-01-05_summary.md",
      getSummaryPath (exampleSettings true) exampleNow "2026-01-05")].
Proof. vm_compute. reflexivity. Qed.

(** ** Entry points *)

Lemma archivistOnly_refl (w : World) : archivistOnly w w.
Proof.
  unfold archivistOnly. repeat (split; [reflexivity|]).
  exists []. rewrite app_nil_r. split; [reflexivity | constructor].
Qed.

Lemma archivistOnly_trans (w1 w2 w3 : World) :
  archivistOnly w1 w2 -> archivistOnly w2 w3 -> archivistOnly w1 w3.
Proof.
  intros (A1 & A3 & l1 & Ht1 & Hl1) (B1 & B3 & l2 & Ht2 & Hl2).
  unfold archivistOnly. repeat (split; [congruence|]).
  exists (l1 ++ l2). split; [rewrite Ht2, Ht1; now rewrite <- app_assoc|].
  apply Forall_app. split; assumption.
Qed.

Lemma folders_only_archivistOnly (w w' : World) :
  folders_only w w' -> archivistOnly w w'.
Proof.
  intros (_ & H2 & H4 & _ & created & Ht).
  unfold archivistOnly. repeat (split; [assumption|]).
  exists (List.map CreatedFolder created). split; [exact Ht|].
  apply List.Forall_forall. intros e He. apply in_map_iff in He.
  destruct He as (p & <- & _). reflexivity.
Qed.

Lemma passLoop_archivistOnly (decode : string -> option string)
    (skips : string -> bool) (target folderOf : string -> string)
    (listing : list string) (w : World) :
  archivistOnly w (snd (passLoop decode skips target folderOf listing w)).
Proof.
  revert w. induction listing as [|f rest IH]; intros w; [apply archivistOnly_refl|].
  simpl. destruct (plan decode skips target folderOf f) as [[dir t]|]; [|apply IH].
  unfold bind at 1.
  pose proof (ensureFolderExists_folders_only dir w) as H1.
  apply folders_only_archivistOnly in H1.
  destruct (ensureFolderExists dir w) as [[e|[]] w1]; simpl in H1; [exact H1|].
  unfold bind at 1.
  destruct (rename_effect f t w1) as [[e He] | (text & Hf & He)]; rewrite He;
    [exact H1|].
  eapply archivistOnly_trans; [exact H1|].
  eapply archivistOnly_trans; [|apply IH].
  unfold archivistOnly. simpl. repeat (split; [reflexivity|]).
  exists [Renamed f t]. split; [reflexivity|]. now constructor.
Qed.

Lemma runPass_archivistOnly (base : string) (decode : string -> option string)
    (skips : string -> bool) (target folderOf : string -> string) (w : World) :
  archivistOnly w (snd (runPass base decode skips target folderOf w)).
Proof.
  unfold runPass. destruct (trivialBase base); [apply archivistOnly_refl|].
  destruct (negb _); [apply archivistOnly_refl|]. apply passLoop_archivistOnly.
Qed.

Lemma archivist_archivistOnly (todayStamp yesterdayStamp : string) (w : World) :
  archivistOnly w (snd (sortDailyNotesAndSummaries_run todayStamp yesterdayStamp w)).
Proof.
  unfold sortDailyNotesAndSummaries_run, bind.
  pose proof (runPass_archivistOnly (normalizePath (dailyNotesFolder (settings w)))
                getDailyNoteDateStamp (noteSkips todayStamp)
                (noteTargetPath (normalizePath (dailyNotesFolder (settings w))))
                (monthFolder (normalizePath (dailyNotesFolder (settings w)))) w) as H1.
  rewrite <- sortDailyNotes_runPass in H1.
  destruct (sortDailyNotes todayStamp w) as [[e|[]] wA]; simpl in H1; [exact H1|].
  eapply archivistOnly_trans; [exact H1|].
  rewrite sortSummaries_runPass. apply runPass_archivistOnly.
Qed.

Lemma archivistOnly_proj {A} (f : Event -> option A) (w w' : World) :
  (forall e, archivistEvent e = true -> f e = None) ->
  archivistOnly w w' -> omap f (trace w') = omap f (trace w).
Proof.
  intros Hf (_ & _ & events & -> & Hall). rewrite omap_app.
  assert (Hnil : omap f events = []).
  { induction Hall as [|e l He _ IH]; [reflexivity|]. simpl.
    now rewrite (Hf e He). }
  rewrite Hnil. apply app_nil_r.
Qed.

Lemma archivistOnly_requests (w w' : World) :
  archivistOnly w w' -> requests (trace w') = requests (trace w).
Proof.
  intros H. unfold requests. apply archivistOnly_proj; [|exact H].
  intros [] He; try reflexivity; discriminate.
Qed.

Lemma archivistOnly_writes (w w' : World) :
  archivistOnly w w' -> writes (trace w') = writes (trace w).
Proof.
  intros H. unfold writes. apply archivistOnly_proj; [|exact H].
  intros [] He; try reflexivity; discriminate.
Qed.

Lemma archivistOnly_notices (w w' : World) :
  archivistOnly w w' -> notices (trace w') = notices (trace w).
Proof.
  intros H. unfold notices. apply archivistOnly_proj; [|exact H].
  intros [] He; try reflexivity; discriminate.
Qed.

Lemma archivistOnly_saves (w w' : World) :
  archivistOnly w w' -> saves (trace w') = saves (trace w).
Proof.
  intros H. unfold saves. apply archivistOnly_proj; [|exact H].
  intros [] He; try reflexivity; discriminate.
Qed.

Lemma omap_emit {A} (f : Event -> option A) (e : Event) (w : World) :
  omap f (trace (emit e w))
  = omap f (trace w) ++ match f e with Some a => [a] | None => [] end.
Proof. simpl. rewrite omap_app. simpl. destruct (f e); reflexivity. Qed.

Lemma sortNowCommand_unfold (now yesterdayDate : Date) (w : World) :
  sortNowCommand now yesterdayDate w
  = match sortDailyNotesAndSummaries_run (getLocalDateStamp now)
            (getYesterdayStamp yesterdayDate) w with
    | (inl e, w') => (inl e, w')
    | (inr _, w') => (inr tt, emit (Noticed "Daily notes and summaries sorted") w')
    end.
Proof.
  unfold sortNowCommand, bind, getYesterdayStamp. cbv zeta.
  destruct (sortDailyNotesAndSummaries_run _ _ w) as [[e|[]] wA]; reflexivity.
Qed.

(** X19: the command that sorts on demand runs the archivist with the
    day of its first reading of the clock and the day before its second
    reading; it issues no request, writes and saves nothing and keeps
    the settings; it shows its notice exactly when the archivist ran to
    its end, and lets a storage error through otherwise. *)
Theorem sort_command_only_sorts (w : World) (now yesterdayDate : Date) :
  let run := sortDailyNotesAndSummaries_run (getLocalDateStamp now)
               (getYesterdayStamp yesterdayDate) w in
  let wf := snd (sortNowCommand now yesterdayDate w) in
  fst (sortNowCommand now yesterdayDate w) = fst run
  /\ requests (trace wf) = requests (trace w)
  /\ writes (trace wf) = writes (trace w)
  /\ saves (trace wf) = saves (trace w)
  /\ settings wf = settings w
  /\ renames (trace wf) = renames (trace (snd run))
  /\ vault wf = vault (snd run)
  /\ notices (trace wf)
     = notices (trace w)
       ++ (match fst run with
           | inr _ => ["Daily notes and summaries sorted"]
           | inl _ => []
           end).
Proof.
  cbv zeta. rewrite sortNowCommand_unfold.
  pose proof (archivist_archivistOnly (getLocalDateStamp now)
                (getYesterdayStamp yesterdayDate) w) as Ha.
  destruct (sortDailyNotesAndSummaries_run _ _ w) as [[e|[]] wA];
    simpl in Ha; cbn [fst snd];
    pose proof (archivistOnly_requests _ _ Ha) as Hr;
    pose proof (archivistOnly_writes _ _ Ha) as Hw;
    pose proof (archivistOnly_saves _ _ Ha) as Hs;
    pose proof (archivistOnly_notices _ _ Ha) as Hn.
  - rewrite app_nil_r. repeat split; try assumption; try reflexivity. apply Ha.
  - unfold requests, writes, saves, renames, notices in *.
    rewrite !omap_emit. cbv beta iota. rewrite !app_nil_r.
    repeat split; try assumption; try reflexivity; [apply Ha|].
    now rewrite Hn.
Qed.

Lemma processYesterdayIfNeeded_unfold (now gateNow noteNow : Date) (force : bool)
    (w : World) :
  processYesterdayIfNeeded now gateNow noteNow force w
  = if sortDailyNotesAndSummaries (settings w) then
      match sortDailyNotesAndSummaries_run (getLocalDateStamp now)
              (getYesterdayStamp now) w with
      | (inl e, w') => (inl e, w')
      | (inr _, w') =>
          processDateIfNeeded gateNow noteNow (getYesterdayStamp now) force w'
      end
    else processDateIfNeeded gateNow noteNow (getYesterdayStamp now) force w.
Proof.
  unfold processYesterdayIfNeeded, getYesterdayStamp. cbv zeta.
  unfold bind at 1, getSettings at 1. cbv beta iota.
  unfold bind at 1.
  destruct (sortDailyNotesAndSummaries (settings w)); [|reflexivity].
  destruct (sortDailyNotesAndSummaries_run _ _ w) as [[e|[]] wA]; reflexivity.
Qed.

Lemma compare_refl_s (a : string) : String.compare a a = Eq.
Proof.
  induction a as [|c a IH]; [reflexivity|]. simpl.
  unfold Ascii.compare. now rewrite N.compare_refl.
Qed.

Lemma isDateStampBefore_irrefl (a : string) : isDateStampBefore a a = false.
Proof. unfold isDateStampBefore, Js.lt, String.ltb. now rewrite compare_refl_s. Qed.

(** The archivist leaves a summary alone whose key is not before
    yesterday's. *)
Lemma archivist_keeps_recent_summary (w : World) (todayStamp yesterdayStamp : string)
    (out d text : string) :
  DigitStamp d ->
  Js.pop (Js.split "/" out) = d +:+ "_summary.md" ->
  isDateStampBefore d yesterdayStamp = false ->
  files (vault w) !! out = Some text ->
  files (vault (snd (sortDailyNotesAndSummaries_run todayStamp yesterdayStamp w)))
    !! out = Some text.
Proof.
  intros Hd Hname Hrecent Hfile.
  destruct (archivist_relocates w todayStamp yesterdayStamp)
    as (m1 & m2 & _ & H1 & H2 & Hkeep & _).
  destruct (Hkeep out text Hfile) as [Hstay | (t & Hin & _)]; [exact Hstay|].
  exfalso. rewrite List.Forall_forall in H1, H2.
  apply in_app_or in Hin. destruct Hin as [Hin | Hin].
  - destruct (H1 _ Hin) as [dir Hp]. simpl in Hp.
    apply notePlan_inv in Hp. destruct Hp as (d' & Hd' & _).
    rewrite Hname, (summary_name_is_no_note d Hd) in Hd'. discriminate.
  - destruct (H2 _ Hin) as [dir Hp]. simpl in Hp.
    apply summaryPlan_inv in Hp. destruct Hp as (d' & Hd' & _ & Hb & _).
    rewrite Hname in Hd'. unfold getSummaryDateStamp in Hd'.
    rewrite (matchStampHead_digits d _ Hd) in Hd'. simpl in Hd'.
    injection Hd' as <-. congruence.
Qed.

Lemma summaryPath_name (s : DailyNotesDigestSettings) (now : Date) (d : string) :
  DigitStamp d ->
  Js.pop (Js.split "/" (getSummaryPath s now d)) = d +:+ "_summary.md".
Proof.
  intros Hd. unfold getSummaryPath. cbv zeta.
  apply (resolver_name (outputFolder s) d "_summary.md" _ Hd summary_md_segment).
Qed.

(** A world whose summary for [d] is in place: the unforced day
    processor returns at once. *)
Lemma gate_closed (w : World) (gateNow noteNow : Date) (d text : string) :
  files (vault w) !! getSummaryPath (settings w) gateNow d = Some text ->
  processDateIfNeeded gateNow noteNow d false w = (inr tt, w).
Proof.
  intros Hfile. rewrite processDateIfNeeded_unfold. unfold gateOpen.
  now rewrite (vault_exists_file _ _ _ Hfile).
Qed.

(** What a heartbeat that wrote has done: the archivist, if sorting is
    on, ran to its end, and the day processor persisted yesterday's
    summary. *)
Lemma heartbeat_wrote (w : World) (now gateNow noteNow : Date) (force : bool) :
  writes (trace (snd (processYesterdayIfNeeded now gateNow noteNow force w)))
  <> writes (trace w) ->
  exists w2 text,
    settings w2 = settings w
    /\ snd (processYesterdayIfNeeded now gateNow noteNow force w)
       = persisted (getYesterdayStamp now)
           (getSummaryPath (settings w) gateNow (getYesterdayStamp now))
           text w2.
Proof.
  rewrite processYesterdayIfNeeded_unfold.
  set (yesterday := getYesterdayStamp now).
  assert (Hday : forall wA,
    archivistOnly w wA ->
    writes (trace (snd (processDateIfNeeded gateNow noteNow yesterday force wA)))
    <> writes (trace w) ->
    exists w2 text,
      settings w2 = settings w
      /\ snd (processDateIfNeeded gateNow noteNow yesterday force wA)
         = persisted yesterday (getSummaryPath (settings w) gateNow yesterday)
             text w2).
  { intros wA Ha Hneq. pose proof Ha as (HsA & _).
    destruct (processDate_outcome wA gateNow noteNow yesterday force)
      as (wf & Hrun & [Hq | (raw & summary & w2 & _ & _ & Hfo & ->)]);
      rewrite Hrun in Hneq |- *; cbn [snd] in Hneq |- *.
    - exfalso. apply Hneq. destruct Hq as (_ & _ & _ & _ & Hw & _).
      rewrite Hw. now apply archivistOnly_writes.
    - destruct (after_request_fields _ _ _ Hfo) as ((_ & F2 & _) & _).
      exists w2, (writtenContent yesterday summary).
      rewrite HsA. split; [congruence | reflexivity]. }
  destruct (sortDailyNotesAndSummaries (settings w)).
  - pose proof (archivist_archivistOnly (getLocalDateStamp now) yesterday w)
      as Ha.
    destruct (sortDailyNotesAndSummaries_run _ _ w) as [[e|[]] wA]; simpl in Ha.
    + intros Hneq. exfalso. apply Hneq. now apply archivistOnly_writes.
    + now apply Hday.
  - apply Hday, archivistOnly_refl.
Qed.

(** The summary path depends on the clock through the day only. *)
Lemma getSummaryPath_same_day (s : DailyNotesDigestSettings) (now later : Date)
    (d : string) :
  validDate now -> validDate later ->
  getLocalDateStamp later = getLocalDateStamp now ->
  getYesterdayStamp later = getYesterdayStamp now
  /\ getSummaryPath s later d = getSummaryPath s now d.
Proof.
  intros V1 V2 H.
  destruct (getLocalDateStamp_inj later now V2 V1 H) as (Hy & Hm & Hd).
  pose proof (getYesterdayStamp_of_fields later now Hy Hm Hd) as E.
  split; [exact E|]. unfold getSummaryPath. now rewrite E.
Qed.

(** X20: once a heartbeat has written yesterday's summary, a later
    heartbeat issues no request, writes and saves nothing and shows no
    notice, whether or not sorting is on, provided the readings of the
    clock that decide the day and the summary path (the one of each
    heartbeat and the one of each call of [getSummaryPath]) fall on the
    same calendar day.  The readings in [getDailyNotePath] are free. *)
Theorem heartbeat_summarises_once (w : World) (force : bool)
    (now gateNow noteNow now' gateNow' noteNow' : Date) :
  validDate now -> 1001 <= fullYear now <= 9999 ->
  onDay (getLocalDateStamp now) gateNow ->
  onDay (getLocalDateStamp now) now' ->
  onDay (getLocalDateStamp now) gateNow' ->
  let w1 := snd (processYesterdayIfNeeded now gateNow noteNow force w) in
  writes (trace w1) <> writes (trace w) ->
  let w2 := snd (processYesterdayIfNeeded now' gateNow' noteNow' false w1) in
  requests (trace w2) = requests (trace w1)
  /\ writes (trace w2) = writes (trace w1)
  /\ saves (trace w2) = saves (trace w1)
  /\ notices (trace w2) = notices (trace w1).
Proof.
  intros Hvalid Hyear [Vg Hg] [Vn' Hn'] [Vg' Hg']. cbv zeta. intros Hneq.
  destruct (heartbeat_wrote w now gateNow noteNow force Hneq)
    as (w0 & text & Hs0 & ->).
  set (yesterday := getYesterdayStamp now) in *.
  set (out := getSummaryPath (settings w) gateNow yesterday) in *.
  assert (Hcanon : DigitStamp yesterday).
  { apply canonicalKey_iff.
    apply (getLocalDateStamp_canonical_aux (yesterdayOf now)).
    - now apply yesterdayOf_valid.
    - unfold fourDigitYear, yesterdayOf, setDate.
      destruct (1 <=? date now - 1); simpl; [lia|].
      destruct (month now =? 0); simpl; lia. }
  set (w1 := persisted yesterday out text w0) in *.
  destruct (persisted_fields yesterday out text w0)
    as (P1 & _ & P3 & _). fold w1 in P1, P3.
  destruct (getSummaryPath_same_day (settings w) now now' yesterday
              Hvalid Vn' Hn') as [Hyest _].
  assert (Hpath : getSummaryPath (settings w) gateNow' yesterday = out).
  { unfold out.
    apply (getSummaryPath_same_day (settings w) gateNow gateNow' yesterday Vg Vg').
    congruence. }
  assert (Hout : forall wB, settings wB = settings w1 ->
                   getSummaryPath (settings wB) gateNow' yesterday = out).
  { intros wB HsB. rewrite HsB, P3, getSummaryPath_marker, Hs0. exact Hpath. }
  assert (Hfile : files (vault w1) !! out = Some text).
  { rewrite P1. apply lookup_insert_eq. }
  assert (Hdone : forall wB, archivistOnly w1 wB ->
                    files (vault wB) !! out = Some text ->
                    processDateIfNeeded gateNow' noteNow' yesterday false wB
                    = (inr tt, wB)).
  { intros wB (HsB & _) HfB. apply (gate_closed wB gateNow' noteNow' yesterday text).
    now rewrite (Hout wB HsB). }
  assert (Hsame : forall wB, archivistOnly w1 wB ->
            requests (trace wB) = requests (trace w1)
            /\ writes (trace wB) = writes (trace w1)
            /\ saves (trace wB) = saves (trace w1)
            /\ notices (trace wB) = notices (trace w1)).
  { intros wB Hb.
    split; [now apply archivistOnly_requests|].
    split; [now apply archivistOnly_writes|].
    split; [now apply archivistOnly_saves | now apply archivistOnly_notices]. }
  rewrite processYesterdayIfNeeded_unfold.
  rewrite Hyest. fold yesterday.
  destruct (sortDailyNotesAndSummaries (settings w1)).
  - pose proof (archivist_archivistOnly (getLocalDateStamp now') yesterday w1)
      as Hb.
    pose proof (archivist_keeps_recent_summary w1 (getLocalDateStamp now')
                  yesterday out yesterday text Hcanon
                  (summaryPath_name _ _ _ Hcanon)
                  (isDateStampBefore_irrefl yesterday) Hfile) as Hkept.
    destruct (sortDailyNotesAndSummaries_run _ _ w1) as [[e|[]] wB];
      simpl in Hb, Hkept.
    + now apply Hsame.
    + rewrite (Hdone wB Hb Hkept). now apply Hsame.
  - rewrite (Hdone w1 (archivistOnly_refl w1) Hfile).
    apply Hsame, archivistOnly_refl.
Qed.

Lemma heartbeat_summarises_once_witness :
  let w1 := snd (processYesterdayIfNeeded exampleNow exampleNow exampleNow false
                   (noteWorld true (fun _ => inr (okResponse "Summary text")))) in
  let w2 := snd (processYesterdayIfNeeded lateEvening lateEvening nextMidnight
                   false w1) in
  requests (trace w2) = requests (trace w1)
  /\ writes (trace w2) = writes (trace w1)
  /\ saves (trace w2) = saves (trace w1)
  /\ notices (trace w2) = notices (trace w1).
Proof.
  intros w1 w2.
  apply (heartbeat_summarises_once
           (noteWorld true (fun _ => inr (okResponse "Summary text"))) false
           exampleNow exampleNow exampleNow lateEvening lateEvening nextMidnight).
  - unfold validDate. vm_compute. repeat split; discriminate.
  - vm_compute. split; discriminate.
  - split; [unfold validDate; vm_compute; repeat split; discriminate | reflexivity].
  - split; [unfold validDate; vm_compute; repeat split; discriminate | reflexivity].
  - split; [unfold validDate; vm_compute; repeat split; discriminate | reflexivity].
  - vm_compute. discriminate.
Defined.

(** Without the proviso the heartbeat repeats itself.  The first
    heartbeat, on 21 February, archives the note of the 20th and writes
    its summary directly into the output folder.  The second reads the
    clock a millisecond before midnight, so yesterday is still the 20th
    and the archivist leaves the summary where it is; [getSummaryPath]
    then reads the clock after midnight, takes the 20th for a day before
    yesterday and looks under the year and the month, where no summary
    is: a second request goes out and a second summary is written. *)
Example heartbeat_across_midnight :
  let w1 := snd (processYesterdayIfNeeded exampleNow exampleNow exampleNow false
                   (noteWorld true (fun _ => inr (okResponse "Summary text")))) in
  let w2 := snd (processYesterdayIfNeeded lateEvening nextMidnight nextMidnight
                   false w1) in
  List.map fst (writes (trace w1)) = ["Daily Summaries/2026-02-20_summary.md"]
  /\ List.map fst (writes (trace w2))
     = ["Daily Summaries/2026-02-20_summary.md";
        "Daily Summaries/2026/02/2026-02-20_summary.md"]
  /\ List.length (requests (trace w1)) = 1%nat
  /\ List.length (requests (trace w2)) = 2%nat.
Proof. vm_compute. repeat split. Qed.

(** A file stays where it is unless its name is that of a dated note
    with a key other than today's, or that of a dated summary with a
    key before yesterday's. *)
Lemma archivist_leaves (w : World) (todayStamp yesterdayStamp p text : string) :
  files (vault w) !! p = Some text ->
  (forall d, getDailyNoteDateStamp (Js.pop (Js.split "/" p)) = Some d ->
             d = todayStamp) ->
  (forall d, getSummaryDateStamp (Js.pop (Js.split "/" p)) = Some d ->
             isDateStampBefore d yesterdayStamp = false) ->
  files (vault (snd (sortDailyNotesAndSummaries_run todayStamp yesterdayStamp w)))
    !! p = Some text.
Proof.
  intros Hfile Hnote Hsummary.
  destruct (archivist_relocates w todayStamp yesterdayStamp)
    as (m1 & m2 & _ & H1 & H2 & Hkeep & _).
  destruct (Hkeep p text Hfile) as [Hstay | (t & Hin & _)]; [exact Hstay|].
  exfalso. rewrite List.Forall_forall in H1, H2.
  apply in_app_or in Hin. destruct Hin as [Hin | Hin].
  - destruct (H1 _ Hin) as [dir Hp]. simpl in Hp.
    apply notePlan_inv in Hp. destruct Hp as (d & Hd & _ & Hne & _).
    apply Hne. now apply Hnote.
  - destruct (H2 _ Hin) as [dir Hp]. simpl in Hp.
    apply summaryPlan_inv in Hp. destruct Hp as (d & Hd & _ & Hb & _).
    rewrite (Hsummary d Hd) in Hb. discriminate.
Qed.

(** X21: whatever its outcome, a run of the archivist leaves a file
    where it is, with its text, unless the file name is that of a dated
    note with a key other than today's or that of a dated summary with
    a key before yesterday's: today's note, recent summaries and files
    with other names are never moved. *)
Theorem archivist_leaves_other_files (w : World)
    (todayStamp yesterdayStamp p text : string) :
  files (vault w) !! p = Some text ->
  (forall d, getDailyNoteDateStamp (Js.pop (Js.split "/" p)) = Some d ->
             d = todayStamp) ->
  (forall d, getSummaryDateStamp (Js.pop (Js.split "/" p)) = Some d ->
             isDateStampBefore d yesterdayStamp = false) ->
  files (vault (snd (sortDailyNotesAndSummaries_run todayStamp yesterdayStamp w)))
    !! p = Some text.
Proof. exact (archivist_leaves w todayStamp yesterdayStamp p text). Qed.

Lemma archivist_leaves_other_files_witness :
  files (vault (snd (sortDailyNotesAndSummaries_run "2026-02-21" "2026-02-20"
                       archiveWorld)))
    !! "Daily/2026-02-21.md" = Some "n2"
  /\ files (vault (snd (sortDailyNotesAndSummaries_run "2026-02-21" "2026-02-20"
                          archiveWorld)))
       !! "Daily/todo.md" = Some "n3"
  /\ files (vault (snd (sortDailyNotesAndSummaries_run "2026-02-21" "2026-02-20"
                          archiveWorld)))
       !! "Daily Summaries/2026-02-20_summary.md" = Some "s2".
Proof.
  split; [|split].
  - apply (archivist_leaves_other_files archiveWorld "2026-02-21" "2026-02-20"
             "Daily/2026-02-21.md" "n2").
    + vm_compute. reflexivity.
    + intros d. vm_compute. now intros [= <-].
    + intros d. vm_compute. discriminate.
  - apply (archivist_leaves_other_files archiveWorld "2026-02-21" "2026-02-20"
             "Daily/todo.md" "n3").
    + vm_compute. reflexivity.
    + intros d. vm_compute. discriminate.
    + intros d. vm_compute. discriminate.
  - apply (archivist_leaves_other_files archiveWorld "2026-02-21" "2026-02-20"
             "Daily Summaries/2026-02-20_summary.md" "s2").
    + vm_compute. reflexivity.
    + intros d. vm_compute. discriminate.
    + intros d. vm_compute. now intros [= <-].
Defined.

(** ** The settings tab *)

Lemma trimEnd_idempotent (s : string) : Js.trimEnd (Js.trimEnd s) = Js.trimEnd s.
Proof.
  induction s as [|c r IH]; [reflexivity|]. simpl.
  destruct (Js.trimEnd r) as [|d r'] eqn:E.
  - destruct (Js.isWhiteSpace c) eqn:Hc; [reflexivity|]. simpl. now rewrite Hc.
  - change (Js.trimEnd (String c (String d r')))
      with (match Js.trimEnd (String d r') with
            | "" => if Js.isWhiteSpace c then "" else String c ""
            | x => String c x
            end).
    now rewrite IH.
Qed.

Lemma trim_idempotent (s : string) : Js.trim (Js.trim s) = Js.trim s.
Proof.
  destruct (trim_head s) as [H | (c & r & H & Hc)].
  - now rewrite H.
  - unfold Js.trim at 1. rewrite H. simpl Js.trimStart. rewrite Hc.
    rewrite <- H. unfold Js.trim. apply trimEnd_idempotent.
Qed.

Lemma orElse_trimmed (value fallback : string) :
  fallback <> "" -> Js.trim fallback = fallback ->
  orElse (Js.trim value) fallback <> ""
  /\ Js.trim (orElse (Js.trim value) fallback) = orElse (Js.trim value) fallback
  /\ (Js.trim value <> "" -> orElse (Js.trim value) fallback = Js.trim value)
  /\ (Js.trim value = "" -> orElse (Js.trim value) fallback = fallback).
Proof.
  intros Hne Htr. unfold orElse.
  destruct (Js.trim value) as [|c r] eqn:E; simpl.
  - repeat split; auto. congruence.
  - rewrite <- E. repeat split; try congruence. apply trim_idempotent.
Qed.

(** X22: whatever is typed into the settings tab, the notes folder, the
    output folder, the model name, the endpoint and the key are stored
    without white space around them; a blank entry for one of the first
    three stores its default, so these three are never empty; each
    handler saves the changed settings and leaves the vault alone. *)
Theorem text_settings_are_trimmed (value : string) (w : World) :
  storedText (onChange_dailyNotesFolder value) dailyNotesFolder
    (orElse (Js.trim value) "Daily") w
  /\ storedText (onChange_outputFolder value) outputFolder
       (orElse (Js.trim value) "Daily Summaries") w
  /\ storedText (onChange_model value) model
       (orElse (Js.trim value) "gpt-4o-mini") w
  /\ storedText (onChange_llmEndpoint value) llmEndpoint (Js.trim value) w
  /\ storedText (onChange_apiKey value) apiKey (Js.trim value) w
  /\ orElse (Js.trim value) "Daily" <> ""
  /\ orElse (Js.trim value) "Daily Summaries" <> ""
  /\ orElse (Js.trim value) "gpt-4o-mini" <> "".
Proof.
  assert (Hs : forall (t : list Event) (s : DailyNotesDigestSettings),
             saves (t ++ [SavedData s]) = saves t ++ [s]).
  { intros t s. unfold saves. now rewrite omap_app. }
  unfold storedText. cbv zeta.
  repeat split; try apply Hs; try apply trim_idempotent;
    try (apply orElse_trimmed; [discriminate | reflexivity]).
Qed.

(** *** The check interval *)

Lemma digitValue_char (k : N) : (k < 10)%N -> digitValue (pretty_N_char k) = Z.of_N k.
Proof.
  intros Hk.
  assert (E : (k = 0 \/ k = 1 \/ k = 2 \/ k = 3 \/ k = 4 \/ k = 5 \/ k = 6
               \/ k = 7 \/ k = 8 \/ k = 9)%N) by lia.
  repeat (destruct E as [->|E]); try subst k; reflexivity.
Qed.

Lemma isDigit_char (k : N) : isDigit (pretty_N_char k) = true.
Proof.
  unfold pretty_N_char. destruct k as [|p]; [reflexivity|].
  do 4 (destruct p as [p|p|]; try reflexivity).
Qed.

Lemma digitsValue_go (x : N) (s : string) :
  digitsValue 0 (pretty_N_go x s) = digitsValue (Z.of_N x) s.
Proof.
  revert s. induction (N.lt_wf_0 x) as [x _ IH]; intros s.
  destruct (N.eq_dec x 0%N) as [->|Hx]; [now rewrite pretty_N_go_0|].
  rewrite pretty_N_go_step by lia.
  rewrite IH by (apply N.div_lt; lia). cbn [digitsValue].
  rewrite digitValue_char by (apply N.mod_lt; lia).
  f_equal. rewrite N2Z.inj_div, N2Z.inj_mod. change (Z.of_N 10) with 10.
  pose proof (Z.div_mod (Z.of_N x) 10 ltac:(lia)). lia.
Qed.

Lemma digitsPrefix_go (x : N) (s : string) :
  digitsPrefix (pretty_N_go x s) = pretty_N_go x (digitsPrefix s).
Proof.
  revert s. induction (N.lt_wf_0 x) as [x _ IH]; intros s.
  destruct (N.eq_dec x 0%N) as [->|Hx]; [now rewrite !pretty_N_go_0|].
  rewrite (pretty_N_go_step x s), (pretty_N_go_step x (digitsPrefix s)) by lia.
  rewrite IH by (apply N.div_lt; lia). cbn [digitsPrefix].
  now rewrite isDigit_char.
Qed.

Lemma digit_is_plain (c : ascii) :
  isDigit c = true ->
  Js.isWhiteSpace c = false /\ c <> "-"%char /\ c <> "+"%char.
Proof.
  destruct c as [[] [] [] [] [] [] [] []]; simpl; intros H;
    try discriminate H; repeat split; discriminate.
Qed.

(** The decimal digits of a whole number below 2^53 parse back to it. *)
Lemma parseInt10_pretty (n : Z) :
  0 <= n < 2 ^ 53 -> parseInt10 (pretty n) = Finite n.
Proof.
  intros Hn.
  assert (Hsmall : toDouble n = Finite n).
  { unfold toDouble. cbv zeta. rewrite Z.abs_eq by lia.
    destruct (Z.ltb_spec n (2 ^ 53)); [reflexivity | lia]. }
  destruct n as [|p|p]; [reflexivity| |lia].
  change (pretty (Z.pos p)) with (pretty (N.pos p)).
  unfold pretty, pretty_N. destruct (decide (N.pos p = 0%N)) as [|_]; [discriminate|].
  set (x := N.pos p) in *.
  pose proof (digitsValue_go x "") as Hv. simpl in Hv.
  pose proof (digitsPrefix_go x "") as Hp. simpl in Hp.
  destruct (pretty_N_go x "") as [|c r] eqn:E.
  { simpl in Hv. unfold x in Hv. discriminate. }
  assert (Hc : isDigit c = true).
  { simpl in Hp. destruct (isDigit c); [reflexivity | discriminate]. }
  destruct (digit_is_plain c Hc) as (Hws & Hminus & Hplus).
  unfold parseInt10. cbv zeta. simpl Js.trimStart. rewrite Hws.
  assert (Hsign : signAndRest (String c r) = (1, String c r)).
  { unfold signAndRest.
    destruct c as [[] [] [] [] [] [] [] []]; try reflexivity; congruence. }
  rewrite Hsign, Hp. cbn [Js.truthy negb].
  rewrite Hv. change (Z.of_N x) with (Z.pos p).
  rewrite Z.mul_1_l. exact Hsmall.
Qed.

(** Below 2^53 every whole number is a double. *)
Lemma toDouble_small (z : Z) : Z.abs z < 2 ^ 53 -> toDouble z = Finite z.
Proof.
  intros Hz. unfold toDouble. cbv zeta.
  destruct (Z.ltb_spec (Z.abs z) (2 ^ 53)); [reflexivity | lia].
Qed.

(** Rounding does not take a number below a double under it. *)
Lemma toDouble_atLeast (lo z : Z) :
  0 <= lo < 2 ^ 53 -> lo <= z -> atLeast lo (toDouble z).
Proof.
  intros Hlo Hz. unfold toDouble. cbv zeta.
  destruct (Z.ltb_spec (Z.abs z) (2 ^ 53)) as [_|Hbig]; [exact Hz|].
  rewrite Z.abs_eq in * by lia.
  set (e := Z.log2 z - 52).
  set (q := z / 2 ^ e). set (r := z mod 2 ^ e).
  set (q' := if (2 ^ (e - 1) <? r) || ((r =? 2 ^ (e - 1)) && Z.odd q)
             then q + 1 else q).
  assert (Hpos : 0 < z) by lia.
  pose proof (Z.log2_spec z Hpos) as [Hlow _].
  assert (Hlog : 53 <= Z.log2 z).
  { apply Z.log2_le_pow2; [lia|]. lia. }
  assert (He : 1 <= e) by (unfold e; lia).
  assert (Hpow : 0 < 2 ^ e) by (apply Z.pow_pos_nonneg; lia).
  assert (Hq : 2 ^ 52 <= q).
  { unfold q. apply Z.div_le_lower_bound; [exact Hpow|].
    rewrite Z.mul_comm, <- Z.pow_add_r by lia.
    replace (52 + e) with (Z.log2 z) by (unfold e; lia). exact Hlow. }
  assert (Hq' : q <= q') by (unfold q'; destruct (_ || _); lia).
  assert (Hv : 2 ^ 53 <= q' * 2 ^ e).
  { assert (H2 : 2 <= 2 ^ e).
    { change 2 with (2 ^ 1) at 1. apply Z.pow_le_mono_r; lia. }
    change (2 ^ 53) with (2 ^ 52 * 2). nia. }
  destruct (2 ^ 1024 <=? q' * 2 ^ e).
  - destruct (Z.ltb_spec z 0); [lia | exact I].
  - simpl. rewrite Z.sgn_pos by lia. lia.
Qed.

Lemma timesDouble_atLeast (lo b : Z) (a : JsNumber) :
  0 <= lo -> 1 <= b -> lo * b < 2 ^ 53 ->
  atLeast lo a -> atLeast (lo * b) (timesDouble a b).
Proof.
  intros Hlo Hb Hsmall Ha. destruct a as [| | |z]; simpl in *; try exact Ha.
  apply toDouble_atLeast; nia.
Qed.

(** X23: whatever is typed as the check interval, the stored interval is
    at least 5 minutes, and so the heartbeat delay is at least 300000
    milliseconds (or infinite); while the interval times 60000 is below
    2^53, the delay is exactly that product, and above it is the
    product as the two multiplications round it.  An entry without a
    leading whole number stores 60; the decimal digits of a whole number
    (below 2^53) store that number, or 5 when it is smaller. *)
Theorem interval_setting_is_clamped (value : string) (w : World) :
  let w' := snd (onChange_checkIntervalMinutes value w) in
  let stored := checkIntervalMinutes (settings w') in
  onChange_checkIntervalMinutes value w = (inr tt, w')
  /\ 5 <= stored
  /\ atLeast 300000 (heartbeatDelay (settings w'))
  /\ heartbeatDelay (settings w') = timesDouble (toDouble (stored * 60)) 1000
  /\ (stored * 60000 < 2 ^ 53 ->
      heartbeatDelay (settings w') = Finite (stored * 60000))
  /\ (digitsPrefix (snd (signAndRest (Js.trimStart value))) = "" -> stored = 60)
  /\ (forall n, 0 <= n < 2 ^ 53 -> value = pretty n -> stored = Z.max 5 n).
Proof.
  cbv zeta.
  assert (Hst : checkIntervalMinutes
                  (settings (snd (onChange_checkIntervalMinutes value w)))
                = intervalOf (parseInt10 value)) by reflexivity.
  unfold heartbeatDelay. cbv zeta. rewrite !Hst.
  set (stored := intervalOf (parseInt10 value)).
  assert (H5 : 5 <= stored).
  { unfold stored, intervalOf. destruct (parseInt10 value); lia. }
  destruct (Z.eqb_spec stored 0) as [|_]; [lia|].
  split; [reflexivity|]. split; [exact H5|]. split; [|split; [|split; [|split]]].
  - change 300000 with (300 * 1000).
    apply timesDouble_atLeast; [lia | lia | reflexivity|].
    change 300 with (5 * 60).
    apply (timesDouble_atLeast 5 60 (Finite stored)); [lia | lia | reflexivity|].
    exact H5.
  - reflexivity.
  - intros Hsmall. cbn [timesDouble].
    rewrite (toDouble_small (stored * 60)) by lia. cbn [timesDouble].
    rewrite toDouble_small by lia. f_equal. lia.
  - intros Hnone. unfold stored, parseInt10. cbv zeta.
    destruct (signAndRest (Js.trimStart value)) as [sign rest].
    cbn [snd] in Hnone. now rewrite Hnone.
  - intros n Hn ->. unfold stored. now rewrite (parseInt10_pretty n Hn).
Qed.

(** Above 2^53 the delay is not the exact product: for 4803839602529
    minutes the product 288230376151740000 lies half way between two
    doubles and rounds to the even one. *)
Example heartbeatDelay_rounds :
  heartbeatDelay
    (settings (snd (onChange_checkIntervalMinutes "4803839602529" gateWorld)))
  = Finite 288230376151740032.
Proof. vm_compute. reflexivity. Qed.

(** ** Where the entry points look *)

Lemma dateBefore_asym (a b : Date) : dateBefore a b = true -> dateBefore b a = false.
Proof.
  rewrite <- (not_true_iff_false (dateBefore b a)), !dateBefore_iff. lia.
Qed.

Lemma fourDigitYear_yesterday (now : Date) :
  1001 <= fullYear now <= 9999 -> fourDigitYear (yesterdayOf now).
Proof.
  intros Hy. unfold fourDigitYear, yesterdayOf, setDate.
  destruct (1 <=? date now - 1); simpl; [lia|].
  destruct (month now =? 0); simpl; lia.
Qed.

(** The parts of the stamp of a date: the year as printed and the
    month, counted from one, in two digits. *)
Lemma getDateParts_stamp (d : Date) :
  validDate d -> fourDigitYear d ->
  getDateParts (getLocalDateStamp d)
  = mkParts (Some (pretty (fullYear d))) (Some (Js.padStart2 (month d + 1))).
Proof.
  intros [Hm Hd] Hy.
  pose proof (daysInMonth_range (fullYear d) (month d)) as R.
  destruct (padStart2_digits (month d + 1)) as (m1 & m2 & Em & Hm1 & Hm2); [lia|].
  destruct (padStart2_digits (date d)) as (d1 & d2 & Ed & Hd1 & Hd2); [lia|].
  unfold getLocalDateStamp. cbv zeta.
  rewrite (pretty_four_digits _ Hy), Em, Ed.
  apply (getDateParts_stampOf _ _ _ _ m1 m2 d1 d2); auto using digitChar_isDigit.
Qed.

(** X24: for a valid clock date with year 1001 to 9999, the paths the
    entry points use when their readings of the clock fall on that
    date.  Today's note and today's summary are looked for
    directly in their folders, and so is yesterday's summary, sorting on
    or off.  Yesterday's note is looked for directly in the notes folder
    when sorting is off, and under the year and the two-digit month of
    yesterday's date when it is on. *)
Theorem entry_point_paths (s : DailyNotesDigestSettings) (now : Date) :
  validDate now -> 1001 <= fullYear now <= 9999 ->
  let today := getLocalDateStamp now in
  let yesterday := getYesterdayStamp now in
  getDailyNotePath s now today
  = normalizePath (dailyNotesFolder s +:+ "/" +:+ today +:+ ".md")
  /\ getSummaryPath s now today
     = normalizePath (outputFolder s +:+ "/" +:+ today +:+ "_summary.md")
  /\ getSummaryPath s now yesterday
     = normalizePath (outputFolder s +:+ "/" +:+ yesterday +:+ "_summary.md")
  /\ getDailyNotePath s now yesterday
     = (if sortDailyNotesAndSummaries s
        then normalizePath
               (dailyNotesFolder s +:+ "/" +:+ pretty (fullYear (yesterdayOf now))
                  +:+ "/" +:+ Js.padStart2 (month (yesterdayOf now) + 1)
                  +:+ "/" +:+ yesterday +:+ ".md")
        else normalizePath (dailyNotesFolder s +:+ "/" +:+ yesterday +:+ ".md")).
Proof.
  intros V Hy. cbv zeta.
  pose proof (yesterdayOf_valid now V) as Vy.
  pose proof (fourDigitYear_yesterday now Hy) as Yy.
  assert (Yn : fourDigitYear now) by (unfold fourDigitYear; lia).
  destruct (yesterdayOf_predecessor now now V V) as [Hbefore _].
  change (getYesterdayStamp now) with (getLocalDateStamp (yesterdayOf now)).
  split; [|split; [|split]].
  - unfold getDailyNotePath. cbv zeta. rewrite String.eqb_refl.
    now rewrite andb_false_r.
  - unfold getSummaryPath.
    change (getYesterdayStamp now) with (getLocalDateStamp (yesterdayOf now)).
    rewrite (stamp_order_aux now (yesterdayOf now) V Vy Yn Yy).
    rewrite (dateBefore_asym _ _ Hbefore). now rewrite andb_false_r.
  - unfold getSummaryPath.
    change (getYesterdayStamp now) with (getLocalDateStamp (yesterdayOf now)).
    rewrite (stamp_order_aux _ _ Vy Vy Yy Yy).
    assert (Hirr : dateBefore (yesterdayOf now) (yesterdayOf now) = false).
    { rewrite <- not_true_iff_false, dateBefore_iff. lia. }
    rewrite Hirr. now rewrite andb_false_r.
  - unfold getDailyNotePath. cbv zeta.
    destruct (sortDailyNotesAndSummaries s); [|reflexivity].
    destruct (String.eqb_spec (getLocalDateStamp (yesterdayOf now))
                (getLocalDateStamp now)) as [E|_].
    { exfalso.
      pose proof (stamp_order_aux (yesterdayOf now) now Vy V Yy Yn) as Ho.
      rewrite E, Hbefore, isDateStampBefore_irrefl in Ho. discriminate. }
    cbn [andb negb]. now rewrite (getDateParts_stamp _ Vy Yy).
Qed.

Lemma entry_point_paths_witness :
  getDailyNotePath (exampleSettings true) (mkDate 2026 0 1 0)
    (getLocalDateStamp (mkDate 2026 0 1 0))
  = normalizePath ("Daily" +:+ "/" +:+ getLocalDateStamp (mkDate 2026 0 1 0) +:+ ".md")
  /\ getDailyNotePath (exampleSettings true) (mkDate 2026 0 1 0)
       (getYesterdayStamp (mkDate 2026 0 1 0))
     = "Daily/2025/12/2025-12-31.md".
Proof.
  destruct (entry_point_paths (exampleSettings true) (mkDate 2026 0 1 0))
    as (H1 & _ & _ & H4).
  - unfold validDate. vm_compute. repeat split; discriminate.
  - vm_compute. split; discriminate.
  - split; [exact H1|]. rewrite H4. reflexivity.
Defined.

(** ** The request of the client *)

(** X25: [callLlm] leaves the vault and the settings alone and logs at
    most one request: none when the trimmed endpoint is empty, and
    otherwise one POST to the endpoint as configured, with the JSON
    content type, with the header [Authorization: Bearer key] (the key
    trimmed) exactly when the trimmed key is not empty, and with the
    model, the messages as given and the temperature 0.2 in its body.
    When the transport rejects the request, [callLlm] throws the
    transport's error as it is. *)
Theorem callLlm_request (messages : list ChatMessage) (w : World) :
  let s := settings w in
  let req := llmRequest s messages in
  let wf := snd (callLlm messages w) in
  vault wf = vault w /\ settings wf = s
  /\ trace wf
     = trace w ++ (if Js.truthy (Js.trim (llmEndpoint s)) then [Requested req] else [])
  /\ req_method req = "POST" /\ req_url req = llmEndpoint s
  /\ req_body req = mkBody (model s) messages "0.2"
  /\ req_headers req
     = ("Content-Type", "application/json")
       :: (if Js.truthy (Js.trim (apiKey s))
           then [("Authorization", "Bearer " +:+ Js.trim (apiKey s))]
           else [])
  /\ (forall e, Js.truthy (Js.trim (llmEndpoint s)) = true ->
        requestUrl w req = inl e -> fst (callLlm messages w) = inl e).
Proof.
  cbv zeta. rewrite callLlm_unfold.
  destruct (Js.truthy (Js.trim (llmEndpoint (settings w)))) eqn:Hep; simpl negb;
    cbv iota zeta.
  - destruct (requestUrl w (llmRequest (settings w) messages)) as [e|resp] eqn:Hreq.
    + cbn [fst snd]. repeat split; try reflexivity.
      intros e' _ [= <-]. reflexivity.
    + destruct (negb (status resp =? 200)); [|destruct (responseContent resp)];
        cbn [fst snd]; repeat split; try reflexivity; intros; discriminate.
  - cbn [fst snd]. rewrite app_nil_r. repeat split; try reflexivity.
    intros; discriminate.
Qed.
